(** * Kifaa scoring monitor: a shallow embedding of [backend/scoring_monitor.py]

    The monitor ingests scoring events, keeps three bounded sliding windows,
    compares window statistics with a baseline and raises alerts; it also
    produces a weekly summary and purges old rows of its SQLite store.

    Conventions of the embedding.
    - Python floats and ints used as measurements are exact rationals [Q];
      comparisons are the exact ones (the constants 0.1, 0.3, 580, ... and
      the quotients of counts compared with them are far apart on the scale
      of the rounding of doubles).  Counters and lengths are [nat] or [Z].
    - [math.sqrt] (inside [statistics.stdev]) is a parameter [sqrt] of the
      model: the sample variance is computed exactly, its root is not
      rational.
    - The wall clock and the availability of the database are oracles read
      through counters kept in the state: the [n]-th call of [time.time()]
      returns [time_source n], the [n]-th [with sqlite3.connect(...)] block
      succeeds iff [db_up n] and is atomic.
    - Methods are computations in a state-and-exception monad [M]; a Python
      exception that escapes a method is the outcome [Raise e], with the
      mutations done before it kept in the state.
    - The logger is a list of records, one constructor per log statement of
      the module. *)

From Stdlib Require Import QArith Qabs Qminmax ZArith List String Sorted Lia Lqa.
From stdpp Require Import gmap strings list fin_maps.

Local Open Scope string_scope.
Local Open Scope list_scope.
Local Open Scope nat_scope.

(** ** Numbers *)

Module Num.

(** [x > y], [x < y] and [x <= y] on Python numbers. *)
Definition gtb (x y : Q) : bool := negb (Qle_bool x y).
Definition ltb (x y : Q) : bool := negb (Qle_bool y x).
Definition leb (x y : Q) : bool := Qle_bool x y.

Definition of_nat (n : nat) : Q := inject_Z (Z.of_nat n).

(** [sum(xs)] *)
Definition sum (xs : list Q) : Q := fold_right Qplus 0%Q xs.

(** [abs(x)] *)
Definition abs (x : Q) : Q := Qabs x.

End Num.

(** ** Exceptions and outcomes *)

Inductive exn : Type :=
| ZeroDivisionError
| StatisticsError
| IndexError
| OperationalError.  (* sqlite3.OperationalError and the other sqlite3 errors *)

Inductive result (A : Type) : Type :=
| Ok (a : A)
| Raise (e : exn).
Arguments Ok {A} a.
Arguments Raise {A} e.

(** [x / y] on floats raises on a zero divisor. *)
Definition py_div (x y : Q) : result Q :=
  if Qeq_bool y 0 then Raise ZeroDivisionError else Ok (x / y)%Q.

(** [data[i]] on a list: a negative index counts from the end. *)
Definition py_index {A} (l : list A) (i : Z) : result A :=
  let n := Z.of_nat (length l) in
  let j := (if i <? 0 then n + i else i)%Z in
  if (j <? 0)%Z then Raise IndexError
  else match nth_error l (Z.to_nat j) with
       | Some x => Ok x
       | None => Raise IndexError
       end.

(** [sorted(data)]: stable insertion into an ascending list. *)
Fixpoint insert_sorted {A} (le : A -> A -> bool) (x : A) (l : list A) : list A :=
  match l with
  | [] => [x]
  | y :: l' => if le x y then x :: l else y :: insert_sorted le x l'
  end.

Definition sort_by {A} (le : A -> A -> bool) (l : list A) : list A :=
  fold_right (insert_sorted le) [] l.

Definition sorted (data : list Q) : list Q := sort_by Qle_bool data.

(** ** The [statistics] module *)

Module statistics.

(** the value of [mean] on a non-empty list *)
Definition mean_val (xs : list Q) : Q :=
  (Num.sum xs / Num.of_nat (length xs))%Q.

(** [statistics.mean(xs)] *)
Definition mean (xs : list Q) : result Q :=
  match xs with
  | [] => Raise StatisticsError
  | _ => Ok (mean_val xs)
  end.

(** the value of [statistics.variance(xs)], the sample variance (divisor
    n - 1), on a list of two points or more *)
Definition variance_val (xs : list Q) : Q :=
  let m := mean_val xs in
  (Num.sum (map (fun x => (x - m) * (x - m)) xs)
   / Num.of_nat (length xs - 1))%Q.

Section Stdev.
Variable sqrt : Q -> Q.

(** [statistics.stdev(xs)]: the root of the sample variance; it needs two
    points. *)
Definition stdev (xs : list Q) : result Q :=
  match xs with
  | [] | [_] => Raise StatisticsError
  | _ => Ok (sqrt (variance_val xs))
  end.

End Stdev.

End statistics.

(** ** Data model *)

Inductive Severity : Type := low | medium | high | critical.

Inductive AlertType : Type :=
| response_time_spike
| score_distribution_shift
| traffic_spike
| high_error_rate
| repeat_user_requests
| repeat_ip_requests.

(** A value of the [metrics] dict of an alert. *)
Inductive MetricValue : Type :=
| MNum (q : Q)
| MCount (n : nat)
| MStr (s : string).

(** The payloads are taken to be well typed: [response_data] holds the
    numeric fields, so that ['credit_score'], when it is there, is a number.
    A payload whose [credit_score] is not a number is outside this model: the
    source appends it to the score window as it is, and [statistics.mean]
    then raises [TypeError]. *)
Record ScoringEvent : Type := {
  timestamp : Q;
  user_id : string;
  api_key : string;
  request_data : gmap string Q;
  response_data : gmap string Q;   (* the numeric fields of the payload *)
  processing_time : Q;
  ip_address : string;
  user_agent : string;
  status_code : Z;
  error_message : option string
}.

Record AnomalyAlert : Type := {
  alert_timestamp : Q;
  alert_type : AlertType;
  severity : Severity;
  description : string;             (* the fixed part of the f-string *)
  affected_entities : list string;
  metrics : list (string * MetricValue);
  recommendations : list string
}.

Definition metric (a : AnomalyAlert) (k : string) : option MetricValue :=
  snd <$> List.find (fun kv => String.eqb (fst kv) k) (metrics a).

Inductive LogRecord : Type :=
| ErrorLoadingBaseline (e : exn)
| ErrorPersistingEvent (e : exn)
| ErrorPersistingAlert (e : exn)
| AnomalyAlertWarning (a : AnomalyAlert)
| CleanupCompleted (events_deleted alerts_deleted : nat)
| ErrorDuringCleanup (e : exn)
| ErrorGeneratingWeeklySummary (e : exn).

(** The two tables of the SQLite file, rows in insertion order. *)
Record Store : Type := {
  scoring_events : list ScoringEvent;
  anomaly_alerts : list AnomalyAlert
}.

(** The fields of a [ScoringMonitor] instance. *)
Record ScoringMonitor : Type := {
  window_size : nat;
  alert_threshold : Z;
  recent_events : list ScoringEvent;
  recent_scores : list Q;
  recent_response_times : list Q;
  baseline_metrics : gmap string Q;
  alerts : list AnomalyAlert;
  user_request_counts : gmap string nat;
  ip_request_counts : gmap string nat
}.

(** What the monitor acts on besides itself. *)
Record World : Type := {
  store : Store;
  log : list LogRecord;
  clock_reads : nat;
  db_ops : nat
}.

Record State : Type := {
  self : ScoringMonitor;
  world : World
}.

(** *** Field updates *)

Definition set_recent_events (v : list ScoringEvent) (m : ScoringMonitor) : ScoringMonitor :=
  {| window_size := window_size m; alert_threshold := alert_threshold m;
     recent_events := v; recent_scores := recent_scores m;
     recent_response_times := recent_response_times m;
     baseline_metrics := baseline_metrics m; alerts := alerts m;
     user_request_counts := user_request_counts m;
     ip_request_counts := ip_request_counts m |}.

Definition set_recent_scores (v : list Q) (m : ScoringMonitor) : ScoringMonitor :=
  {| window_size := window_size m; alert_threshold := alert_threshold m;
     recent_events := recent_events m; recent_scores := v;
     recent_response_times := recent_response_times m;
     baseline_metrics := baseline_metrics m; alerts := alerts m;
     user_request_counts := user_request_counts m;
     ip_request_counts := ip_request_counts m |}.

Definition set_recent_response_times (v : list Q) (m : ScoringMonitor) : ScoringMonitor :=
  {| window_size := window_size m; alert_threshold := alert_threshold m;
     recent_events := recent_events m; recent_scores := recent_scores m;
     recent_response_times := v;
     baseline_metrics := baseline_metrics m; alerts := alerts m;
     user_request_counts := user_request_counts m;
     ip_request_counts := ip_request_counts m |}.

Definition set_baseline_metrics (v : gmap string Q) (m : ScoringMonitor) : ScoringMonitor :=
  {| window_size := window_size m; alert_threshold := alert_threshold m;
     recent_events := recent_events m; recent_scores := recent_scores m;
     recent_response_times := recent_response_times m;
     baseline_metrics := v; alerts := alerts m;
     user_request_counts := user_request_counts m;
     ip_request_counts := ip_request_counts m |}.

Definition set_alerts (v : list AnomalyAlert) (m : ScoringMonitor) : ScoringMonitor :=
  {| window_size := window_size m; alert_threshold := alert_threshold m;
     recent_events := recent_events m; recent_scores := recent_scores m;
     recent_response_times := recent_response_times m;
     baseline_metrics := baseline_metrics m; alerts := v;
     user_request_counts := user_request_counts m;
     ip_request_counts := ip_request_counts m |}.

Definition set_user_request_counts (v : gmap string nat) (m : ScoringMonitor) : ScoringMonitor :=
  {| window_size := window_size m; alert_threshold := alert_threshold m;
     recent_events := recent_events m; recent_scores := recent_scores m;
     recent_response_times := recent_response_times m;
     baseline_metrics := baseline_metrics m; alerts := alerts m;
     user_request_counts := v;
     ip_request_counts := ip_request_counts m |}.

Definition set_ip_request_counts (v : gmap string nat) (m : ScoringMonitor) : ScoringMonitor :=
  {| window_size := window_size m; alert_threshold := alert_threshold m;
     recent_events := recent_events m; recent_scores := recent_scores m;
     recent_response_times := recent_response_times m;
     baseline_metrics := baseline_metrics m; alerts := alerts m;
     user_request_counts := user_request_counts m;
     ip_request_counts := v |}.

Definition set_store (v : Store) (w : World) : World :=
  {| store := v; log := log w; clock_reads := clock_reads w; db_ops := db_ops w |}.

Definition set_log (v : list LogRecord) (w : World) : World :=
  {| store := store w; log := v; clock_reads := clock_reads w; db_ops := db_ops w |}.

Definition set_clock_reads (v : nat) (w : World) : World :=
  {| store := store w; log := log w; clock_reads := v; db_ops := db_ops w |}.

Definition set_db_ops (v : nat) (w : World) : World :=
  {| store := store w; log := log w; clock_reads := clock_reads w; db_ops := v |}.

Definition on_self (f : ScoringMonitor -> ScoringMonitor) (s : State) : State :=
  {| self := f (self s); world := world s |}.

Definition on_world (f : World -> World) (s : State) : State :=
  {| self := self s; world := f (world s) |}.

(** ** The monad of methods *)

Definition M (A : Type) : Type := State -> result A * State.

Definition ret {A} (a : A) : M A := fun s => (Ok a, s).

Definition bind {A B} (m : M A) (k : A -> M B) : M B :=
  fun s =>
    match m s with
    | (Ok a, s') => k a s'
    | (Raise e, s') => (Raise e, s')
    end.

Definition lift {A} (r : result A) : M A := fun s => (r, s).

(** [try: m  except Exception as e: h e] *)
Definition try_except {A} (m : M A) (h : exn -> M A) : M A :=
  fun s =>
    match m s with
    | (Ok a, s') => (Ok a, s')
    | (Raise e, s') => h e s'
    end.

Definition gets {A} (f : ScoringMonitor -> A) : M A := fun s => (Ok (f (self s)), s).

Definition modify (f : ScoringMonitor -> ScoringMonitor) : M unit :=
  fun s => (Ok tt, on_self f s).

Declare Scope monitor_scope.
Delimit Scope monitor_scope with monitor.
Notation "x <- c1 ;; c2" := (bind c1 (fun x => c2))
  (at level 100, c1 at next level, c2 at level 200, right associativity)
  : monitor_scope.
Notation "c1 ;; c2" := (bind c1 (fun _ => c2))
  (at level 100, c2 at level 200, right associativity) : monitor_scope.
Local Open Scope monitor_scope.

(** the outcome and the final state of a method call *)
Definition outcome {A} (m : M A) (s : State) : result A := fst (m s).
Definition after {A} (m : M A) (s : State) : State := snd (m s).

(** [logger.error], [logger.warning], [logger.info] *)
Definition logger (r : LogRecord) : M unit :=
  fun s => (Ok tt, on_world (fun w => set_log (log w ++ [r]) w) s).

(** ** Containers *)

(** [collections.deque(maxlen=n).append(x)]: the item goes to the right end,
    then the left end is dropped when the length exceeds [maxlen]. *)
Definition deque_append {A} (maxlen : nat) (d : list A) (x : A) : list A :=
  let d' := d ++ [x] in
  if maxlen <? length d' then tl d' else d'.

(** [d[k]] on a [defaultdict(int)]: a missing key is entered with 0. *)
Definition defaultdict_get (k : string) (d : gmap string nat) : nat * gmap string nat :=
  match d !! k with
  | Some n => (n, d)
  | None => (0, <[k := 0]> d)
  end.

(** [d[k] += 1] on a [defaultdict(int)] *)
Definition defaultdict_incr (k : string) (d : gmap string nat) : gmap string nat :=
  let '(n, d') := defaultdict_get k d in <[k := n + 1]> d'.

(** [d.get(k, dflt)] *)
Definition dict_get (d : gmap string Q) (k : string) (dflt : Q) : Q :=
  default dflt (d !! k).

(** ** Alerts built by the detectors *)

Definition response_time_alert (current_time avg_time baseline_avg spike : Q)
    (event : ScoringEvent) : AnomalyAlert :=
  {| alert_timestamp := current_time;
     alert_type := response_time_spike;
     severity := high;
     description := "Response time spike detected";
     affected_entities := [api_key event];
     metrics := [("current_avg_time", MNum avg_time);
                 ("baseline_avg_time", MNum baseline_avg);
                 ("spike_factor", MNum spike)];
     recommendations := ["Check system resources and database performance";
                         "Review recent model changes";
                         "Consider scaling infrastructure"] |}.

Definition score_shift_alert (current_time recent_avg baseline_avg : Q)
    (sev : Severity) : AnomalyAlert :=
  {| alert_timestamp := current_time;
     alert_type := score_distribution_shift;
     severity := sev;
     description := "Score distribution shift";
     affected_entities := ["scoring_model"];
     metrics := [("current_avg_score", MNum recent_avg);
                 ("baseline_avg_score", MNum baseline_avg);
                 ("deviation", MNum (Num.abs (recent_avg - baseline_avg)))];
     recommendations := ["Review model performance and training data";
                         "Check for data quality issues";
                         "Consider model retraining"] |}.

Definition traffic_alert (current_time : Q) (current_rate : nat)
    (baseline_rate spike : Q) : AnomalyAlert :=
  {| alert_timestamp := current_time;
     alert_type := traffic_spike;
     severity := medium;
     description := "Traffic spike detected";
     affected_entities := ["api_gateway"];
     metrics := [("current_rate", MCount current_rate);
                 ("baseline_rate", MNum baseline_rate);
                 ("spike_factor", MNum spike)];
     recommendations := ["Monitor system capacity";
                         "Check for potential DDoS or bot activity";
                         "Consider rate limiting adjustments"] |}.

Definition error_rate_alert (current_time error_rate : Q) (sev : Severity)
    (total_requests error_requests : nat) : AnomalyAlert :=
  {| alert_timestamp := current_time;
     alert_type := high_error_rate;
     severity := sev;
     description := "High error rate detected";
     affected_entities := ["api_service"];
     metrics := [("error_rate", MNum error_rate);
                 ("total_requests", MCount total_requests);
                 ("error_requests", MCount error_requests)];
     recommendations := ["Check application logs for error details";
                         "Review recent deployments";
                         "Monitor system health"] |}.

Definition repeat_user_alert (current_time : Q) (event : ScoringEvent)
    (count : nat) : AnomalyAlert :=
  {| alert_timestamp := current_time;
     alert_type := repeat_user_requests;
     severity := medium;
     description := "User has made too many requests";
     affected_entities := [user_id event];
     metrics := [("user_id", MStr (user_id event));
                 ("request_count", MCount count)];
     recommendations := ["Review user behavior patterns";
                         "Consider implementing user-specific rate limits";
                         "Check for potential abuse"] |}.

Definition repeat_ip_alert (current_time : Q) (event : ScoringEvent)
    (count : nat) : AnomalyAlert :=
  {| alert_timestamp := current_time;
     alert_type := repeat_ip_requests;
     severity := high;
     description := "IP has made too many requests";
     affected_entities := [ip_address event];
     metrics := [("ip_address", MStr (ip_address event));
                 ("request_count", MCount count)];
     recommendations := ["Implement IP-based rate limiting";
                         "Check for bot or scraping activity";
                         "Consider blocking suspicious IPs"] |}.

(** ** The monitor *)

Section Monitor.

(** the readings of [time.time()], in the order of the calls *)
Variable time_source : nat -> Q.
(** whether the n-th [with sqlite3.connect(...)] block goes through *)
Variable db_up : nat -> bool.
(** [math.sqrt] *)
Variable sqrt : Q -> Q.

Definition time_time : M Q :=
  fun s =>
    let n := clock_reads (world s) in
    (Ok (time_source n), on_world (set_clock_reads (S n)) s).

(** [with sqlite3.connect(self.db_path) as conn: body]: the block commits
    when [body] returns and rolls back when it raises. *)
Definition with_connect {A} (body : M A) : M A :=
  fun s =>
    let n := db_ops (world s) in
    let s1 := on_world (set_db_ops (S n)) s in
    if db_up n then
      match body s1 with
      | (Ok a, s2) => (Ok a, s2)
      | (Raise e, s2) => (Raise e, on_world (set_store (store (world s1))) s2)
      end
    else (Raise OperationalError, s1).

(** [INSERT INTO scoring_events ...] *)
Definition insert_event (e : ScoringEvent) : M unit :=
  fun s =>
    (Ok tt,
     on_world (fun w =>
       set_store {| scoring_events := scoring_events (store w) ++ [e];
                    anomaly_alerts := anomaly_alerts (store w) |} w) s).

(** [INSERT INTO anomaly_alerts ...] *)
Definition insert_alert (a : AnomalyAlert) : M unit :=
  fun s =>
    (Ok tt,
     on_world (fun w =>
       set_store {| scoring_events := scoring_events (store w);
                    anomaly_alerts := anomaly_alerts (store w) ++ [a] |} w) s).

(** [SELECT ... FROM scoring_events ...] with [fetchall()], for a query [q]
    on the rows, and the same on the alerts *)
Definition fetch_events (q : list ScoringEvent -> list ScoringEvent) : M (list ScoringEvent) :=
  fun s => (Ok (q (scoring_events (store (world s)))), s).

Definition fetch_alerts (q : list AnomalyAlert -> list AnomalyAlert) : M (list AnomalyAlert) :=
  fun s => (Ok (q (anomaly_alerts (store (world s)))), s).

(** [WHERE timestamp > ? ORDER BY timestamp DESC LIMIT 1000]: the rows come
    newest first, and rows with equal timestamps last-inserted first, as
    SQLite gives them when it walks the index on [timestamp] backwards. *)
Definition recent_history (since : Q) (rows : list ScoringEvent) : list ScoringEvent :=
  take 1000
    (sort_by (fun a b => Qle_bool (timestamp b) (timestamp a))
       (rev (List.filter (fun e => Num.gtb (timestamp e) since) rows))).

(** [WHERE timestamp BETWEEN ? AND ? ORDER BY timestamp] *)
Definition events_between (start_time end_time : Q) (rows : list ScoringEvent)
    : list ScoringEvent :=
  sort_by (fun a b => Qle_bool (timestamp a) (timestamp b))
    (List.filter (fun e => Qle_bool start_time (timestamp e)
                           && Qle_bool (timestamp e) end_time) rows).

Definition alerts_between (start_time end_time : Q) (rows : list AnomalyAlert)
    : list AnomalyAlert :=
  sort_by (fun a b => Qle_bool (alert_timestamp a) (alert_timestamp b))
    (List.filter (fun a => Qle_bool start_time (alert_timestamp a)
                           && Qle_bool (alert_timestamp a) end_time) rows).

(** [DELETE FROM scoring_events WHERE p], giving [cursor.rowcount] *)
Definition delete_events (p : ScoringEvent -> bool) : M nat :=
  fun s =>
    let rows := scoring_events (store (world s)) in
    (Ok (length (List.filter p rows)),
     on_world (fun w =>
       set_store {| scoring_events := List.filter (fun e => negb (p e)) rows;
                    anomaly_alerts := anomaly_alerts (store w) |} w) s).

Definition delete_alerts (p : AnomalyAlert -> bool) : M nat :=
  fun s =>
    let rows := anomaly_alerts (store (world s)) in
    (Ok (length (List.filter p rows)),
     on_world (fun w =>
       set_store {| scoring_events := scoring_events (store w);
                    anomaly_alerts := List.filter (fun a => negb (p a)) rows |} w) s).

(** [os.makedirs(os.path.dirname(self.db_path), exist_ok=True)] is taken to
    go through: the directory of the database file exists or can be made, as
    for the default path [data/scoring_monitor.db] in a working directory
    that can be written.  A path without a directory part, for which
    [os.makedirs] raises [FileNotFoundError], is outside this model.  Then
    [CREATE TABLE IF NOT EXISTS ...] and [CREATE INDEX IF NOT EXISTS ...]:
    the rows are left as they are. *)
Definition _init_database : M unit := with_connect (ret tt).

Definition default_baseline (now : Q) : gmap string Q :=
  list_to_map [("avg_processing_time", 1 # 2); ("std_processing_time", 1 # 5);
               ("avg_score", 500); ("std_score", 150);
               ("requests_per_hour", 10); ("last_updated", now)]%Q.

(** the ['credit_score'] entries of the events that carry one *)
Definition scores_of (events : list ScoringEvent) : list Q :=
  omap (fun e => response_data e !! "credit_score") events.

Definition _load_baseline_metrics : M unit :=
  try_except
    (with_connect
       (t <- time_time ;;
        events <- fetch_events (recent_history (t - 7 * 24 * 3600)) ;;
        match events with
        | _ :: _ =>
            let processing_times := map processing_time events in
            let scores := scores_of events in
            avg_pt <- lift (statistics.mean processing_times) ;;
            std_pt <- (if 1 <? length processing_times
                       then lift (statistics.stdev sqrt processing_times)
                       else ret 0%Q) ;;
            avg_sc <- (match scores with
                       | _ :: _ => lift (statistics.mean scores)
                       | [] => ret 500%Q
                       end) ;;
            std_sc <- (if 1 <? length scores
                       then lift (statistics.stdev sqrt scores)
                       else ret 100%Q) ;;
            now <- time_time ;;
            modify (set_baseline_metrics
                      (list_to_map
                         [("avg_processing_time", avg_pt);
                          ("std_processing_time", std_pt);
                          ("avg_score", avg_sc);
                          ("std_score", std_sc);
                          ("requests_per_hour",
                           (Num.of_nat (length events) / (7 * 24))%Q);
                          ("last_updated", now)]))
        | [] =>
            now <- time_time ;;
            modify (set_baseline_metrics (default_baseline now))
        end))
    (fun e =>
       logger (ErrorLoadingBaseline e) ;;
       now <- time_time ;;
       modify (set_baseline_metrics (default_baseline now))).

(** [ScoringMonitor(db_path, window_size, alert_threshold)] *)
Definition __init__ (window_size : nat) (alert_threshold : Z) : M unit :=
  modify (fun _ =>
    {| window_size := window_size; alert_threshold := alert_threshold;
       recent_events := []; recent_scores := []; recent_response_times := [];
       baseline_metrics := ∅; alerts := [];
       user_request_counts := ∅; ip_request_counts := ∅ |}) ;;
  _init_database ;;
  _load_baseline_metrics.

Definition _persist_event (event : ScoringEvent) : M unit :=
  try_except (with_connect (insert_event event))
             (fun e => logger (ErrorPersistingEvent e)).

Definition _trigger_alert (alert : AnomalyAlert) : M unit :=
  modify (fun m => set_alerts (alerts m ++ [alert]) m) ;;
  try_except (with_connect (insert_alert alert))
             (fun e => logger (ErrorPersistingAlert e)) ;;
  logger (AnomalyAlertWarning alert) ;;
  t <- time_time ;;
  let cutoff_time := (t - 24 * 3600)%Q in
  modify (fun m =>
    set_alerts (List.filter (fun a => Num.gtb (alert_timestamp a) cutoff_time)
                            (alerts m)) m).

(** *** The five detectors *)

Definition _detect_response_time_anomalies (event : ScoringEvent)
    (current_time : Q) : M unit :=
  times <- gets recent_response_times ;;
  if length times <? 10 then ret tt
  else
    avg_time <- lift (statistics.mean times) ;;
    baseline_avg <- gets (fun m => dict_get (baseline_metrics m) "avg_processing_time" (1 # 2)) ;;
    baseline_std <- gets (fun m => dict_get (baseline_metrics m) "std_processing_time" (1 # 5)) ;;
    if Num.gtb avg_time (baseline_avg + 3 * baseline_std)
    then
      spike <- lift (py_div avg_time baseline_avg) ;;
      _trigger_alert (response_time_alert current_time avg_time baseline_avg spike event)
    else ret tt.

Definition _detect_score_anomalies (event : ScoringEvent)
    (current_time : Q) : M unit :=
  scores <- gets recent_scores ;;
  if length scores <? 20 then ret tt
  else
    recent_avg <- lift (statistics.mean scores) ;;
    baseline_avg <- gets (fun m => dict_get (baseline_metrics m) "avg_score" 500) ;;
    baseline_std <- gets (fun m => dict_get (baseline_metrics m) "std_score" 150) ;;
    if Num.gtb (Num.abs (recent_avg - baseline_avg)) (2 * baseline_std)
    then
      let sev := if Num.gtb (Num.abs (recent_avg - baseline_avg)) (3 * baseline_std)
                 then high else medium in
      _trigger_alert (score_shift_alert current_time recent_avg baseline_avg sev)
    else ret tt.

(** the events of the window stamped within the hour before [current_time] *)
Definition last_hour (current_time : Q) (events : list ScoringEvent) : list ScoringEvent :=
  List.filter (fun e => Num.gtb (timestamp e) (current_time - 3600)) events.

Definition _detect_request_pattern_anomalies (event : ScoringEvent)
    (current_time : Q) : M unit :=
  events <- gets recent_events ;;
  let recent_hour_events := last_hour current_time events in
  let current_rate := length recent_hour_events in
  baseline_rate <- gets (fun m => dict_get (baseline_metrics m) "requests_per_hour" 10) ;;
  if Num.gtb (Num.of_nat current_rate) (baseline_rate * 5)
  then
    spike <- lift (py_div (Num.of_nat current_rate) baseline_rate) ;;
    _trigger_alert (traffic_alert current_time current_rate baseline_rate spike)
  else ret tt.

(** the events with [status_code >= 400] *)
Definition errors_of (events : list ScoringEvent) : list ScoringEvent :=
  List.filter (fun e => (400 <=? status_code e)%Z) events.

Definition _detect_error_rate_anomalies (current_time : Q) : M unit :=
  events <- gets recent_events ;;
  let recent_events := last_hour current_time events in
  if length recent_events <? 10 then ret tt
  else
    let error_events := errors_of recent_events in
    error_rate <- lift (py_div (Num.of_nat (length error_events))
                               (Num.of_nat (length recent_events))) ;;
    if Num.gtb error_rate (1 # 10)
    then
      let sev := if Num.gtb error_rate (3 # 10) then critical else high in
      _trigger_alert (error_rate_alert current_time error_rate sev
                        (length recent_events) (length error_events))
    else ret tt.

Definition _detect_repeat_request_anomalies (event : ScoringEvent)
    (current_time : Q) : M unit :=
  counts <- gets user_request_counts ;;
  let '(user_recent_requests, counts') := defaultdict_get (user_id event) counts in
  modify (set_user_request_counts counts') ;;
  (if 50 <? user_recent_requests
   then _trigger_alert (repeat_user_alert current_time event user_recent_requests)
   else ret tt) ;;
  counts <- gets ip_request_counts ;;
  let '(ip_recent_requests, counts') := defaultdict_get (ip_address event) counts in
  modify (set_ip_request_counts counts') ;;
  if 100 <? ip_recent_requests
  then _trigger_alert (repeat_ip_alert current_time event ip_recent_requests)
  else ret tt.

Definition _detect_anomalies (event : ScoringEvent) : M unit :=
  events <- gets recent_events ;;
  threshold <- gets alert_threshold ;;
  if (Z.of_nat (length events) <? threshold)%Z then ret tt
  else
    current_time <- time_time ;;
    _detect_response_time_anomalies event current_time ;;
    _detect_score_anomalies event current_time ;;
    _detect_request_pattern_anomalies event current_time ;;
    _detect_error_rate_anomalies current_time ;;
    _detect_repeat_request_anomalies event current_time.

(** *** Ingestion *)

Definition log_scoring_event (event : ScoringEvent) : M unit :=
  modify (fun m =>
    set_recent_events (deque_append (window_size m) (recent_events m) event) m) ;;
  (match response_data event !! "credit_score" with
   | Some score =>
       modify (fun m =>
         set_recent_scores (deque_append (window_size m) (recent_scores m) score) m)
   | None => ret tt
   end) ;;
  modify (fun m =>
    set_recent_response_times
      (deque_append (window_size m) (recent_response_times m)
                    (processing_time event)) m) ;;
  modify (fun m =>
    set_user_request_counts (defaultdict_incr (user_id event) (user_request_counts m)) m) ;;
  modify (fun m =>
    set_ip_request_counts (defaultdict_incr (ip_address event) (ip_request_counts m)) m) ;;
  _persist_event event ;;
  _detect_anomalies event.

(** a sequence of ingestion calls; a call that raises leaves its mutations
    behind and the caller goes on with the next event *)
Definition ingest_all (events : list ScoringEvent) (s : State) : State :=
  fold_left (fun s e => after (log_scoring_event e) s) events s.

(** *** Retention *)

(** The method has no [return] statement: the value of the call is Python's
    [None], whatever was deleted; the counts only go to the log. *)
Definition cleanup_old_data (days_to_keep : Z) : M (option (nat * nat)) :=
  t <- time_time ;;
  let cutoff_time := (t - inject_Z days_to_keep * 24 * 3600)%Q in
  try_except
    (with_connect
       (events_deleted <- delete_events (fun e => Num.ltb (timestamp e) cutoff_time) ;;
        alerts_deleted <- delete_alerts (fun a => Num.ltb (alert_timestamp a) cutoff_time) ;;
        logger (CleanupCompleted events_deleted alerts_deleted)))
    (fun e => logger (ErrorDuringCleanup e)) ;;
  ret None.

(** *** Weekly summary *)

(** [int(x)] of the quotient of two integers: truncation toward zero. *)
Definition int_div (a b : Z) : Z := Z.quot a b.

Definition _percentile (data : list Q) (percentile : Z) : result Q :=
  match data with
  | [] => Ok 0%Q
  | _ =>
      let sorted_data := sorted data in
      let index := int_div (Z.of_nat (length sorted_data) * percentile) 100 in
      py_index sorted_data (Z.min index (Z.of_nat (length sorted_data) - 1))
  end.

Definition bucket_of (score : Q) : string :=
  if Num.ltb score 580 then "poor (0-579)"
  else if Num.ltb score 670 then "fair (580-669)"
  else if Num.ltb score 740 then "good (670-739)"
  else if Num.ltb score 800 then "very_good (740-799)"
  else "excellent (800-1000)".

Definition empty_distribution : gmap string nat :=
  list_to_map [("poor (0-579)", 0); ("fair (580-669)", 0); ("good (670-739)", 0);
               ("very_good (740-799)", 0); ("excellent (800-1000)", 0)].

(** [distribution[k] += 1]; [k] is always one of the five keys of the
    literal, so the lookup cannot miss. *)
Definition _calculate_score_distribution (scores : list Q) : gmap string nat :=
  match scores with
  | [] => ∅
  | _ =>
      fold_left (fun distribution score =>
                   alter (fun n => n + 1) (bucket_of score) distribution)
                scores empty_distribution
  end.

Definition alert_type_name (t : AlertType) : string :=
  match t with
  | response_time_spike => "response_time_spike"
  | score_distribution_shift => "score_distribution_shift"
  | traffic_spike => "traffic_spike"
  | high_error_rate => "high_error_rate"
  | repeat_user_requests => "repeat_user_requests"
  | repeat_ip_requests => "repeat_ip_requests"
  end.

Definition _count_alert_types (alerts : list AnomalyAlert) : gmap string nat :=
  fold_left (fun alert_types alert =>
               defaultdict_incr (alert_type_name (alert_type alert)) alert_types)
            alerts ∅.

Definition is_severity (sev : Severity) (a : AnomalyAlert) : bool :=
  match sev, severity a with
  | low, low | medium, medium | high, high | critical, critical => true
  | _, _ => false
  end.

Definition _generate_weekly_recommendations (events : list ScoringEvent)
    (alerts : list AnomalyAlert) (scores processing_times : list Q) : list string :=
  let r1 := match processing_times with
            | [] => []
            | _ => if Num.gtb (statistics.mean_val processing_times) 1
                   then ["Consider optimizing API performance - average response time exceeds 1 second"]
                   else []
            end in
  let r2 := if (10000 <? Z.of_nat (length events))%Z
            then ["High volume detected - consider implementing caching and load balancing"]
            else [] in
  let error_count := length (errors_of events) in
  let r3 := match events with
            | [] => []
            | _ => if Num.gtb (Num.of_nat error_count / Num.of_nat (length events)) (5 # 100)
                   then ["Error rate above 5% - review error logs and improve error handling"]
                   else []
            end in
  let r4 := if 20 <? length alerts
            then ["High number of alerts - review alert thresholds and system stability"]
            else [] in
  let r5 := match scores with
            | [] => []
            | _ =>
                let avg_score := statistics.mean_val scores in
                if Num.ltb avg_score 400
                then ["Low average credit scores - review model performance and training data"]
                else if Num.gtb avg_score 800
                then ["High average credit scores - validate model accuracy and potential bias"]
                else []
            end in
  let recommendations := r1 ++ r2 ++ r3 ++ r4 ++ r5 in
  match recommendations with
  | [] => ["System performing well - continue monitoring"]
  | _ => recommendations
  end.

Record VolumeMetrics : Type := {
  total_requests : nat;
  daily_average : Q;
  unique_users : nat;
  unique_partners : nat;
  requests_per_user : Q
}.

Record PerformanceMetrics : Type := {
  avg_response_time : Q;
  p95_response_time : Q;
  error_rate : Q;
  uptime_percentage : Q
}.

Record ScoringMetrics : Type := {
  total_scores_generated : nat;
  avg_credit_score : Q;
  score_distribution : gmap string nat
}.

Record AnomalySummary : Type := {
  total_alerts : nat;
  critical_alerts : nat;
  high_alerts : nat;
  alert_types : gmap string nat
}.

Record SummaryReport : Type := {
  period_start : Q;
  period_end : Q;
  duration_days : nat;
  volume_metrics : VolumeMetrics;
  performance_metrics : PerformanceMetrics;
  scoring_metrics : ScoringMetrics;
  anomaly_summary : AnomalySummary;
  weekly_recommendations : list string
}.

(** the dict the method returns: the summary, or [{"error": str(e)}] *)
Inductive WeeklySummary : Type :=
| Report (r : SummaryReport)
| ErrorReport (e : exn).

Definition count_distinct (l : list string) : nat :=
  size (list_to_set l : gset string).

Definition generate_weekly_summary : M WeeklySummary :=
  end_time <- time_time ;;
  let start_time := (end_time - 7 * 24 * 3600)%Q in
  try_except
    (with_connect
       (events <- fetch_events (events_between start_time end_time) ;;
        alerts <- fetch_alerts (alerts_between start_time end_time) ;;
        let total_requests := length events in
        let unique_users := count_distinct (map user_id events) in
        let unique_partners := count_distinct (map api_key events) in
        let processing_times := map processing_time events in
        let scores := scores_of events in
        let error_count := length (errors_of events) in
        p95 <- (match processing_times with
                | [] => ret 0%Q
                | _ => lift (_percentile processing_times 95)
                end) ;;
        ret (Report
          {| period_start := start_time;
             period_end := end_time;
             duration_days := 7;
             volume_metrics :=
               {| total_requests := total_requests;
                  daily_average := (Num.of_nat total_requests / 7)%Q;
                  unique_users := unique_users;
                  unique_partners := unique_partners;
                  requests_per_user :=
                    if 0 <? unique_users
                    then (Num.of_nat total_requests / Num.of_nat unique_users)%Q
                    else 0%Q |};
             performance_metrics :=
               {| avg_response_time :=
                    match processing_times with
                    | [] => 0%Q
                    | _ => statistics.mean_val processing_times
                    end;
                  p95_response_time := p95;
                  error_rate :=
                    if 0 <? total_requests
                    then (Num.of_nat error_count / Num.of_nat total_requests)%Q
                    else 0%Q;
                  uptime_percentage :=
                    if 0 <? total_requests
                    then (Num.of_nat (total_requests - error_count)
                          / Num.of_nat total_requests * 100)%Q
                    else 100%Q |};
             scoring_metrics :=
               {| total_scores_generated := length scores;
                  avg_credit_score :=
                    match scores with
                    | [] => 0%Q
                    | _ => statistics.mean_val scores
                    end;
                  score_distribution := _calculate_score_distribution scores |};
             anomaly_summary :=
               {| total_alerts := length alerts;
                  critical_alerts := length (List.filter (is_severity critical) alerts);
                  high_alerts := length (List.filter (is_severity high) alerts);
                  alert_types := _count_alert_types alerts |};
             weekly_recommendations :=
               _generate_weekly_recommendations events alerts scores processing_times
          |})))
    (fun e => logger (ErrorGeneratingWeeklySummary e) ;; ret (ErrorReport e)).

End Monitor.

(** ** Observations on states and calls *)

(** [keeps f m]: the call [m] never changes the part [f] of the monitor. *)
Definition keeps {B A} (f : ScoringMonitor -> B) (m : M A) : Prop :=
  forall s, f (self (after m s)) = f (self s).

Definition warnings (l : list LogRecord) : list AnomalyAlert :=
  omap (fun r => match r with AnomalyAlertWarning a => Some a | _ => None end) l.

(** the alerts a call raises from a state: those it passes to
    [_trigger_alert], which logs each of them as a warning *)
Definition fired {A} (m : M A) (s : State) : list AnomalyAlert :=
  drop (length (warnings (log (world s)))) (warnings (log (world (after m s)))).

(** an alert of the given type and severity is among them *)
Definition fires {A} (m : M A) (s : State) (t : AlertType) (sev : Severity) : Prop :=
  exists a, a ∈ fired m s /\ alert_type a = t /\ severity a = sev.

(** the window part and the baseline of the monitor *)
Definition windows (m : ScoringMonitor) :=
  (window_size m, recent_events m, recent_scores m, recent_response_times m).

(** the part of the monitor that no detector writes *)
Definition frame (m : ScoringMonitor) := (windows m, baseline_metrics m, alert_threshold m).

(** [returns_given P m]: from a state whose baseline satisfies [P], the call
    [m] returns normally. *)
Definition returns_given (P : gmap string Q -> Prop) (m : M unit) : Prop :=
  forall s, P (baseline_metrics (self s)) -> outcome m s = Ok tt.

(** the two baseline entries the detectors divide by are not zero *)
Definition divisors_nonzero (baseline : gmap string Q) : Prop :=
  ~ (dict_get baseline "avg_processing_time" (1 # 2) == 0)%Q /\
  ~ (dict_get baseline "requests_per_hour" 10 == 0)%Q.

(** every window is within the configured capacity *)
Definition windows_bounded (s : State) : Prop :=
  length (recent_events (self s)) <= window_size (self s) /\
  length (recent_scores (self s)) <= window_size (self s) /\
  length (recent_response_times (self s)) <= window_size (self s).

(** the number of scores that satisfy [p] *)
Definition count_in (p : Q -> bool) (scores : list Q) : nat :=
  length (List.filter p scores).

(** the five ranges: lower bound included, upper bound excluded *)
Definition is_poor (x : Q) : bool := Num.ltb x 580.
Definition is_fair (x : Q) : bool := Num.leb 580 x && Num.ltb x 670.
Definition is_good (x : Q) : bool := Num.leb 670 x && Num.ltb x 740.
Definition is_very_good (x : Q) : bool := Num.leb 740 x && Num.ltb x 800.
Definition is_excellent (x : Q) : bool := Num.leb 800 x.

(** the distribution dict with the given counts *)
Definition buckets (a b c d e : nat) : gmap string nat :=
  list_to_map [("poor (0-579)", a); ("fair (580-669)", b); ("good (670-739)", c);
               ("very_good (740-799)", d); ("excellent (800-1000)", e)].

(** the cut-off of a cleanup started in state [s] *)
Definition cutoff_of (time_source : nat -> Q) (days_to_keep : Z) (s : State) : Q :=
  (time_source (clock_reads (world s)) - inject_Z days_to_keep * 24 * 3600)%Q.

(** ** Sample data for the examples *)

Definition sample_event (t : Q) (latency : Q) (score : option Q) (code : Z) : ScoringEvent :=
  {| timestamp := t; user_id := "user-1"; api_key := "key-1";
     request_data := ∅;
     response_data := match score with
                      | Some q => {[ "credit_score" := q ]}
                      | None => ∅
                      end;
     processing_time := latency; ip_address := "10.0.0.1";
     user_agent := "kifaa-client"; status_code := code; error_message := None |}.

Definition empty_world : World :=
  {| store := {| scoring_events := []; anomaly_alerts := [] |};
     log := []; clock_reads := 0; db_ops := 0 |}.

(** a monitor of the default configuration with the given baseline and
    window contents, over an empty store *)
Definition monitor_with (baseline : gmap string Q) (events : list ScoringEvent)
    (scores times : list Q) : State :=
  {| self := {| window_size := 1000; alert_threshold := 10;
                recent_events := events; recent_scores := scores;
                recent_response_times := times;
                baseline_metrics := baseline; alerts := [];
                user_request_counts := ∅; ip_request_counts := ∅ |};
     world := empty_world |}.

(** a baseline with the given means and deviations *)
Definition baseline_of (avg_pt std_pt avg_sc std_sc : Q) : gmap string Q :=
  list_to_map [("avg_processing_time", avg_pt); ("std_processing_time", std_pt);
               ("avg_score", avg_sc); ("std_score", std_sc);
               ("requests_per_hour", 10%Q); ("last_updated", 0%Q)].

(** an instance of [sqrt] for the examples: the integer root of n * d over d,
    exact on the squares of rationals *)
Definition sqrt_floor (q : Q) : Q := Z.sqrt (Qnum q * Zpos (Qden q)) # Qden q.

(** a clock stopped at 1000 s, a database that is up, one that is down *)
Definition stopped_clock : nat -> Q := fun _ => 1000%Q.
Definition db_always_up : nat -> bool := fun _ => true.
Definition db_always_down : nat -> bool := fun _ => false.

(** the latency list of the percentile example, and a store of ten events
    of the last week with these latencies *)
Definition latency_sample : list Q :=
  [0.1; 0.2; 0.3; 0.4; 0.5; 0.6; 0.7; 0.8; 0.9; 1.0]%Q.

Definition latency_world : World :=
  set_store {| scoring_events :=
                 map (fun l => sample_event 900 l None 200) latency_sample;
               anomaly_alerts := [] |} empty_world.

(** a store whose only event of the last week took no measurable time, and
    an event that takes a tenth of a second *)
Definition zero_latency_world : World :=
  set_store {| scoring_events := [sample_event 990 0 None 200];
               anomaly_alerts := [] |} empty_world.

Definition slow_event : ScoringEvent := sample_event 1000 (1 # 10) None 200.

(** the monitor built by the constructor over a world *)
Definition boot (time_source : nat -> Q) (db_up : nat -> bool) (window_size : nat)
    (alert_threshold : Z) (w : World) : State :=
  after (__init__ time_source db_up sqrt_floor window_size alert_threshold)
        {| self := self (monitor_with ∅ [] [] []); world := w |}.

(** C7 as the spec words it: some positive floor [eps] replaces a smaller
    stored deviation before the response-time comparison. *)
Definition floors_stddev (eps : Q) : Prop :=
  forall (time_source : nat -> Q) (db_up : nat -> bool) (event : ScoringEvent)
         (current_time : Q) (s : State),
    let m := _detect_response_time_anomalies time_source db_up event current_time in
    let avg := statistics.mean_val (recent_response_times (self s)) in
    let b_avg := dict_get (baseline_metrics (self s)) "avg_processing_time" (1 # 2) in
    let b_std := dict_get (baseline_metrics (self s)) "std_processing_time" (1 # 5) in
    10 <= length (recent_response_times (self s)) ->
    ~ (b_avg == 0)%Q ->
    (fires m s response_time_spike high <-> (b_avg + 3 * Qmax b_std eps < avg)%Q).

(** ** Further observations *)

(** the last [n] entries of a list *)
Definition lastn {A} (n : nat) (l : list A) : list A := drop (length l - n) l.

(** the number of events of a given user, of a given address *)
Definition requests_of_user (u : string) (events : list ScoringEvent) : nat :=
  length (List.filter (fun e => String.eqb (user_id e) u) events).

Definition requests_of_ip (ip : string) (events : list ScoringEvent) : nat :=
  length (List.filter (fun e => String.eqb (ip_address e) ip) events).

(** the value of a lifetime counter, 0 for an actor never seen *)
Definition counter (d : gmap string nat) (k : string) : nat := default 0 (d !! k).

(** two monitors whose lifetime counters have the same values *)
Definition same_counts (m m' : ScoringMonitor) : Prop :=
  forall k, counter (user_request_counts m') k = counter (user_request_counts m) k /\
            counter (ip_request_counts m') k = counter (ip_request_counts m) k.

(** [preserves R m]: the monitor after the call [m] is related by [R] to the
    monitor before it, whether the call returns or raises. *)
Definition preserves {A} (R : ScoringMonitor -> ScoringMonitor -> Prop) (m : M A) : Prop :=
  forall s, R (self s) (self (after m s)).

(** the five rules of the weekly recommendations *)
Definition rule_slow (processing_times : list Q) : bool :=
  match processing_times with
  | [] => false
  | _ => Num.gtb (statistics.mean_val processing_times) 1
  end.

Definition rule_busy (events : list ScoringEvent) : bool :=
  (10000 <? Z.of_nat (length events))%Z.

Definition rule_failing (events : list ScoringEvent) : bool :=
  match events with
  | [] => false
  | _ => Num.gtb (Num.of_nat (length (errors_of events)) / Num.of_nat (length events))
                 (5 # 100)
  end.

Definition rule_noisy (alerts : list AnomalyAlert) : bool := 20 <? length alerts.

Definition rule_skewed (scores : list Q) : bool :=
  match scores with
  | [] => false
  | _ => Num.ltb (statistics.mean_val scores) 400
         || Num.gtb (statistics.mean_val scores) 800
  end.

(** ** The read side of the monitor *)

(** [max(xs)] on a list with first entry [x]: the first of the largest *)
Definition max_val (x : Q) (xs : list Q) : Q :=
  fold_left (fun best y => if Num.gtb y best then y else best) xs x.

(** the dict returned by [get_monitoring_stats] *)
Record MonitoringStats : Type := {
  stats_timestamp : Q;
  total_events_tracked : nat;
  events_last_hour : nat;
  stats_baseline_metrics : gmap string Q;
  current_metrics : gmap string Q;
  alerts_last_24h : nat;
  system_health : string
}.

Section MonitorQueries.

Variable time_source : nat -> Q.
Variable sqrt : Q -> Q.

Definition get_recent_alerts (hours : Z) : M (list AnomalyAlert) :=
  t <- time_time time_source ;;
  let cutoff_time := (t - inject_Z hours * 3600)%Q in
  alerts <- gets alerts ;;
  ret (List.filter (fun alert => Num.gtb (alert_timestamp alert) cutoff_time) alerts).

Definition get_monitoring_stats : M MonitoringStats :=
  current_time <- time_time time_source ;;
  events <- gets recent_events ;;
  let recent_events := last_hour current_time events in
  baseline <- gets baseline_metrics ;;
  last_day <- get_recent_alerts 24 ;;
  let current_metrics : gmap string Q := ∅ in
  times <- gets recent_response_times ;;
  current_metrics <-
    (match times with
     | [] => ret current_metrics
     | x :: xs =>
         avg <- lift (statistics.mean times) ;;
         ret (<["max_response_time" := max_val x xs]>
              (<["avg_response_time" := avg]> current_metrics))
     end) ;;
  scores <- gets recent_scores ;;
  current_metrics <-
    (match scores with
     | [] => ret current_metrics
     | _ =>
         avg <- lift (statistics.mean scores) ;;
         std <- (if 1 <? length scores
                 then lift (statistics.stdev sqrt scores)
                 else ret 0%Q) ;;
         ret (<["score_std" := std]> (<["avg_score" := avg]> current_metrics))
     end) ;;
  current_metrics <-
    (match recent_events with
     | [] => ret current_metrics
     | _ =>
         let error_events := errors_of recent_events in
         rate <- lift (py_div (Num.of_nat (length error_events))
                              (Num.of_nat (length recent_events))) ;;
         ret (<["error_rate" := rate]> current_metrics)
     end) ;;
  last_hour_1 <- get_recent_alerts 1 ;;
  let critical_alerts := List.filter (is_severity critical) last_hour_1 in
  last_hour_2 <- get_recent_alerts 1 ;;
  let high_alerts := List.filter (is_severity high) last_hour_2 in
  system_health <-
    (match critical_alerts with
     | _ :: _ => ret "critical"
     | [] =>
         match high_alerts with
         | _ :: _ => ret "degraded"
         | [] =>
             last_hour_3 <- get_recent_alerts 1 ;;
             if 5 <? length last_hour_3 then ret "warning" else ret "healthy"
         end
     end) ;;
  ret {| stats_timestamp := current_time;
         total_events_tracked := length events;
         events_last_hour := length recent_events;
         stats_baseline_metrics := baseline;
         current_metrics := current_metrics;
         alerts_last_24h := length last_day;
         system_health := system_health |}.

End MonitorQueries.

(** the alerts stamped within [hours] hours before [t] *)
Definition alerts_since (t : Q) (hours : Z) (alerts : list AnomalyAlert) : list AnomalyAlert :=
  List.filter (fun alert => Num.gtb (alert_timestamp alert) (t - inject_Z hours * 3600)) alerts.

(** the world after [k] more readings of the clock *)
Definition tick (k : nat) (s : State) : State :=
  on_world (fun w => set_clock_reads (clock_reads w + k) w) s.

(** the dict of current metrics for given windows and events of the last
    hour *)
Definition metrics_dict (sqrt : Q -> Q) (times scores : list Q)
    (recent : list ScoringEvent) : gmap string Q :=
  let cm1 := match times with
             | [] => ∅
             | x :: xs => <["max_response_time" := max_val x xs]>
                          (<["avg_response_time" := statistics.mean_val times]> ∅)
             end in
  let cm2 := match scores with
             | [] => cm1
             | [_] => <["score_std" := 0%Q]>
                      (<["avg_score" := statistics.mean_val scores]> cm1)
             | _ => <["score_std" := sqrt (statistics.variance_val scores)]>
                    (<["avg_score" := statistics.mean_val scores]> cm1)
             end in
  match recent with
  | [] => cm2
  | _ => <["error_rate" := (Num.of_nat (length (errors_of recent))
                            / Num.of_nat (length recent))%Q]> cm2
  end.


(** an alert stamped [t] of the given severity, and a monitor of the default
    configuration that holds the given alerts in memory *)
Definition sample_alert (t : Q) (sev : Severity) : AnomalyAlert :=
  {| alert_timestamp := t; alert_type := response_time_spike; severity := sev;
     description := "Response time spike detected"; affected_entities := ["user-1"];
     metrics := []; recommendations := [] |}.

Definition alerted (alerts : list AnomalyAlert) : State :=
  on_self (set_alerts alerts) (monitor_with ∅ [] [] []).

(** ** The process: the global instance and its callers *)

(** How a call at the level of the process ends when it does not return:
    with FastAPI's [HTTPException], or with any other exception. *)
Inductive failure : Type :=
| HTTPException (status : Z) (detail : string)   (* the fixed part of the detail *)
| Uncaught (e : exn).

Inductive reply (A : Type) : Type :=
| Returns (a : A)
| Fails (f : failure).
Arguments Returns {A} a.
Arguments Fails {A} f.

(** The module-level state: the global [_monitor_instance] ([None] until the
    first [get_monitor()]), the world outside the process, and the records of
    the root logger. *)
Record Process : Type := {
  _monitor_instance : option ScoringMonitor;
  process_world : World;
  root_errors : list failure
}.

Definition P (A : Type) : Type := Process -> reply A * Process.

Definition p_ret {A} (a : A) : P A := fun p => (Returns a, p).

Definition p_bind {A B} (m : P A) (k : A -> P B) : P B :=
  fun p =>
    match m p with
    | (Returns a, p') => k a p'
    | (Fails f, p') => (Fails f, p')
    end.

(** [raise f] *)
Definition raise {A} (f : failure) : P A := fun p => (Fails f, p).

(** [try: m  except Exception as e: h e]; [HTTPException] is an [Exception]. *)
Definition p_try {A} (m : P A) (h : failure -> P A) : P A :=
  fun p =>
    match m p with
    | (Returns a, p') => (Returns a, p')
    | (Fails f, p') => h f p'
    end.

Declare Scope process_scope.
Delimit Scope process_scope with process.
Notation "x <- c1 ;; c2" := (p_bind c1 (fun x => c2))
  (at level 100, c1 at next level, c2 at level 200, right associativity)
  : process_scope.
Notation "c1 ;; c2" := (p_bind c1 (fun _ => c2))
  (at level 100, c2 at level 200, right associativity) : process_scope.

(** the reply and the final process of a call *)
Definition answer {A} (m : P A) (p : Process) : reply A := fst (m p).
Definition then_ {A} (m : P A) (p : Process) : Process := snd (m p).

(** [logging.error(f"Monitoring error: {e}")] on the root logger *)
Definition logging_error (f : failure) : P unit :=
  fun p =>
    (Returns tt,
     {| _monitor_instance := _monitor_instance p; process_world := process_world p;
        root_errors := root_errors p ++ [f] |}).

(** the object before [__init__] has run on it *)
Definition unbuilt : ScoringMonitor :=
  {| window_size := 0; alert_threshold := 0;
     recent_events := []; recent_scores := []; recent_response_times := [];
     baseline_metrics := ∅; alerts := [];
     user_request_counts := ∅; ip_request_counts := ∅ |}.

(** [str.replace(old, new)] for a non-empty [old]: the occurrences are
    replaced from the left, without overlap. *)
Fixpoint replace_from (old new : string) (skip : nat) (s : string) : string :=
  match s with
  | EmptyString => EmptyString
  | String c rest =>
      match skip with
      | S k => replace_from old new k rest
      | O =>
          if String.prefix old s
          then (new ++ replace_from old new (String.length old - 1) rest)%string
          else String c (replace_from old new 0 rest)
      end
  end.

Definition str_replace (old new s : string) : string := replace_from old new 0 s.

(** the parts of a Starlette request that the middleware reads; the header
    names are in lower case *)
Record Request : Type := {
  url_path : string;
  method : string;
  headers : gmap string string;
  client : option string           (* [request.client.host], when there is a client *)
}.

(** the dict of the health check *)
Record HealthReport : Type := {
  health_status : string;
  health_timestamp : Q;
  health_error : option failure;
  database_accessible : bool;
  total_events : option nat;
  monitoring_active : bool
}.

(** the dict of the cleanup endpoint *)
Record CleanupReply : Type := {
  cleanup_status : string;
  cleanup_days : Z;                (* the number in the message *)
  cleanup_timestamp : Q
}.

(** truthiness of an optional query parameter: [None], the empty string and
    0.0 do not count as given *)
Definition str_given (x : option string) : option string :=
  match x with
  | Some EmptyString => None
  | _ => x
  end.

Definition num_given (x : option Q) : option Q :=
  match x with
  | Some q => if Qeq_bool q 0 then None else Some q
  | None => None
  end.

(** the [WHERE] clause that [get_scoring_events] builds *)
Definition events_where (user_id' api_key' : option string) (start_time end_time : option Q)
    (e : ScoringEvent) : bool :=
  match str_given user_id' with
  | Some u => String.eqb (user_id e) u
  | None => true
  end
  && match str_given api_key' with
     | Some k => String.eqb (api_key e) k
     | None => true
     end
  && match num_given start_time with
     | Some t => Qle_bool t (timestamp e)
     | None => true
     end
  && match num_given end_time with
     | Some t => Qle_bool (timestamp e) t
     | None => true
     end.

(** [SELECT * FROM scoring_events WHERE ... ORDER BY timestamp DESC LIMIT ?]:
    newest first; rows with equal timestamps are given last-inserted first,
    as for [recent_history], an order that SQL leaves open. *)
Definition events_query (limit : nat) (user_id' api_key' : option string)
    (start_time end_time : option Q) (rows : list ScoringEvent) : list ScoringEvent :=
  take limit
    (sort_by (fun a b => Qle_bool (timestamp b) (timestamp a))
       (rev (List.filter (events_where user_id' api_key' start_time end_time) rows))).

(** the number of rows of [scoring_events]: the query of the health check *)
Definition count_events : M nat :=
  fun s => (Ok (length (scoring_events (store (world s)))), s).

(** ["name" in current_user.get("permissions", [])] *)
Definition has_permission (name : string) (current_user : gmap string (list string)) : bool :=
  existsb (String.eqb name) (default [] (current_user !! "permissions")).

Section ProcessLevel.

Variable time_source : nat -> Q.
Variable db_up : nat -> bool.
Variable sqrt : Q -> Q.

Local Open Scope process_scope.

(** [time.time()] outside the monitor *)
Definition p_time : P Q :=
  fun p =>
    let n := clock_reads (process_world p) in
    (Returns (time_source n),
     {| _monitor_instance := _monitor_instance p;
        process_world := set_clock_reads (S n) (process_world p);
        root_errors := root_errors p |}).

(** [monitor.method(...)], and a block that uses [monitor.db_path], for the
    object [monitor] that [get_monitor()] returned: this object is the
    global instance, so the code runs on the instance as it is at the call
    and its mutations stay in the instance. *)
Definition call {A} (monitor : ScoringMonitor) (body : M A) : P A :=
  fun p =>
    let '(r, s) := body {| self := default monitor (_monitor_instance p);
                           world := process_world p |} in
    (match r with
     | Ok a => Returns a
     | Raise e => Fails (Uncaught e)
     end,
     {| _monitor_instance := Some (self s); process_world := world s;
        root_errors := root_errors p |}).

Definition get_monitor : P ScoringMonitor :=
  fun p =>
    match _monitor_instance p with
    | Some monitor => (Returns monitor, p)
    | None =>
        let '(r, s) := __init__ time_source db_up sqrt 1000 10
                         {| self := unbuilt; world := process_world p |} in
        match r with
        | Ok _ =>
            (Returns (self s),
             {| _monitor_instance := Some (self s); process_world := world s;
                root_errors := root_errors p |})
        | Raise e =>
            (Fails (Uncaught e),
             {| _monitor_instance := None; process_world := world s;
                root_errors := root_errors p |})
        end
    end.

Definition log_scoring_request (user_id api_key : string)
    (request_data response_data : gmap string Q) (processing_time : Q)
    (ip_address user_agent : string) (status_code : Z)
    (error_message : option string) : P unit :=
  t <- p_time ;;
  let event := {| timestamp := t; user_id := user_id; api_key := api_key;
                  request_data := request_data; response_data := response_data;
                  processing_time := processing_time; ip_address := ip_address;
                  user_agent := user_agent; status_code := status_code;
                  error_message := error_message |} in
  monitor <- get_monitor ;;
  call monitor (log_scoring_event time_source db_up event).

(** a sequence of scoring requests, each logged through
    [log_scoring_request]; a call that fails leaves its effects behind *)
Definition serve_all (events : list ScoringEvent) (p : Process) : Process :=
  fold_left
    (fun p e =>
       then_ (log_scoring_request (user_id e) (api_key e) (request_data e)
                (response_data e) (processing_time e) (ip_address e)
                (user_agent e) (status_code e) (error_message e)) p)
    events p.

End ProcessLevel.

Module monitor_endpoints.

Section Endpoints.

Variable time_source : nat -> Q.
Variable db_up : nat -> bool.
Variable sqrt : Q -> Q.

Local Open Scope process_scope.

Definition get_monitoring_stats (current_user : gmap string (list string))
    : P MonitoringStats :=
  if negb (has_permission "monitor" current_user)
  then raise (HTTPException 403 "Insufficient permissions")
  else
    monitor <- get_monitor time_source db_up sqrt ;;
    call monitor (get_monitoring_stats time_source sqrt).

(** [hours] is an integer from 1 to 168, [severity] one of the four levels
    or [None]: FastAPI refuses other values before the function runs.  The
    reply holds one dict for each alert, with the alert's fields. *)
Definition get_recent_alerts (hours : Z) (severity : option Severity)
    (current_user : gmap string (list string)) : P (list AnomalyAlert) :=
  if negb (has_permission "monitor" current_user)
  then raise (HTTPException 403 "Insufficient permissions")
  else
    monitor <- get_monitor time_source db_up sqrt ;;
    alerts <- call monitor (get_recent_alerts time_source hours) ;;
    let alerts := match severity with
                  | Some sev => List.filter (is_severity sev) alerts
                  | None => alerts
                  end in
    p_ret alerts.

Definition get_weekly_summary (current_user : gmap string (list string))
    : P WeeklySummary :=
  if negb (has_permission "admin" current_user)
  then raise (HTTPException 403 "Admin permissions required")
  else
    monitor <- get_monitor time_source db_up sqrt ;;
    call monitor (generate_weekly_summary time_source db_up).

(** [limit] is an integer from 1 to 1000.  The reply holds one dict for each
    row of the result. *)
Definition get_scoring_events (limit : nat) (user_id api_key : option string)
    (start_time end_time : option Q) (current_user : gmap string (list string))
    : P (list ScoringEvent) :=
  if negb (has_permission "monitor" current_user)
  then raise (HTTPException 403 "Insufficient permissions")
  else
    monitor <- get_monitor time_source db_up sqrt ;;
    p_try
      (call monitor
         (with_connect db_up
            (fetch_events (events_query limit user_id api_key start_time end_time))))
      (fun e => raise (HTTPException 500 "Error retrieving events")).

Definition monitor_health_check : P HealthReport :=
  monitor <- get_monitor time_source db_up sqrt ;;
  p_try
    (event_count <- call monitor (with_connect db_up count_events) ;;
     t <- p_time time_source ;;
     p_ret {| health_status := "healthy"; health_timestamp := t;
              health_error := None; database_accessible := true;
              total_events := Some event_count; monitoring_active := true |})
    (fun e =>
       t <- p_time time_source ;;
       p_ret {| health_status := "unhealthy"; health_timestamp := t;
                health_error := Some e; database_accessible := false;
                total_events := None; monitoring_active := false |}).

(** [days_to_keep] is an integer from 7 to 365. *)
Definition cleanup_old_data (days_to_keep : Z)
    (current_user : gmap string (list string)) : P CleanupReply :=
  if negb (has_permission "admin" current_user)
  then raise (HTTPException 403 "Admin permissions required")
  else
    monitor <- get_monitor time_source db_up sqrt ;;
    p_try
      (call monitor (cleanup_old_data time_source db_up days_to_keep) ;;
       t <- p_time time_source ;;
       p_ret {| cleanup_status := "success"; cleanup_days := days_to_keep;
                cleanup_timestamp := t |})
      (fun e => raise (HTTPException 500 "Cleanup failed")).

Section Middleware.

(** the response object of the application, of which the middleware reads
    the status code *)
Variable Response : Type.
Variable response_status_code : Response -> Z.

Definition monitoring_middleware (request : Request)
    (call_next : Request -> P Response) : P Response :=
  start_time <- p_time time_source ;;
  let user_agent := default "" (headers request !! "user-agent") in
  let ip_address := match client request with
                    | Some host => host
                    | None => "unknown"
                    end in
  response <- call_next request ;;
  now <- p_time time_source ;;
  let processing_time := (now - start_time)%Q in
  (if String.eqb (url_path request) "/score-user" && String.eqb (method request) "POST"
   then
     p_try
       (let auth_header := default "" (headers request !! "authorization") in
        let api_key := if String.prefix "Bearer " auth_header
                       then str_replace "Bearer " "" auth_header
                       else "unknown" in
        let request_data : gmap string Q := ∅ in
        let response_data : gmap string Q := ∅ in
        let user_id := "unknown" in
        log_scoring_request time_source db_up sqrt user_id api_key request_data
          response_data processing_time ip_address user_agent
          (response_status_code response) None)
       (fun e => logging_error e)
   else p_ret tt) ;;
  p_ret response.

End Middleware.

End Endpoints.

End monitor_endpoints.

(** the global instance, when there is one, has capacity 1000 and no window
    above it *)
Definition instance_bounded (p : Process) : Prop :=
  forall monitor, _monitor_instance p = Some monitor ->
    window_size monitor = 1000 /\
    length (recent_events monitor) <= 1000 /\
    length (recent_scores monitor) <= 1000 /\
    length (recent_response_times monitor) <= 1000.

(** a process in which no monitor has been asked for yet *)
Definition fresh_process (w : World) : Process :=
  {| _monitor_instance := None; process_world := w; root_errors := [] |}.

(** the requests that the middleware logs *)
Definition is_scoring_request (request : Request) : bool :=
  String.eqb (url_path request) "/score-user" && String.eqb (method request) "POST".

(** a reply that FastAPI answers with 403, and one that it answers with 500:
    an [HTTPException] of that status or, for 500, any exception that leaves
    the endpoint *)
Definition forbidden {A} (r : reply A) : bool :=
  match r with
  | Fails (HTTPException status _) => (status =? 403)%Z
  | _ => false
  end.

Definition server_error {A} (r : reply A) : bool :=
  match r with
  | Fails (HTTPException status _) => (status =? 500)%Z
  | Fails (Uncaught _) => true     (* FastAPI answers an unhandled exception with 500 *)
  | Returns _ => false
  end.

(** [never pred m]: no call of [m] ends with a reply that satisfies [pred]. *)
Definition never {A} (pred : reply A -> bool) (m : P A) : Prop :=
  forall p, pred (answer m p) = false.

(** a caller with the given permissions, and the process whose global
    instance is the monitor of a state *)
Definition user_with (permissions : list string) : gmap string (list string) :=
  {[ "permissions" := permissions ]}.

Definition running (s : State) : Process :=
  {| _monitor_instance := Some (self s); process_world := world s; root_errors := [] |}.

(** a store of three events stamped 100, 300 and 200 *)
Definition three_events_world : World :=
  set_store {| scoring_events := [sample_event 100 (1 # 10) None 200;
                                  sample_event 300 (1 # 10) None 200;
                                  sample_event 200 (1 # 10) None 500];
               anomaly_alerts := [] |} empty_world.
(** * Properties *)

(** ** Comparisons *)

Lemma gtb_lt (x y : Q) : Num.gtb x y = true <-> (y < x)%Q.
Proof.
  unfold Num.gtb. rewrite negb_true_iff, <- not_true_iff_false, Qle_bool_iff.
  split; [apply Qnot_le_lt | apply Qlt_not_le].
Qed.

Lemma gtb_le (x y : Q) : Num.gtb x y = false <-> (x <= y)%Q.
Proof. unfold Num.gtb. rewrite negb_false_iff. apply Qle_bool_iff. Qed.

Lemma ltb_lt (x y : Q) : Num.ltb x y = true <-> (x < y)%Q.
Proof. apply (gtb_lt y x). Qed.

Lemma of_nat_pos (n : nat) : 0 < n -> (0 < Num.of_nat n)%Q.
Proof.
  intros H. unfold Num.of_nat, Qlt. simpl. lia.
Qed.

Lemma of_nat_nonzero (n : nat) : 0 < n -> Qeq_bool (Num.of_nat n) 0 = false.
Proof.
  intros H. apply not_true_iff_false. rewrite Qeq_bool_iff.
  intros E. apply of_nat_pos in H. rewrite E in H. discriminate.
Qed.

Lemma mean_nonempty (xs : list Q) :
  xs <> [] -> statistics.mean xs = Ok (statistics.mean_val xs).
Proof. destruct xs; [congruence | reflexivity]. Qed.

(** ** What a method leaves alone *)

Create HintDb keeps.

Lemma keeps_ret {B A} (f : ScoringMonitor -> B) (a : A) : keeps f (ret a).
Proof. intros s. reflexivity. Qed.

Lemma keeps_lift {B A} (f : ScoringMonitor -> B) (r : result A) : keeps f (lift r).
Proof. intros s. reflexivity. Qed.

Lemma keeps_gets {B A} (f : ScoringMonitor -> B) (g : ScoringMonitor -> A) :
  keeps f (gets g).
Proof. intros s. reflexivity. Qed.

Lemma keeps_logger {B} (f : ScoringMonitor -> B) (r : LogRecord) : keeps f (logger r).
Proof. intros s. reflexivity. Qed.

Lemma keeps_bind {B A C} (f : ScoringMonitor -> B) (m : M A) (k : A -> M C) :
  keeps f m -> (forall a, keeps f (k a)) -> keeps f (bind m k).
Proof.
  intros Hm Hk s. unfold after, bind. specialize (Hm s). unfold after in Hm.
  destruct (m s) as [[a | e] s']; simpl in *; [| exact Hm].
  rewrite <- Hm. apply Hk.
Qed.

Lemma keeps_try_except {B A} (f : ScoringMonitor -> B) (m : M A) (h : exn -> M A) :
  keeps f m -> (forall e, keeps f (h e)) -> keeps f (try_except m h).
Proof.
  intros Hm Hh s. unfold after, try_except. specialize (Hm s). unfold after in Hm.
  destruct (m s) as [[a | e] s']; simpl in *; [exact Hm |].
  rewrite <- Hm. apply Hh.
Qed.

Lemma keeps_modify {B} (f : ScoringMonitor -> B) (g : ScoringMonitor -> ScoringMonitor) :
  (forall m, f (g m) = f m) -> keeps f (modify g).
Proof. intros H s. apply H. Qed.

Lemma keeps_if {B A} (f : ScoringMonitor -> B) (b : bool) (m1 m2 : M A) :
  keeps f m1 -> keeps f m2 -> keeps f (if b then m1 else m2).
Proof. destruct b; auto. Qed.

#[local] Hint Resolve keeps_ret keeps_lift keeps_gets keeps_logger : keeps.

Section MonitorFacts.

Variable time_source : nat -> Q.
Variable db_up : nat -> bool.

Lemma keeps_time_time {B} (f : ScoringMonitor -> B) : keeps f (time_time time_source).
Proof. intros s. reflexivity. Qed.

Lemma keeps_with_connect {B A} (f : ScoringMonitor -> B) (body : M A) :
  keeps f body -> keeps f (with_connect db_up body).
Proof.
  intros Hb s. unfold after, with_connect.
  destruct (db_up _); [| reflexivity].
  specialize (Hb (on_world (set_db_ops (S (db_ops (world s)))) s)).
  unfold after in Hb.
  destruct (body _) as [[a | e] s']; simpl in *; exact Hb.
Qed.

Lemma keeps_insert_event {B} (f : ScoringMonitor -> B) e : keeps f (insert_event e).
Proof. intros s. reflexivity. Qed.

Lemma keeps_insert_alert {B} (f : ScoringMonitor -> B) a : keeps f (insert_alert a).
Proof. intros s. reflexivity. Qed.

Lemma keeps_fetch_events {B} (f : ScoringMonitor -> B) q : keeps f (fetch_events q).
Proof. intros s. reflexivity. Qed.

Lemma keeps_fetch_alerts {B} (f : ScoringMonitor -> B) q : keeps f (fetch_alerts q).
Proof. intros s. reflexivity. Qed.

Lemma keeps_delete_events {B} (f : ScoringMonitor -> B) p : keeps f (delete_events p).
Proof. intros s. reflexivity. Qed.

Lemma keeps_delete_alerts {B} (f : ScoringMonitor -> B) p : keeps f (delete_alerts p).
Proof. intros s. reflexivity. Qed.

End MonitorFacts.

#[local] Hint Resolve keeps_time_time keeps_insert_event keeps_insert_alert
  keeps_fetch_events keeps_fetch_alerts keeps_delete_events keeps_delete_alerts
  : keeps.

(** ** Alerts raised by a call *)

Lemma warnings_app (l1 l2 : list LogRecord) :
  warnings (l1 ++ l2) = warnings l1 ++ warnings l2.
Proof. apply omap_app. Qed.

Section TriggerFacts.

Variable time_source : nat -> Q.
Variable db_up : nat -> bool.

Lemma trigger_alert_ok (a : AnomalyAlert) (s : State) :
  outcome (_trigger_alert time_source db_up a) s = Ok tt.
Proof.
  unfold outcome, _trigger_alert, bind, try_except, with_connect, modify. simpl.
  destruct (db_up _); reflexivity.
Qed.

Lemma trigger_alert_warnings (a : AnomalyAlert) (s : State) :
  warnings (log (world (after (_trigger_alert time_source db_up a) s)))
  = warnings (log (world s)) ++ [a].
Proof.
  unfold after, _trigger_alert, bind, try_except, with_connect, modify. simpl.
  destruct (db_up _); simpl; rewrite !warnings_app; simpl;
    rewrite ?app_nil_r; reflexivity.
Qed.

Lemma trigger_alert_fired (a : AnomalyAlert) (s : State) :
  fired (_trigger_alert time_source db_up a) s = [a].
Proof.
  unfold fired. rewrite trigger_alert_warnings.
  rewrite drop_app_length. reflexivity.
Qed.

Lemma keeps_trigger_alert {B} (f : ScoringMonitor -> B) (a : AnomalyAlert) :
  (forall v m, f (set_alerts v m) = f m) ->
  keeps f (_trigger_alert time_source db_up a).
Proof.
  intros H. unfold _trigger_alert.
  repeat (first [ apply keeps_bind; [| intros ?]
                | apply keeps_try_except; [| intros ?]
                | apply keeps_with_connect
                | apply keeps_modify; intros; apply H
                | apply keeps_time_time
                | apply keeps_insert_alert
                | apply keeps_logger ]).
Qed.

End TriggerFacts.

Lemma fires_singleton {A} (m : M A) (s : State) (a : AnomalyAlert) t sev :
  fired m s = [a] -> (fires m s t sev <-> alert_type a = t /\ severity a = sev).
Proof.
  intros H. unfold fires. rewrite H. split.
  - intros (a' & Hin & Ht & Hs). apply list_elem_of_singleton in Hin. subst a'. auto.
  - intros [Ht Hs]. exists a. split; [apply list_elem_of_singleton; reflexivity | auto].
Qed.

Lemma fires_nil {A} (m : M A) (s : State) t sev :
  fired m s = [] -> ~ fires m s t sev.
Proof.
  intros H (a & Hin & _). rewrite H in Hin. apply not_elem_of_nil in Hin. exact Hin.
Qed.

(** [keeps_steps] follows the structure of a method (sequencing, handlers,
    database blocks, branches); the leaves are in the hint database. *)
Ltac keeps_steps :=
  repeat (first [ apply keeps_bind; [| intros ?]
                | apply keeps_try_except; [| intros ?]
                | apply keeps_with_connect
                | apply keeps_if
                | apply keeps_trigger_alert; intros; reflexivity
                | apply keeps_modify; intros; reflexivity
                | solve [auto with keeps]
                | match goal with
                  | |- keeps _ (let '(_, _) := ?p in _) => destruct p
                  | |- keeps _ (match ?x with _ => _ end) => destruct x
                  end ]).

(** ** The detectors, one branch at a time *)

Section DetectorFacts.

Variable time_source : nat -> Q.
Variable db_up : nat -> bool.

Local Abbreviation trigger := (_trigger_alert time_source db_up).

Lemma length_ge_nonempty {A} (l : list A) (n : nat) : S n <= length l -> l <> [].
Proof. destruct l; simpl; [lia | congruence]. Qed.

Lemma detect_score_run (event : ScoringEvent) (current_time : Q) (s : State) :
  20 <= length (recent_scores (self s)) ->
  let avg := statistics.mean_val (recent_scores (self s)) in
  let b_avg := dict_get (baseline_metrics (self s)) "avg_score" 500 in
  let b_std := dict_get (baseline_metrics (self s)) "std_score" 150 in
  _detect_score_anomalies time_source db_up event current_time s
  = if Num.gtb (Num.abs (avg - b_avg)) (2 * b_std)
    then trigger (score_shift_alert current_time avg b_avg
                    (if Num.gtb (Num.abs (avg - b_avg)) (3 * b_std) then high else medium)) s
    else (Ok tt, s).
Proof.
  intros Hlen. unfold _detect_score_anomalies, bind, gets, lift. simpl.
  destruct (Nat.ltb_spec (length (recent_scores (self s))) 20) as [H | _]; [lia |].
  rewrite mean_nonempty by (apply (length_ge_nonempty _ 19); lia).
  simpl. destruct (Num.gtb _ (2 * _)); reflexivity.
Qed.

Lemma detect_response_time_run (event : ScoringEvent) (current_time : Q) (s : State) :
  10 <= length (recent_response_times (self s)) ->
  let avg := statistics.mean_val (recent_response_times (self s)) in
  let b_avg := dict_get (baseline_metrics (self s)) "avg_processing_time" (1 # 2) in
  let b_std := dict_get (baseline_metrics (self s)) "std_processing_time" (1 # 5) in
  _detect_response_time_anomalies time_source db_up event current_time s
  = if Num.gtb avg (b_avg + 3 * b_std)
    then if Qeq_bool b_avg 0
         then (Raise ZeroDivisionError, s)
         else trigger (response_time_alert current_time avg b_avg (avg / b_avg) event) s
    else (Ok tt, s).
Proof.
  intros Hlen. unfold _detect_response_time_anomalies, bind, gets, lift. simpl.
  destruct (Nat.ltb_spec (length (recent_response_times (self s))) 10) as [H | _]; [lia |].
  rewrite mean_nonempty by (apply (length_ge_nonempty _ 9); lia).
  simpl. destruct (Num.gtb _ _); [| reflexivity].
  unfold py_div. destruct (Qeq_bool _ 0); reflexivity.
Qed.

Lemma detect_error_rate_run (current_time : Q) (s : State) :
  let recent := last_hour current_time (recent_events (self s)) in
  let rate := (Num.of_nat (length (errors_of recent)) / Num.of_nat (length recent))%Q in
  10 <= length recent ->
  _detect_error_rate_anomalies time_source db_up current_time s
  = if Num.gtb rate (1 # 10)
    then trigger (error_rate_alert current_time rate
                    (if Num.gtb rate (3 # 10) then critical else high)
                    (length recent) (length (errors_of recent))) s
    else (Ok tt, s).
Proof.
  intros recent rate Hlen.
  unfold _detect_error_rate_anomalies, bind, gets, lift. simpl.
  fold recent.
  destruct (Nat.ltb_spec (length recent) 10) as [H | _]; [lia |].
  unfold py_div. rewrite of_nat_nonzero by lia. simpl. fold rate.
  destruct (Num.gtb rate (1 # 10)); reflexivity.
Qed.

(** no detector touches the windows or the baseline *)

Lemma keeps_detect_response_time event t :
  keeps frame (_detect_response_time_anomalies time_source db_up event t).
Proof. unfold _detect_response_time_anomalies. keeps_steps. Qed.

Lemma keeps_detect_score event t :
  keeps frame (_detect_score_anomalies time_source db_up event t).
Proof. unfold _detect_score_anomalies. keeps_steps. Qed.

Lemma keeps_detect_request_pattern event t :
  keeps frame (_detect_request_pattern_anomalies time_source db_up event t).
Proof. unfold _detect_request_pattern_anomalies. keeps_steps. Qed.

Lemma keeps_detect_error_rate t :
  keeps frame (_detect_error_rate_anomalies time_source db_up t).
Proof. unfold _detect_error_rate_anomalies. keeps_steps. Qed.

Lemma keeps_detect_repeat_request event t :
  keeps frame (_detect_repeat_request_anomalies time_source db_up event t).
Proof. unfold _detect_repeat_request_anomalies. keeps_steps. Qed.

Lemma keeps_detect_anomalies event :
  keeps frame (_detect_anomalies time_source db_up event).
Proof.
  unfold _detect_anomalies.
  repeat (first [ apply keeps_detect_response_time | apply keeps_detect_score
                | apply keeps_detect_request_pattern | apply keeps_detect_error_rate
                | apply keeps_detect_repeat_request | progress keeps_steps ]).
Qed.

Lemma keeps_persist_event event :
  keeps frame (_persist_event db_up event).
Proof. unfold _persist_event. keeps_steps. Qed.

End DetectorFacts.

(** ** Score distribution shift *)

(** C5: with at least 20 samples in the score window, the score detector
    returns normally; it raises a score-distribution-shift alert exactly when
    the distance of the window mean to the baseline mean exceeds twice the
    baseline deviation; the alert is of severity medium exactly when that
    distance lies in (2 std, 3 std] and of severity high exactly when it
    exceeds 3 std; otherwise nothing is raised. *)
Theorem score_shift_thresholds (time_source : nat -> Q) (db_up : nat -> bool)
    (event : ScoringEvent) (current_time : Q) (s : State) :
  let m := _detect_score_anomalies time_source db_up event current_time in
  let avg := statistics.mean_val (recent_scores (self s)) in
  let b_avg := dict_get (baseline_metrics (self s)) "avg_score" 500 in
  let b_std := dict_get (baseline_metrics (self s)) "std_score" 150 in
  let deviation := Qabs (avg - b_avg) in
  20 <= length (recent_scores (self s)) ->
  outcome m s = Ok tt /\
  ((exists sev, fires m s score_distribution_shift sev) <-> (2 * b_std < deviation)%Q) /\
  (fires m s score_distribution_shift medium
     <-> (2 * b_std < deviation)%Q /\ (deviation <= 3 * b_std)%Q) /\
  (fires m s score_distribution_shift high <-> (3 * b_std < deviation)%Q) /\
  ((deviation <= 2 * b_std)%Q -> fired m s = []).
Proof.
  intros m avg b_avg b_std deviation Hlen.
  assert (Hdev : (0 <= deviation)%Q) by apply Qabs_nonneg.
  pose proof (detect_score_run time_source db_up event current_time s Hlen) as Hrun.
  cbv zeta in Hrun. fold avg b_avg b_std in Hrun.
  unfold Num.abs in Hrun. fold deviation in Hrun. fold m in Hrun.
  destruct (Num.gtb deviation (2 * b_std)) eqn:H2.
  - apply gtb_lt in H2.
    set (sev := if Num.gtb deviation (3 * b_std) then high else medium) in Hrun.
    assert (Hf : fired m s = [score_shift_alert current_time avg b_avg sev]).
    { unfold fired, after. rewrite Hrun. apply trigger_alert_fired. }
    assert (Ho : outcome m s = Ok tt).
    { unfold outcome. rewrite Hrun. apply trigger_alert_ok. }
    split; [exact Ho |].
    pose proof (fun sv => fires_singleton m s _ score_distribution_shift sv Hf) as Hiff.
    simpl in Hiff. subst sev.
    destruct (Num.gtb deviation (3 * b_std)) eqn:H3;
      [apply gtb_lt in H3 | apply gtb_le in H3].
    + split; [| split; [| split]].
      * split; [intros _; exact H2 | intros _; exists high; apply Hiff; auto].
      * rewrite Hiff. split; [intros [_ E]; discriminate | intros [_ Hle]; lra].
      * rewrite Hiff. split; [intros _; exact H3 | auto].
      * intros Hle. lra.
    + split; [| split; [| split]].
      * split; [intros _; exact H2 | intros _; exists medium; apply Hiff; auto].
      * rewrite Hiff. split; [intros _; split; assumption | auto].
      * rewrite Hiff. split; [intros [_ E]; discriminate | intros Hlt; lra].
      * intros Hle. lra.
  - apply gtb_le in H2.
    assert (Hf : fired m s = []).
    { unfold fired, after. rewrite Hrun. simpl. apply drop_all. }
    split; [unfold outcome; rewrite Hrun; reflexivity |].
    split; [| split; [| split]].
    + split; [intros [sev Hs]; exfalso; exact (fires_nil m s _ _ Hf Hs) | intros Hlt; lra].
    + split; [intros Hs; exfalso; exact (fires_nil m s _ _ Hf Hs) | intros [Hlt _]; lra].
    + split; [intros Hs; exfalso; exact (fires_nil m s _ _ Hf Hs) | intros Hlt; lra].
    + intros _. exact Hf.
Qed.

Lemma score_shift_thresholds_witness :
  let e := sample_event 1000 (1 # 10) (Some 900%Q) 200 in
  let m := _detect_score_anomalies stopped_clock db_always_up e 1000 in
  let at_mean (x : Q) := monitor_with (baseline_of (1 # 2) (1 # 5) 500 150) []
                                      (repeat x 20) [] in
  20 <= length (recent_scores (self (at_mean 900%Q))) /\
  fired m (at_mean 800%Q) = [] /\
  fires m (at_mean 801%Q) score_distribution_shift medium /\
  fires m (at_mean 950%Q) score_distribution_shift medium /\
  fires m (at_mean 951%Q) score_distribution_shift high.
Proof.
  intros e m at_mean.
  split; [simpl; lia |].
  split; [| split; [| split]].
  - destruct (score_shift_thresholds stopped_clock db_always_up e 1000 (at_mean 800%Q))
      as (_ & _ & _ & _ & Hnone); [simpl; lia |].
    apply Hnone. apply Qle_bool_iff. reflexivity.
  - destruct (score_shift_thresholds stopped_clock db_always_up e 1000 (at_mean 801%Q))
      as (_ & _ & Hmed & _); [simpl; lia |].
    apply Hmed. split; [reflexivity | apply Qle_bool_iff; reflexivity].
  - destruct (score_shift_thresholds stopped_clock db_always_up e 1000 (at_mean 950%Q))
      as (_ & _ & Hmed & _); [simpl; lia |].
    apply Hmed. split; [reflexivity | apply Qle_bool_iff; reflexivity].
  - destruct (score_shift_thresholds stopped_clock db_always_up e 1000 (at_mean 951%Q))
      as (_ & _ & _ & Hhigh & _); [simpl; lia |].
    apply Hhigh. reflexivity.
Defined.

(** ** High error rate *)

(** C4: with at least 10 events of the window in the trailing hour, the
    error-rate detector returns normally; it raises a high-error-rate alert
    of severity high exactly when the share of events with status code 400 or
    more lies in (0.10, 0.30], of severity critical exactly when the share
    exceeds 0.30, and nothing when the share is 0.10 or less. *)
Theorem error_rate_thresholds (time_source : nat -> Q) (db_up : nat -> bool)
    (current_time : Q) (s : State) :
  let m := _detect_error_rate_anomalies time_source db_up current_time in
  let recent := last_hour current_time (recent_events (self s)) in
  let error_rate :=
    (Num.of_nat (length (errors_of recent)) / Num.of_nat (length recent))%Q in
  10 <= length recent ->
  outcome m s = Ok tt /\
  (fires m s high_error_rate high
     <-> (1 # 10 < error_rate)%Q /\ (error_rate <= 3 # 10)%Q) /\
  (fires m s high_error_rate critical <-> (3 # 10 < error_rate)%Q) /\
  ((error_rate <= 1 # 10)%Q -> fired m s = []).
Proof.
  intros m recent error_rate Hlen.
  pose proof (detect_error_rate_run time_source db_up current_time s Hlen) as Hrun.
  cbv zeta in Hrun. fold recent in Hrun. fold error_rate in Hrun. fold m in Hrun.
  destruct (Num.gtb error_rate (1 # 10)) eqn:H1;
    [apply gtb_lt in H1 | apply gtb_le in H1].
  - set (sev := if Num.gtb error_rate (3 # 10) then critical else high) in Hrun.
    assert (Hf : fired m s = [error_rate_alert current_time error_rate sev
                                (length recent) (length (errors_of recent))]).
    { unfold fired, after. rewrite Hrun. apply trigger_alert_fired. }
    split; [unfold outcome; rewrite Hrun; apply trigger_alert_ok |].
    pose proof (fun sv => fires_singleton m s _ high_error_rate sv Hf) as Hiff.
    simpl in Hiff. subst sev.
    destruct (Num.gtb error_rate (3 # 10)) eqn:H3;
      [apply gtb_lt in H3 | apply gtb_le in H3].
    + split; [| split].
      * rewrite Hiff. split; [intros [_ E]; discriminate | intros [_ Hle]; lra].
      * rewrite Hiff. split; [intros _; exact H3 | auto].
      * intros Hle. lra.
    + split; [| split].
      * rewrite Hiff. split; [intros _; split; assumption | auto].
      * rewrite Hiff. split; [intros [_ E]; discriminate | intros Hlt; lra].
      * intros Hle. lra.
  - assert (Hf : fired m s = []).
    { unfold fired, after. rewrite Hrun. simpl. apply drop_all. }
    split; [unfold outcome; rewrite Hrun; reflexivity |].
    split; [| split].
    + split; [intros Hs; exfalso; exact (fires_nil m s _ _ Hf Hs) | intros [Hlt _]; lra].
    + split; [intros Hs; exfalso; exact (fires_nil m s _ _ Hf Hs) | intros Hlt; lra].
    + intros _. exact Hf.
Qed.

Lemma error_rate_thresholds_witness :
  let good := sample_event 1000 (1 # 10) None 200 in
  let bad := sample_event 1000 (1 # 10) None 500 in
  let m := _detect_error_rate_anomalies stopped_clock db_always_up 1000 in
  let with_errors (k : nat) :=
    monitor_with ∅ (repeat bad k ++ repeat good (10 - k)) [] [] in
  10 <= length (last_hour 1000 (recent_events (self (with_errors 1)))) /\
  fired m (with_errors 1) = [] /\
  fires m (with_errors 2) high_error_rate high /\
  fires m (with_errors 3) high_error_rate high /\
  fires m (with_errors 4) high_error_rate critical.
Proof.
  intros good bad m with_errors.
  split; [simpl; lia |].
  split; [| split; [| split]].
  - destruct (error_rate_thresholds stopped_clock db_always_up 1000 (with_errors 1))
      as (_ & _ & _ & Hnone); [simpl; lia |].
    apply Hnone. apply Qle_bool_iff. reflexivity.
  - destruct (error_rate_thresholds stopped_clock db_always_up 1000 (with_errors 2))
      as (_ & Hhigh & _); [simpl; lia |].
    apply Hhigh. split; [reflexivity | apply Qle_bool_iff; reflexivity].
  - destruct (error_rate_thresholds stopped_clock db_always_up 1000 (with_errors 3))
      as (_ & Hhigh & _); [simpl; lia |].
    apply Hhigh. split; [reflexivity | apply Qle_bool_iff; reflexivity].
  - destruct (error_rate_thresholds stopped_clock db_always_up 1000 (with_errors 4))
      as (_ & _ & Hcrit & _); [simpl; lia |].
    apply Hcrit. reflexivity.
Defined.

(** ** Response time spike *)

(** With at least 10 latency samples and a baseline mean other than zero, the
    response-time detector returns normally and raises its alert, of severity
    high and with the spike factor among the metrics, exactly when the window
    mean exceeds the baseline mean by more than three baseline deviations. *)
Lemma response_time_spike_iff (time_source : nat -> Q) (db_up : nat -> bool)
    (event : ScoringEvent) (current_time : Q) (s : State) :
  let m := _detect_response_time_anomalies time_source db_up event current_time in
  let avg := statistics.mean_val (recent_response_times (self s)) in
  let b_avg := dict_get (baseline_metrics (self s)) "avg_processing_time" (1 # 2) in
  let b_std := dict_get (baseline_metrics (self s)) "std_processing_time" (1 # 5) in
  10 <= length (recent_response_times (self s)) ->
  ~ (b_avg == 0)%Q ->
  outcome m s = Ok tt /\
  (fires m s response_time_spike high <-> (b_avg + 3 * b_std < avg)%Q) /\
  ((b_avg + 3 * b_std < avg)%Q ->
     exists a, fired m s = [a] /\ severity a = high /\
               metric a "spike_factor" = Some (MNum (avg / b_avg))) /\
  ((avg <= b_avg + 3 * b_std)%Q -> fired m s = []).
Proof.
  intros m avg b_avg b_std Hlen Hnz.
  pose proof (detect_response_time_run time_source db_up event current_time s Hlen) as Hrun.
  cbv zeta in Hrun. fold avg b_avg b_std in Hrun. fold m in Hrun.
  assert (Hz : Qeq_bool b_avg 0 = false).
  { apply not_true_iff_false. rewrite Qeq_bool_iff. exact Hnz. }
  rewrite Hz in Hrun.
  destruct (Num.gtb avg (b_avg + 3 * b_std)) eqn:H3;
    [apply gtb_lt in H3 | apply gtb_le in H3].
  - assert (Hf : fired m s = [response_time_alert current_time avg b_avg (avg / b_avg) event]).
    { unfold fired, after. rewrite Hrun. apply trigger_alert_fired. }
    split; [unfold outcome; rewrite Hrun; apply trigger_alert_ok |].
    split; [| split].
    + rewrite (fires_singleton m s _ _ _ Hf). simpl. tauto.
    + intros _. eexists. split; [exact Hf |]. split; reflexivity.
    + intros Hle. lra.
  - assert (Hf : fired m s = []).
    { unfold fired, after. rewrite Hrun. simpl. apply drop_all. }
    split; [unfold outcome; rewrite Hrun; reflexivity |].
    split; [| split].
    + split; [intros Hs; exfalso; exact (fires_nil m s _ _ Hf Hs) | intros Hlt; lra].
    + intros Hlt. lra.
    + intros _. exact Hf.
Qed.

(** With a baseline mean of zero, a window mean over the threshold makes the
    detector raise [ZeroDivisionError] before any alert is built. *)
Lemma response_time_zero_baseline (time_source : nat -> Q) (db_up : nat -> bool)
    (event : ScoringEvent) (current_time : Q) (s : State) :
  let m := _detect_response_time_anomalies time_source db_up event current_time in
  let avg := statistics.mean_val (recent_response_times (self s)) in
  let b_avg := dict_get (baseline_metrics (self s)) "avg_processing_time" (1 # 2) in
  let b_std := dict_get (baseline_metrics (self s)) "std_processing_time" (1 # 5) in
  10 <= length (recent_response_times (self s)) ->
  (b_avg == 0)%Q ->
  (b_avg + 3 * b_std < avg)%Q ->
  outcome m s = Raise ZeroDivisionError /\ fired m s = [] /\ after m s = s.
Proof.
  intros m avg b_avg b_std Hlen Hz Hlt.
  pose proof (detect_response_time_run time_source db_up event current_time s Hlen) as Hrun.
  cbv zeta in Hrun. fold avg b_avg b_std in Hrun. fold m in Hrun.
  apply gtb_lt in Hlt. rewrite Hlt in Hrun.
  apply Qeq_bool_iff in Hz. rewrite Hz in Hrun.
  unfold outcome, fired, after. rewrite Hrun. simpl.
  split; [reflexivity | split; [apply drop_all | reflexivity]].
Qed.

(** ** No floor on the baseline deviation *)

Lemma mean_repeat_10 (x : Q) : (statistics.mean_val (repeat x 10) == x)%Q.
Proof. unfold statistics.mean_val, Num.of_nat. simpl. field. Qed.

Lemma baseline_of_lookups (a b c d : Q) :
  dict_get (baseline_of a b c d) "avg_processing_time" (1 # 2) = a /\
  dict_get (baseline_of a b c d) "std_processing_time" (1 # 5) = b /\
  dict_get (baseline_of a b c d) "avg_score" 500 = c /\
  dict_get (baseline_of a b c d) "std_score" 150 = d.
Proof. repeat split; reflexivity. Qed.

(** C7 fails: whatever positive floor is proposed, a baseline with a zero
    deviation and a window whose mean is above the baseline mean by that
    floor raises the spike alert, which the floored threshold would not. *)
Lemma no_stddev_floor : ~ exists eps : Q, (0 < eps)%Q /\ floors_stddev eps.
Proof.
  intros (eps & Hpos & Hfloor).
  set (s := monitor_with (baseline_of (1 # 2) 0 500 150) [] []
                         (repeat ((1 # 2) + eps)%Q 10)).
  set (e := sample_event 0 0 None 200).
  assert (Hlen : 10 <= length (recent_response_times (self s))) by (simpl; lia).
  assert (Hnz : ~ (dict_get (baseline_metrics (self s)) "avg_processing_time" (1 # 2) == 0)%Q).
  { simpl. destruct (baseline_of_lookups (1 # 2) 0 500 150) as (-> & _). discriminate. }
  pose proof (Hfloor stopped_clock db_always_up e 0%Q s Hlen Hnz) as Hiff.
  pose proof (response_time_spike_iff stopped_clock db_always_up e 0%Q s Hlen Hnz)
    as (_ & Hcode & _).
  cbv zeta in Hiff, Hcode. rewrite Hcode in Hiff. clear Hcode.
  simpl recent_response_times in Hiff. simpl baseline_metrics in Hiff.
  destruct (baseline_of_lookups (1 # 2) 0 500 150) as (Ha & Hb & _).
  rewrite Ha, Hb in Hiff.
  pose proof (mean_repeat_10 ((1 # 2) + eps)) as Hmean.
  assert (Hmax : (Qmax 0 eps == eps)%Q) by (apply Q.max_r; lra).
  set (mu := statistics.mean_val _) in *. set (mx := Qmax 0 eps) in *.
  assert (H1 : ((1 # 2) + 3 * 0 < mu)%Q) by lra.
  apply Hiff in H1. lra.
Qed.

Lemma Qabs_sub_pos (a b : Q) : (0 < Qabs (a - b))%Q <-> ~ (a == b)%Q.
Proof.
  split.
  - intros H E. assert (Hz : (a - b == 0)%Q) by lra.
    rewrite Hz in H. discriminate.
  - intros H. apply Qnot_le_lt. intros Hle.
    apply Qabs_Qle_condition in Hle. apply H. lra.
Qed.

(** C7 (amended): no detector floors the baseline deviation; each compares
    against the value as it is stored.  With at least 10 latency samples and a
    baseline mean other than zero, the response-time alert is raised exactly
    when the window mean exceeds the baseline mean by more than three times
    the stored deviation, hence, for a stored deviation of zero, exactly when
    it exceeds the baseline mean; the alert raised is the only one and
    carries the spike factor, the window mean divided by the baseline mean,
    in which no deviation enters.  With at least 20 scores, the score-shift
    alert is raised exactly when the distance of the window mean to the
    baseline mean exceeds twice the stored deviation, hence, for a stored
    deviation of zero, exactly when the two means differ, and then with
    severity high, never medium. *)
Theorem zero_stddev_used_as_stored (time_source : nat -> Q) (db_up : nat -> bool)
    (event : ScoringEvent) (current_time : Q) (s : State) :
  let m1 := _detect_response_time_anomalies time_source db_up event current_time in
  let m2 := _detect_score_anomalies time_source db_up event current_time in
  let t_avg := statistics.mean_val (recent_response_times (self s)) in
  let s_avg := statistics.mean_val (recent_scores (self s)) in
  let bt_avg := dict_get (baseline_metrics (self s)) "avg_processing_time" (1 # 2) in
  let bt_std := dict_get (baseline_metrics (self s)) "std_processing_time" (1 # 5) in
  let bs_avg := dict_get (baseline_metrics (self s)) "avg_score" 500 in
  let bs_std := dict_get (baseline_metrics (self s)) "std_score" 150 in
  (10 <= length (recent_response_times (self s)) ->
   ~ (bt_avg == 0)%Q ->
   (fires m1 s response_time_spike high <-> (bt_avg + 3 * bt_std < t_avg)%Q) /\
   ((bt_std == 0)%Q ->
    (fires m1 s response_time_spike high <-> (bt_avg < t_avg)%Q)) /\
   ((bt_avg + 3 * bt_std < t_avg)%Q ->
    exists a, fired m1 s = [a] /\ alert_type a = response_time_spike /\
              severity a = high /\
              metric a "spike_factor" = Some (MNum (t_avg / bt_avg)))) /\
  (20 <= length (recent_scores (self s)) ->
   ((exists sev, fires m2 s score_distribution_shift sev)
    <-> (2 * bs_std < Qabs (s_avg - bs_avg))%Q) /\
   ((bs_std == 0)%Q ->
    (fires m2 s score_distribution_shift high <-> ~ (s_avg == bs_avg)%Q) /\
    ~ fires m2 s score_distribution_shift medium)).
Proof.
  intros m1 m2 t_avg s_avg bt_avg bt_std bs_avg bs_std. split.
  - intros Hlen Hnz.
    destruct (response_time_spike_iff time_source db_up event current_time s Hlen Hnz)
      as (_ & Hiff & Hfactor & _).
    cbv zeta in Hiff, Hfactor. fold m1 t_avg bt_avg bt_std in Hiff, Hfactor.
    split; [exact Hiff |]. split.
    + intros Hstd. rewrite Hiff. split; intros H; lra.
    + intros Hlt. destruct (Hfactor Hlt) as (a & Hf & Hsev & Hm).
      exists a. split; [exact Hf |]. split; [| split; [exact Hsev | exact Hm]].
      apply Hiff in Hlt. rewrite (fires_singleton m1 s _ _ _ Hf) in Hlt.
      destruct Hlt as [Hty _]. exact Hty.
  - intros Hlen.
    pose proof (detect_score_run time_source db_up event current_time s Hlen) as Hrun.
    cbv zeta in Hrun. fold s_avg bs_avg bs_std in Hrun. fold m2 in Hrun.
    unfold Num.abs in Hrun.
    pose proof (Qabs_sub_pos s_avg bs_avg) as Hpos.
    set (dev := Qabs (s_avg - bs_avg)) in *.
    destruct (Num.gtb dev (2 * bs_std)) eqn:H2;
      [apply gtb_lt in H2 | apply gtb_le in H2].
    + set (sev := if Num.gtb dev (3 * bs_std) then high else medium) in Hrun.
      assert (Hf : fired m2 s = [score_shift_alert current_time s_avg bs_avg sev]).
      { unfold fired, after. rewrite Hrun. apply trigger_alert_fired. }
      split.
      * split; [intros _; exact H2 |].
        intros _. exists sev. apply (fires_singleton m2 s _ _ _ Hf). auto.
      * intros Hstd.
        assert (H3 : Num.gtb dev (3 * bs_std) = true) by (apply gtb_lt; lra).
        subst sev. rewrite H3 in Hf.
        rewrite !(fires_singleton m2 s _ _ _ Hf). simpl. split.
        -- split; [intros _; apply Hpos; lra | auto].
        -- intros [_ E]. discriminate.
    + assert (Hf : fired m2 s = []).
      { unfold fired, after. rewrite Hrun. simpl. apply drop_all. }
      split.
      * split; [intros [sev Hs]; exfalso; exact (fires_nil m2 s _ _ Hf Hs) |].
        intros Hlt. lra.
      * intros Hstd. split.
        -- split; [intros Hs; exfalso; exact (fires_nil m2 s _ _ Hf Hs) |].
           intros Hne. apply Hpos in Hne. lra.
        -- apply (fires_nil m2 s _ _ Hf).
Qed.

Lemma zero_stddev_used_as_stored_witness :
  let s := monitor_with (baseline_of (1 # 2) 0 500 0) []
                        (repeat 501%Q 20) (repeat (51 # 100)%Q 10) in
  let e := sample_event 1000 (51 # 100) (Some 501%Q) 200 in
  let m1 := _detect_response_time_anomalies stopped_clock db_always_up e 1000 in
  fires m1 s response_time_spike high /\
  (exists a, fired m1 s = [a] /\
             metric a "spike_factor"
             = Some (MNum (statistics.mean_val (repeat (51 # 100)%Q 10) / (1 # 2)))) /\
  fires (_detect_score_anomalies stopped_clock db_always_up e 1000) s
        score_distribution_shift high.
Proof.
  intros s e m1.
  destruct (zero_stddev_used_as_stored stopped_clock db_always_up e 1000%Q s)
    as [H1 H2].
  destruct H1 as (_ & H1 & Hfactor); [simpl; lia | discriminate |].
  split; [apply H1; reflexivity |]. split.
  - destruct Hfactor as (a & Hf & _ & _ & Hm); [reflexivity |].
    exists a. split; [exact Hf | exact Hm].
  - destruct H2 as [_ H2]; [simpl; lia |].
    apply H2; [reflexivity | discriminate].
Defined.

(** ** Sliding windows *)

Lemma deque_append_length {A} (n : nat) (d : list A) (x : A) :
  length d <= n -> length (deque_append n d x) <= n.
Proof.
  intros H. unfold deque_append. rewrite length_app. simpl.
  destruct (Nat.ltb_spec n (length d + 1)) as [Hlt | Hge].
  - destruct d; simpl in *; [lia |]. rewrite length_app. simpl. lia.
  - rewrite length_app. simpl. lia.
Qed.

Lemma deque_append_full {A} (n : nat) (oldest : A) (rest : list A) (x : A) :
  length (oldest :: rest) = n -> deque_append n (oldest :: rest) x = rest ++ [x].
Proof.
  intros H. unfold deque_append.
  destruct (Nat.ltb_spec n (length ((oldest :: rest) ++ [x]))) as [_ | Hge];
    [reflexivity |].
  rewrite length_app in Hge. simpl in *. lia.
Qed.

Lemma after_bind_keeps {B A C} (f : ScoringMonitor -> B) (m : M A) (k : A -> M C)
    (s : State) :
  (forall a, keeps f (k a)) ->
  f (self (after (bind m k) s)) = f (self (after m s)).
Proof.
  intros Hk. unfold after, bind.
  destruct (m s) as [[a | e] s']; simpl; [apply Hk | reflexivity].
Qed.

Lemma keeps_frame_windows {A} (m : M A) : keeps frame m -> keeps windows m.
Proof.
  intros H s. specialize (H s). unfold frame in H. congruence.
Qed.

Section WindowFacts.

Variable time_source : nat -> Q.
Variable db_up : nat -> bool.

(** the windows after an ingestion, whether it returns or raises *)
Lemma log_scoring_event_windows (e : ScoringEvent) (s : State) :
  let n := window_size (self s) in
  windows (self (after (log_scoring_event time_source db_up e) s))
  = (n,
     deque_append n (recent_events (self s)) e,
     match response_data e !! "credit_score" with
     | Some score => deque_append n (recent_scores (self s)) score
     | None => recent_scores (self s)
     end,
     deque_append n (recent_response_times (self s)) (processing_time e)).
Proof.
  intros n. unfold log_scoring_event.
  assert (Htail : forall s', windows (self (after
            (_persist_event db_up e ;; _detect_anomalies time_source db_up e) s'))
          = windows (self s')).
  { intros s'. apply keeps_frame_windows. apply keeps_bind.
    - apply keeps_persist_event.
    - intros _. apply keeps_detect_anomalies. }
  destruct (response_data e !! "credit_score") as [score |]; apply Htail.
Qed.

Lemma log_scoring_event_bounded (e : ScoringEvent) (s : State) :
  windows_bounded s ->
  windows_bounded (after (log_scoring_event time_source db_up e) s) /\
  window_size (self (after (log_scoring_event time_source db_up e) s))
  = window_size (self s).
Proof.
  intros (He & Hs & Ht).
  pose proof (log_scoring_event_windows e s) as Hw. cbv zeta in Hw.
  unfold windows in Hw. injection Hw as Hn Hev Hsc Hti.
  unfold windows_bounded. rewrite Hn, Hev, Hsc, Hti.
  repeat split; try (apply deque_append_length; assumption).
  destruct (response_data e !! "credit_score");
    [apply deque_append_length |]; assumption.
Qed.

Lemma ingest_all_bounded (events : list ScoringEvent) (s : State) :
  windows_bounded s ->
  windows_bounded (ingest_all time_source db_up events s) /\
  window_size (self (ingest_all time_source db_up events s)) = window_size (self s).
Proof.
  revert s. induction events as [| e events IH]; intros s Hs; [split; auto |].
  simpl. destruct (log_scoring_event_bounded e s Hs) as [Hb Hn].
  destruct (IH _ Hb) as [Hb' Hn']. split; [exact Hb' | congruence].
Qed.

Lemma init_windows (sqrt : Q -> Q) (n : nat) (threshold : Z) (s : State) :
  windows (self (after (__init__ time_source db_up sqrt n threshold) s)) = (n, [], [], []).
Proof.
  unfold __init__.
  rewrite after_bind_keeps; [reflexivity |].
  intros _. unfold _init_database, _load_baseline_metrics.
  keeps_steps.
Qed.

End WindowFacts.

(** C2: through any sequence of ingestion calls on a monitor built with
    capacity [n], none of the three windows ever holds more than [n] entries;
    and an ingestion into a window that is at capacity drops exactly its
    oldest entry and puts the new one last (the score window only takes the
    events that carry a score). *)
Theorem windows_bounded_fifo (time_source : nat -> Q) (db_up : nat -> bool) :
  (forall (sqrt : Q -> Q) (n : nat) (threshold : Z) (s0 : State)
          (events : list ScoringEvent),
     let s := ingest_all time_source db_up events
                (after (__init__ time_source db_up sqrt n threshold) s0) in
     window_size (self s) = n /\ windows_bounded s) /\
  (forall (e : ScoringEvent) (s : State) oldest rest,
     recent_events (self s) = oldest :: rest ->
     length (oldest :: rest) = window_size (self s) ->
     recent_events (self (after (log_scoring_event time_source db_up e) s))
     = rest ++ [e]) /\
  (forall (e : ScoringEvent) (s : State) oldest rest,
     recent_response_times (self s) = oldest :: rest ->
     length (oldest :: rest) = window_size (self s) ->
     recent_response_times (self (after (log_scoring_event time_source db_up e) s))
     = rest ++ [processing_time e]) /\
  (forall (e : ScoringEvent) (s : State) score oldest rest,
     response_data e !! "credit_score" = Some score ->
     recent_scores (self s) = oldest :: rest ->
     length (oldest :: rest) = window_size (self s) ->
     recent_scores (self (after (log_scoring_event time_source db_up e) s))
     = rest ++ [score]).
Proof.
  split; [| split; [| split]].
  - intros sqrt n threshold s0 events s.
    pose proof (init_windows time_source db_up sqrt n threshold s0) as Hi.
    unfold windows in Hi. injection Hi as Hn He Hs Ht.
    destruct (ingest_all_bounded time_source db_up events
                (after (__init__ time_source db_up sqrt n threshold) s0)) as [Hb Hw].
    { unfold windows_bounded. rewrite He, Hs, Ht. simpl. lia. }
    split; [subst s; congruence | exact Hb].
  - intros e s oldest rest Hw Hlen.
    pose proof (log_scoring_event_windows time_source db_up e s) as H.
    cbv zeta in H. unfold windows in H. injection H as _ He _ _.
    rewrite He, Hw. apply deque_append_full. exact Hlen.
  - intros e s oldest rest Hw Hlen.
    pose proof (log_scoring_event_windows time_source db_up e s) as H.
    cbv zeta in H. unfold windows in H. injection H as _ _ _ Ht.
    rewrite Ht, Hw. apply deque_append_full. exact Hlen.
  - intros e s score oldest rest Hsc Hw Hlen.
    pose proof (log_scoring_event_windows time_source db_up e s) as H.
    cbv zeta in H. unfold windows in H. injection H as _ _ Hs _.
    rewrite Hs, Hsc, Hw. apply deque_append_full. exact Hlen.
Qed.

Lemma windows_bounded_fifo_witness :
  let e1 := sample_event 1000 (1 # 10) (Some 700%Q) 200 in
  let e2 := sample_event 1001 (2 # 10) (Some 710%Q) 200 in
  let e3 := sample_event 1002 (3 # 10) (Some 720%Q) 500 in
  let s := ingest_all stopped_clock db_always_up [e1; e2]
             (boot stopped_clock db_always_up 2 10 empty_world) in
  (recent_events (self s) = [e1; e2] /\ length [e1; e2] = window_size (self s)) /\
  recent_events (self (after (log_scoring_event stopped_clock db_always_up e3) s))
  = [e2; e3] /\
  recent_response_times (self (after (log_scoring_event stopped_clock db_always_up e3) s))
  = [2 # 10; 3 # 10]%Q /\
  recent_scores (self (after (log_scoring_event stopped_clock db_always_up e3) s))
  = [710; 720]%Q.
Proof.
  intros e1 e2 e3 s.
  destruct (windows_bounded_fifo stopped_clock db_always_up) as (_ & Hev & Hti & Hsc).
  split; [split; reflexivity |].
  split; [| split].
  - apply (Hev e3 s e1 [e2]); reflexivity.
  - apply (Hti e3 s (1 # 10)%Q [(2 # 10)%Q]); reflexivity.
  - apply (Hsc e3 s 720%Q 700%Q [710%Q]); reflexivity.
Defined.

(** ** Baseline *)

Arguments recent_history : simpl never.
Arguments statistics.mean_val : simpl never.
Arguments statistics.variance_val : simpl never.

Section BaselineFacts.

Variable time_source : nat -> Q.
Variable db_up : nat -> bool.
Variable sqrt : Q -> Q.

(** the baseline dict computed from a non-empty history *)
Lemma load_baseline_run (s : State) :
  let now := time_source (clock_reads (world s)) in
  let events := recent_history (now - 7 * 24 * 3600) (scoring_events (store (world s))) in
  let times := map processing_time events in
  let scores := scores_of events in
  db_up (db_ops (world s)) = true ->
  events <> [] ->
  baseline_metrics (self (after (_load_baseline_metrics time_source db_up sqrt) s))
  = list_to_map
      [("avg_processing_time", statistics.mean_val times);
       ("std_processing_time",
        if 2 <=? length times then sqrt (statistics.variance_val times) else 0%Q);
       ("avg_score",
        match scores with [] => 500%Q | _ => statistics.mean_val scores end);
       ("std_score",
        if 2 <=? length scores then sqrt (statistics.variance_val scores) else 100%Q);
       ("requests_per_hour", (Num.of_nat (length events) / (7 * 24))%Q);
       ("last_updated", time_source (S (clock_reads (world s))))].
Proof.
  destruct s as [m [st lg cr ops]]. simpl.
  intros Hup Hne.
  unfold after, _load_baseline_metrics, try_except, with_connect. simpl.
  rewrite Hup. unfold bind at 1. simpl. unfold bind at 1. simpl.
  set (events := recent_history _ _) in *.
  destruct events as [| e0 events'] eqn:He; [congruence |].
  rewrite <- He. clear Hne.
  set (times := map processing_time events).
  set (scores := scores_of events).
  assert (Ht : times <> []) by (unfold times; rewrite He; discriminate).
  unfold bind, lift, ret, modify. rewrite mean_nonempty by exact Ht.
  destruct times as [| t0 [| t1 times']] eqn:Et; [congruence | |];
    destruct scores as [| c0 [| c1 scores']] eqn:Es; reflexivity.
Qed.

(** C6 (amended): when the database block that reads the history goes
    through and the history, the up to 1000 newest stored events of the last
    seven days with their numeric credit scores, is not empty, the recomputed
    baseline holds the sample standard deviation of the latencies when there
    are two or more and 0 otherwise, and the sample standard deviation of the
    scores carried by the events when there are two or more and 100
    otherwise. *)
Theorem baseline_stddev_fallbacks (s : State) :
  let now := time_source (clock_reads (world s)) in
  let events := recent_history (now - 7 * 24 * 3600) (scoring_events (store (world s))) in
  let times := map processing_time events in
  let scores := scores_of events in
  let baseline :=
    baseline_metrics (self (after (_load_baseline_metrics time_source db_up sqrt) s)) in
  db_up (db_ops (world s)) = true ->
  events <> [] ->
  baseline !! "std_processing_time"
  = Some (if 2 <=? length times then sqrt (statistics.variance_val times) else 0%Q) /\
  baseline !! "std_score"
  = Some (if 2 <=? length scores then sqrt (statistics.variance_val scores) else 100%Q).
Proof.
  intros now events times scores baseline Hup Hne.
  unfold baseline. rewrite (load_baseline_run s Hup Hne).
  split; reflexivity.
Qed.

End BaselineFacts.

Lemma baseline_stddev_fallbacks_witness :
  let history := [sample_event 900 (1 # 10) (Some 500%Q) 200;
                  sample_event 950 (3 # 10) (Some 700%Q) 200;
                  sample_event 990 (5 # 10) (Some 900%Q) 200] in
  let s := {| self := self (monitor_with ∅ [] [] []);
              world := set_store {| scoring_events := history; anomaly_alerts := [] |}
                                 empty_world |} in
  let baseline :=
    baseline_metrics
      (self (after (_load_baseline_metrics stopped_clock db_always_up sqrt_floor) s)) in
  exists std_pt std_sc : Q,
    baseline !! "std_processing_time" = Some std_pt /\ (std_pt == 1 # 5)%Q /\
    baseline !! "std_score" = Some std_sc /\ (std_sc == 200)%Q.
Proof.
  intros history s baseline.
  destruct (baseline_stddev_fallbacks stopped_clock db_always_up sqrt_floor s)
    as [Ht Hs]; [reflexivity | discriminate |].
  eexists. eexists.
  split; [exact Ht |]. split; [reflexivity |].
  split; [exact Hs |]. reflexivity.
Defined.

(** C6 fails as stated: the history of one event gives the score deviation
    100, not 0. *)
Lemma baseline_std_score_not_zero :
  let history := [sample_event 990 (1 # 10) (Some 600%Q) 200] in
  let s := {| self := self (monitor_with ∅ [] [] []);
              world := set_store {| scoring_events := history; anomaly_alerts := [] |}
                                 empty_world |} in
  let baseline :=
    baseline_metrics
      (self (after (_load_baseline_metrics stopped_clock db_always_up sqrt_floor) s)) in
  length (scores_of (recent_history (1000 - 7 * 24 * 3600) history)) = 1 /\
  baseline !! "std_processing_time" = Some 0%Q /\
  baseline !! "std_score" = Some 100%Q /\
  baseline !! "std_score" <> Some 0%Q.
Proof.
  intros history s baseline.
  assert (H : baseline !! "std_score" = Some 100%Q) by reflexivity.
  repeat split; try reflexivity. rewrite H. discriminate.
Qed.

(** ** Retention *)

Lemma elem_of_list_filter {A} (p : A -> bool) (l : list A) (x : A) :
  x ∈ List.filter p l <-> x ∈ l /\ p x = true.
Proof. rewrite !list_elem_of_In. apply filter_In. Qed.

Section CleanupFacts.

Variable time_source : nat -> Q.
Variable db_up : nat -> bool.

Lemma cleanup_run (days_to_keep : Z) (s : State) :
  let cutoff_time := cutoff_of time_source days_to_keep s in
  let old_event := fun e => Num.ltb (timestamp e) cutoff_time in
  let old_alert := fun a => Num.ltb (alert_timestamp a) cutoff_time in
  let rows := store (world s) in
  db_up (db_ops (world s)) = true ->
  cleanup_old_data time_source db_up days_to_keep s
  = (Ok None,
     {| self := self s;
        world :=
          {| store :=
               {| scoring_events :=
                    List.filter (fun e => negb (old_event e)) (scoring_events rows);
                  anomaly_alerts :=
                    List.filter (fun a => negb (old_alert a)) (anomaly_alerts rows) |};
             log := log (world s)
                    ++ [CleanupCompleted
                          (length (List.filter old_event (scoring_events rows)))
                          (length (List.filter old_alert (anomaly_alerts rows)))];
             clock_reads := S (clock_reads (world s));
             db_ops := S (db_ops (world s)) |} |}).
Proof.
  destruct s as [m [st lg cr ops]]. unfold cutoff_of. simpl. intros Hup.
  unfold cleanup_old_data, bind, try_except, with_connect, time_time. simpl.
  rewrite Hup. reflexivity.
Qed.

(** when the database is down nothing is deleted and the error is logged *)
Lemma cleanup_db_down (days_to_keep : Z) (s : State) :
  db_up (db_ops (world s)) = false ->
  outcome (cleanup_old_data time_source db_up days_to_keep) s = Ok None /\
  store (world (after (cleanup_old_data time_source db_up days_to_keep) s))
  = store (world s) /\
  log (world (after (cleanup_old_data time_source db_up days_to_keep) s))
  = log (world s) ++ [ErrorDuringCleanup OperationalError].
Proof.
  destruct s as [m [st lg cr ops]]. simpl. intros Hup.
  unfold outcome, after, cleanup_old_data, bind, try_except, with_connect, time_time.
  simpl. rewrite Hup. simpl. auto.
Qed.

(** C8 (amended): a cleanup deletes exactly the stored events and alerts
    stamped before [now - days_to_keep * 24 h], keeps the others in their
    order and writes the two deletion counts to the log; when the database
    fails it deletes nothing and logs the error; in both cases it returns
    [None] to the caller. *)
Theorem cleanup_deletes_older (days_to_keep : Z) (s : State) :
  let m := cleanup_old_data time_source db_up days_to_keep in
  let cutoff_time := cutoff_of time_source days_to_keep s in
  let old_event := fun e => Num.ltb (timestamp e) cutoff_time in
  let old_alert := fun a => Num.ltb (alert_timestamp a) cutoff_time in
  let before := store (world s) in
  let remaining := store (world (after m s)) in
  (db_up (db_ops (world s)) = true ->
   scoring_events remaining
   = List.filter (fun e => negb (old_event e)) (scoring_events before) /\
   anomaly_alerts remaining
   = List.filter (fun a => negb (old_alert a)) (anomaly_alerts before) /\
   (forall e, e ∈ scoring_events remaining
              <-> e ∈ scoring_events before /\ ~ (timestamp e < cutoff_time)%Q) /\
   (forall a, a ∈ anomaly_alerts remaining
              <-> a ∈ anomaly_alerts before /\ ~ (alert_timestamp a < cutoff_time)%Q) /\
   log (world (after m s))
   = log (world s)
     ++ [CleanupCompleted (length (List.filter old_event (scoring_events before)))
                          (length (List.filter old_alert (anomaly_alerts before)))]) /\
  (db_up (db_ops (world s)) = false ->
   remaining = before /\
   log (world (after m s)) = log (world s) ++ [ErrorDuringCleanup OperationalError]) /\
  outcome m s = Ok None.
Proof.
  intros m cutoff_time old_event old_alert before remaining.
  split; [| split].
  - intros Hup.
    pose proof (cleanup_run days_to_keep s Hup) as Hrun. cbv zeta in Hrun.
    fold m cutoff_time in Hrun. fold old_event old_alert before in Hrun.
    assert (He : scoring_events remaining
                 = List.filter (fun e => negb (old_event e)) (scoring_events before)).
    { unfold remaining, after. rewrite Hrun. reflexivity. }
    assert (Ha : anomaly_alerts remaining
                 = List.filter (fun a => negb (old_alert a)) (anomaly_alerts before)).
    { unfold remaining, after. rewrite Hrun. reflexivity. }
    split; [exact He |]. split; [exact Ha |].
    split; [| split].
    + intros e. rewrite He, elem_of_list_filter. unfold old_event.
      rewrite negb_true_iff, <- not_true_iff_false, ltb_lt. reflexivity.
    + intros a. rewrite Ha, elem_of_list_filter. unfold old_alert.
      rewrite negb_true_iff, <- not_true_iff_false, ltb_lt. reflexivity.
    + unfold after. rewrite Hrun. reflexivity.
  - intros Hdown.
    destruct (cleanup_db_down days_to_keep s Hdown) as (_ & Hs & Hl). auto.
  - destruct (db_up (db_ops (world s))) eqn:Hup.
    + unfold outcome. fold m. unfold m. rewrite (cleanup_run days_to_keep s Hup).
      reflexivity.
    + apply (cleanup_db_down days_to_keep s Hup).
Qed.

End CleanupFacts.

Lemma cleanup_deletes_older_witness :
  let e_old := sample_event 10 (1 # 10) None 200 in
  let e_now := sample_event 1000 (1 # 10) None 200 in
  let a_old := error_rate_alert 20 (1 # 2) critical 10 5 in
  let s := {| self := self (monitor_with ∅ [] [] []);
              world := set_store {| scoring_events := [e_old; e_now];
                                    anomaly_alerts := [a_old] |} empty_world |} in
  let s1 := after (cleanup_old_data stopped_clock db_always_up 0) s in
  let s2 := after (cleanup_old_data stopped_clock db_always_up 9999) s1 in
  let s' := after (cleanup_old_data stopped_clock db_always_down 0) s in
  (db_always_up (db_ops (world s)) = true /\
   db_always_down (db_ops (world s)) = false) /\
  store (world s1) = {| scoring_events := [e_now]; anomaly_alerts := [] |} /\
  log (world s1) = [CleanupCompleted 1 1] /\
  store (world s2) = store (world s1) /\
  log (world s2) = [CleanupCompleted 1 1; CleanupCompleted 0 0] /\
  store (world s') = store (world s).
Proof.
  intros e_old e_now a_old s s1 s2 s'.
  split; [split; reflexivity |].
  destruct (cleanup_deletes_older stopped_clock db_always_up 0 s)
    as (Hup & _ & _).
  destruct Hup as (He & Ha & _ & _ & Hl); [reflexivity |].
  destruct (cleanup_deletes_older stopped_clock db_always_up 9999 s1)
    as (Hup' & _ & _).
  destruct Hup' as (He' & Ha' & _ & _ & Hl'); [reflexivity |].
  destruct (cleanup_deletes_older stopped_clock db_always_down 0 s)
    as (_ & Hdown & _).
  destruct Hdown as (Hs' & _); [reflexivity |].
  fold s1 in He, Ha, Hl. fold s2 in He', Ha', Hl'.
  assert (H1 : store (world s1) = {| scoring_events := [e_now]; anomaly_alerts := [] |}).
  { destruct (store (world s1)) as [evs als]. simpl in He, Ha. rewrite He, Ha. reflexivity. }
  split; [exact H1 |]. split; [rewrite Hl; reflexivity |].
  split; [| split].
  - destruct (store (world s2)) as [evs als]. simpl in He', Ha'.
    rewrite He', Ha', H1. reflexivity.
  - rewrite Hl', Hl. reflexivity.
  - exact Hs'.
Defined.

(** C8 fails as stated: a cleanup that deletes one event and one alert
    returns [None], not the pair of counts. *)
Lemma cleanup_returns_none :
  let e_old := sample_event 10 (1 # 10) None 200 in
  let a_old := error_rate_alert 20 (1 # 2) critical 10 5 in
  let s := {| self := self (monitor_with ∅ [] [] []);
              world := set_store {| scoring_events := [e_old];
                                    anomaly_alerts := [a_old] |} empty_world |} in
  let m := cleanup_old_data stopped_clock db_always_up 0 in
  store (world (after m s)) = {| scoring_events := []; anomaly_alerts := [] |} /\
  outcome m s = Ok None /\
  outcome m s <> Ok (Some (1, 1)).
Proof.
  intros e_old a_old s m.
  assert (H : outcome m s = Ok None) by reflexivity.
  split; [reflexivity |]. split; [exact H |]. rewrite H. discriminate.
Qed.

(** ** Percentile *)

Lemma insert_sorted_perm {A} (le : A -> A -> bool) (x : A) (l : list A) :
  Permutation (x :: l) (insert_sorted le x l).
Proof.
  induction l as [| y l IH]; simpl; [reflexivity |].
  destruct (le x y); [reflexivity |].
  rewrite <- IH. apply perm_swap.
Qed.

Lemma sort_by_perm {A} (le : A -> A -> bool) (l : list A) :
  Permutation l (sort_by le l).
Proof.
  induction l as [| x l IH]; simpl; [reflexivity |].
  rewrite <- insert_sorted_perm. constructor. exact IH.
Qed.

Lemma sort_by_length {A} (le : A -> A -> bool) (l : list A) :
  length (sort_by le l) = length l.
Proof. symmetry. apply Permutation_length, sort_by_perm. Qed.

Lemma insert_sorted_ascending (x : Q) (l : list Q) :
  StronglySorted Qle l -> StronglySorted Qle (insert_sorted Qle_bool x l).
Proof.
  induction 1 as [| y l Hs IH Hall]; simpl.
  - repeat constructor.
  - destruct (Qle_bool x y) eqn:Hxy.
    + apply Qle_bool_iff in Hxy. constructor; [constructor; assumption |].
      constructor; [exact Hxy |].
      eapply Forall_impl; [exact Hall |]. intros z Hz. simpl in Hz.
      eapply Qle_trans; eassumption.
    + assert (Hyx : (y <= x)%Q).
      { apply Qlt_le_weak, Qnot_le_lt. intros H. apply Qle_bool_iff in H. congruence. }
      constructor; [exact IH |].
      rewrite <- insert_sorted_perm. constructor; assumption.
Qed.

Lemma sorted_ascending (data : list Q) : StronglySorted Qle (sorted data).
Proof.
  unfold sorted. induction data as [| x l IH]; simpl; [constructor |].
  apply insert_sorted_ascending, IH.
Qed.

Lemma py_index_in_range {A} (l : list A) (i : Z) (d : A) :
  (0 <= i < Z.of_nat (length l))%Z -> py_index l i = Ok (nth (Z.to_nat i) l d).
Proof.
  intros [H0 H1]. unfold py_index.
  destruct (Z.ltb_spec i 0) as [Hneg | _]; [lia |].
  destruct (Z.ltb_spec i 0) as [Hneg | _]; [lia |].
  destruct (nth_error l (Z.to_nat i)) as [x |] eqn:Hn.
  - f_equal. symmetry. apply nth_error_nth. exact Hn.
  - apply nth_error_None in Hn. lia.
Qed.

Lemma percentile_rank (data : list Q) (p : Z) :
  data <> [] -> (0 <= p)%Z ->
  let N := Z.of_nat (length data) in
  let rank := Z.max 0 (Z.min (N * p / 100) (N - 1)) in
  _percentile data p = Ok (nth (Z.to_nat rank) (sorted data) 0%Q).
Proof.
  intros Hne Hp N rank.
  assert (HN : (1 <= N)%Z).
  { unfold N. destruct data; [congruence | simpl; lia]. }
  assert (Hrun : _percentile data p
                 = py_index (sorted data)
                     (Z.min (int_div (Z.of_nat (length (sorted data)) * p) 100)
                            (Z.of_nat (length (sorted data)) - 1))).
  { destruct data; [congruence | reflexivity]. }
  rewrite Hrun. unfold sorted at 2 3. rewrite sort_by_length. fold N.
  unfold int_div. rewrite Z.quot_div_nonneg by lia.
  assert (Hq : (0 <= N * p / 100)%Z) by (apply Z.div_pos; lia).
  assert (Hr : rank = Z.min (N * p / 100) (N - 1)) by (unfold rank; lia).
  rewrite <- Hr. apply py_index_in_range.
  unfold sorted. rewrite sort_by_length. fold N. lia.
Qed.

Section SummaryFacts.

Variable time_source : nat -> Q.
Variable db_up : nat -> bool.

Lemma weekly_summary_p95 (s : State) :
  let end_time := time_source (clock_reads (world s)) in
  let week := events_between (end_time - 7 * 24 * 3600) end_time
                (scoring_events (store (world s))) in
  db_up (db_ops (world s)) = true ->
  exists r : SummaryReport,
    outcome (generate_weekly_summary time_source db_up) s = Ok (Report r) /\
    Ok (p95_response_time (performance_metrics r))
    = _percentile (map processing_time week) 95.
Proof.
  destruct s as [m [st lg cr ops]]. simpl. intros Hup.
  set (week := events_between _ _ _).
  unfold outcome, generate_weekly_summary. unfold bind at 1. simpl.
  unfold try_except, with_connect. simpl. rewrite Hup.
  unfold bind at 1, fetch_events. simpl. fold week.
  unfold bind at 1, fetch_alerts. simpl.
  destruct (map processing_time week) as [| l ls] eqn:Hl.
  - unfold bind, ret. simpl. eexists. split; reflexivity.
  - rewrite <- Hl.
    assert (Hne : map processing_time week <> []) by (rewrite Hl; discriminate).
    pose proof (percentile_rank _ 95 Hne ltac:(lia)) as Hp. cbv zeta in Hp.
    unfold bind, lift, ret. rewrite Hp. simpl. eexists. split; reflexivity.
Qed.

End SummaryFacts.

(** C9: on a non-empty sample and a percentile [p >= 0], [_percentile]
    returns the element of the ascending sort of the sample at index
    [floor (N * p / 100)] clamped to [0, N - 1]; on the ten latencies
    0.1, ..., 1.0 the index for p = 95 is 9 and the value 1.0; and the weekly
    summary reports as [p95_response_time] the 95th percentile so computed of
    the latencies of the week, 1.0 on a store with those ten latencies. *)
Theorem percentile_nearest_rank :
  (forall (data : list Q) (p : Z),
     data <> [] -> (0 <= p)%Z ->
     let N := Z.of_nat (length data) in
     let rank := Z.max 0 (Z.min (N * p / 100) (N - 1)) in
     StronglySorted Qle (sorted data) /\ Permutation data (sorted data) /\
     _percentile data p = Ok (nth (Z.to_nat rank) (sorted data) 0%Q)) /\
  ((10 * 95 / 100 = 9)%Z /\ _percentile latency_sample 95 = Ok 1.0%Q) /\
  (forall (time_source : nat -> Q) (db_up : nat -> bool) (s : State),
     let end_time := time_source (clock_reads (world s)) in
     let week := events_between (end_time - 7 * 24 * 3600) end_time
                   (scoring_events (store (world s))) in
     db_up (db_ops (world s)) = true ->
     exists r : SummaryReport,
       outcome (generate_weekly_summary time_source db_up) s = Ok (Report r) /\
       Ok (p95_response_time (performance_metrics r))
       = _percentile (map processing_time week) 95) /\
  (exists r : SummaryReport,
     outcome (generate_weekly_summary stopped_clock db_always_up)
             (boot stopped_clock db_always_up 1000 10 latency_world)
     = Ok (Report r) /\
     p95_response_time (performance_metrics r) = 1.0%Q).
Proof.
  split; [| split; [| split]].
  - intros data p Hne Hp N rank.
    split; [apply sorted_ascending |].
    split; [apply sort_by_perm |].
    apply percentile_rank; assumption.
  - split; reflexivity.
  - intros time_source db_up s. apply weekly_summary_p95.
  - eexists. split; [vm_compute; reflexivity | reflexivity].
Qed.

Lemma percentile_nearest_rank_witness :
  (latency_sample <> [] /\ (0 <= 95)%Z) /\
  _percentile latency_sample 95 = Ok (nth 9 (sorted latency_sample) 0%Q) /\
  _percentile [3; 1; 2]%Q 50 = Ok 2%Q /\
  (exists r : SummaryReport,
     outcome (generate_weekly_summary stopped_clock db_always_up)
             (boot stopped_clock db_always_up 1000 10 latency_world)
     = Ok (Report r) /\
     Ok (p95_response_time (performance_metrics r)) = Ok 1.0%Q).
Proof.
  destruct percentile_nearest_rank as (Hrank & _ & Hweek & _).
  split; [split; [discriminate | lia] |].
  split; [| split].
  - apply (Hrank latency_sample 95%Z); [discriminate | lia].
  - apply (Hrank [3; 1; 2]%Q 50%Z); [discriminate | lia].
  - apply (Hweek stopped_clock db_always_up
             (boot stopped_clock db_always_up 1000 10 latency_world)).
    reflexivity.
Defined.

(** ** Score distribution *)

Ltac bucket_cases x :=
  unfold bucket_of, is_poor, is_fair, is_good, is_very_good, is_excellent,
         Num.ltb, Num.leb;
  destruct (Qle_bool 580 x) eqn:H580; destruct (Qle_bool 670 x) eqn:H670;
  destruct (Qle_bool 740 x) eqn:H740; destruct (Qle_bool 800 x) eqn:H800;
  simpl;
  try (exfalso;
       repeat match goal with
              | H : Qle_bool _ _ = true |- _ => apply Qle_bool_iff in H
              | H : Qle_bool _ _ = false |- _ =>
                  apply not_true_iff_false in H; rewrite Qle_bool_iff in H;
                  apply Qnot_le_lt in H
              end; lra).

Lemma alter_bucket (x : Q) (a b c d e : nat) :
  alter (fun n => n + 1) (bucket_of x) (buckets a b c d e)
  = buckets (a + count_in is_poor [x]) (b + count_in is_fair [x])
            (c + count_in is_good [x]) (d + count_in is_very_good [x])
            (e + count_in is_excellent [x]).
Proof.
  unfold count_in. simpl.
  bucket_cases x; rewrite ?Nat.add_0_r; reflexivity.
Qed.

Lemma count_in_cons (p : Q -> bool) (x : Q) (l : list Q) :
  count_in p (x :: l) = count_in p [x] + count_in p l.
Proof. unfold count_in. simpl. destruct (p x); reflexivity. Qed.

Lemma fold_buckets (scores : list Q) (a b c d e : nat) :
  fold_left (fun distribution score =>
               alter (fun n => n + 1) (bucket_of score) distribution)
            scores (buckets a b c d e)
  = buckets (a + count_in is_poor scores) (b + count_in is_fair scores)
            (c + count_in is_good scores) (d + count_in is_very_good scores)
            (e + count_in is_excellent scores).
Proof.
  revert a b c d e. induction scores as [| x scores IH]; intros a b c d e.
  - simpl. unfold count_in. simpl. rewrite !Nat.add_0_r. reflexivity.
  - simpl. rewrite alter_bucket, IH.
    rewrite !(count_in_cons _ x scores), !Nat.add_assoc. reflexivity.
Qed.

Lemma counts_partition (scores : list Q) :
  count_in is_poor scores + count_in is_fair scores + count_in is_good scores
  + count_in is_very_good scores + count_in is_excellent scores
  = length scores.
Proof.
  induction scores as [| x scores IH]; [reflexivity |].
  rewrite !(count_in_cons _ x scores). simpl length. rewrite <- IH.
  assert (H1 : count_in is_poor [x] + count_in is_fair [x] + count_in is_good [x]
               + count_in is_very_good [x] + count_in is_excellent [x] = 1).
  { unfold count_in. simpl. bucket_cases x; reflexivity. }
  lia.
Qed.

(** C10: the distribution of no scores is the empty dict, not five zeroed
    buckets; the distribution of one score or more has exactly the five keys,
    each with the number of scores in its range (below 580; 580 up to but not
    670; 670 up to but not 740; 740 up to but not 800; 800 and above), and
    the five counts add up to the number of scores. *)
Theorem score_distribution_partition :
  (_calculate_score_distribution [] = ∅ /\
   _calculate_score_distribution [] <> buckets 0 0 0 0 0) /\
  (forall (x : Q) (rest : list Q),
     let scores := x :: rest in
     let distribution := _calculate_score_distribution scores in
     dom distribution
     = {[ "poor (0-579)"; "fair (580-669)"; "good (670-739)";
          "very_good (740-799)"; "excellent (800-1000)" ]} /\
     distribution !! "poor (0-579)" = Some (count_in is_poor scores) /\
     distribution !! "fair (580-669)" = Some (count_in is_fair scores) /\
     distribution !! "good (670-739)" = Some (count_in is_good scores) /\
     distribution !! "very_good (740-799)" = Some (count_in is_very_good scores) /\
     distribution !! "excellent (800-1000)" = Some (count_in is_excellent scores) /\
     count_in is_poor scores + count_in is_fair scores + count_in is_good scores
     + count_in is_very_good scores + count_in is_excellent scores
     = length scores).
Proof.
  split.
  - split; [reflexivity |].
    intros H. apply (f_equal (fun d => d !! "poor (0-579)")) in H. discriminate H.
  - intros x rest scores distribution.
    assert (Hd : distribution
                 = buckets (count_in is_poor scores) (count_in is_fair scores)
                           (count_in is_good scores) (count_in is_very_good scores)
                           (count_in is_excellent scores)).
    { unfold distribution, _calculate_score_distribution, scores.
      change empty_distribution with (buckets 0 0 0 0 0).
      rewrite fold_buckets. reflexivity. }
    rewrite Hd.
    split; [reflexivity |].
    repeat (split; [reflexivity |]).
    apply counts_partition.
Qed.

(** ** Ingestion: which calls return *)

Lemma returns_seq (P : gmap string Q -> Prop) (m1 m2 : M unit) :
  returns_given P m1 -> keeps frame m1 -> returns_given P m2 ->
  returns_given P (m1 ;; m2).
Proof.
  intros H1 Hk H2 s HP. specialize (H1 s HP). specialize (Hk s).
  unfold outcome, after, bind in *.
  destruct (m1 s) as [[[] | e] s1]; simpl in *; [| discriminate].
  apply H2.
  assert (Hb : baseline_metrics (self s1) = baseline_metrics (self s))
    by (unfold frame in Hk; congruence).
  rewrite Hb. exact HP.
Qed.

Section IngestionFacts.

Variable time_source : nat -> Q.
Variable db_up : nat -> bool.

(** a failed write is caught: persisting never raises *)
Lemma persist_event_ok (e : ScoringEvent) (s : State) :
  outcome (_persist_event db_up e) s = Ok tt /\
  (db_up (db_ops (world s)) = false ->
   log (world (after (_persist_event db_up e) s))
   = log (world s) ++ [ErrorPersistingEvent OperationalError]).
Proof.
  unfold outcome, after, _persist_event, try_except, with_connect.
  destruct (db_up _); simpl; split; try reflexivity; discriminate.
Qed.

Lemma returns_detect_response_time (event : ScoringEvent) (t : Q) :
  returns_given divisors_nonzero
    (_detect_response_time_anomalies time_source db_up event t).
Proof.
  intros s [Havg _].
  destruct (Nat.ltb_spec (length (recent_response_times (self s))) 10) as [Hlt | Hge].
  - unfold outcome, _detect_response_time_anomalies, bind, gets. simpl.
    apply Nat.ltb_lt in Hlt. rewrite Hlt. reflexivity.
  - apply (response_time_spike_iff time_source db_up event t s Hge Havg).
Qed.

Lemma returns_detect_score (P : gmap string Q -> Prop) (event : ScoringEvent) (t : Q) :
  returns_given P (_detect_score_anomalies time_source db_up event t).
Proof.
  intros s _.
  destruct (Nat.ltb_spec (length (recent_scores (self s))) 20) as [Hlt | Hge].
  - unfold outcome, _detect_score_anomalies, bind, gets. simpl.
    apply Nat.ltb_lt in Hlt. rewrite Hlt. reflexivity.
  - unfold outcome. rewrite (detect_score_run time_source db_up event t s Hge).
    destruct (Num.gtb _ _); [apply trigger_alert_ok | reflexivity].
Qed.

Lemma returns_detect_request_pattern (event : ScoringEvent) (t : Q) :
  returns_given divisors_nonzero
    (_detect_request_pattern_anomalies time_source db_up event t).
Proof.
  intros s [_ Hrate].
  unfold outcome, _detect_request_pattern_anomalies, bind, gets, lift. simpl.
  destruct (Num.gtb _ _); [| reflexivity].
  unfold py_div.
  destruct (Qeq_bool _ 0) eqn:Hz; [apply Qeq_bool_iff in Hz; contradiction |].
  apply trigger_alert_ok.
Qed.

Lemma returns_detect_error_rate (P : gmap string Q -> Prop) (t : Q) :
  returns_given P (_detect_error_rate_anomalies time_source db_up t).
Proof.
  intros s _.
  destruct (Nat.ltb_spec (length (last_hour t (recent_events (self s)))) 10)
    as [Hlt | Hge].
  - unfold outcome, _detect_error_rate_anomalies, bind, gets. simpl.
    apply Nat.ltb_lt in Hlt. rewrite Hlt. reflexivity.
  - unfold outcome. rewrite (detect_error_rate_run time_source db_up t s Hge).
    destruct (Num.gtb _ _); [apply trigger_alert_ok | reflexivity].
Qed.

Lemma returns_detect_repeat_request (P : gmap string Q -> Prop)
    (event : ScoringEvent) (t : Q) :
  returns_given P (_detect_repeat_request_anomalies time_source db_up event t).
Proof.
  intros s _.
  unfold outcome, _detect_repeat_request_anomalies, bind, gets, modify. simpl.
  destruct (defaultdict_get (user_id event) _) as [n1 c1]. simpl.
  destruct (50 <? n1).
  - pose proof (trigger_alert_ok time_source db_up
                  (repeat_user_alert t event n1)) as H1.
    unfold outcome in H1.
    match goal with |- context [_trigger_alert _ _ _ ?s1] => specialize (H1 s1);
      destruct (_trigger_alert time_source db_up _ s1) as [[[] | e] s2] end;
      simpl in H1; [| discriminate].
    destruct (defaultdict_get (ip_address event) _) as [n2 c2]. simpl.
    destruct (100 <? n2); [apply trigger_alert_ok | reflexivity].
  - simpl. destruct (defaultdict_get (ip_address event) _) as [n2 c2]. simpl.
    destruct (100 <? n2); [apply trigger_alert_ok | reflexivity].
Qed.

Lemma returns_detect_anomalies (event : ScoringEvent) :
  returns_given divisors_nonzero (_detect_anomalies time_source db_up event).
Proof.
  intros s HP.
  unfold outcome, _detect_anomalies. unfold bind at 1 2, gets. simpl.
  destruct (Z.of_nat _ <? _)%Z; [reflexivity |].
  unfold bind at 1, time_time. simpl.
  set (t := time_source _).
  apply (returns_seq divisors_nonzero);
    [apply returns_detect_response_time | apply keeps_detect_response_time | | exact HP].
  apply returns_seq;
    [apply returns_detect_score | apply keeps_detect_score |].
  apply returns_seq;
    [apply returns_detect_request_pattern | apply keeps_detect_request_pattern |].
  apply returns_seq;
    [apply returns_detect_error_rate | apply keeps_detect_error_rate |].
  apply returns_detect_repeat_request.
Qed.

(** Ingestion returns normally, with the database up or down, as long as
    the two baseline entries the detectors divide by are not zero. *)
Lemma log_scoring_event_returns (event : ScoringEvent) :
  returns_given divisors_nonzero (log_scoring_event time_source db_up event).
Proof.
  intros s HP.
  assert (Htail : returns_given divisors_nonzero
            (_persist_event db_up event ;; _detect_anomalies time_source db_up event)).
  { apply returns_seq.
    - intros s' _. apply persist_event_ok.
    - apply keeps_persist_event.
    - apply returns_detect_anomalies. }
  unfold log_scoring_event, outcome.
  destruct (response_data event !! "credit_score") as [score |];
    apply Htail; exact HP.
Qed.

End IngestionFacts.

(** ** A baseline mean of zero *)

(** C1, at an input where it fails: the monitor is built over a store whose
    history has a zero latency, so that the baseline mean is zero; nine
    ingestions of an event that takes 0.1 s return, and the tenth, which
    starts the detection with a window mean of 0.1, raises
    [ZeroDivisionError] to the caller, with the database up and with the
    database down. *)
Theorem log_scoring_event_raises :
  let s0 := boot stopped_clock db_always_up 1000 10 zero_latency_world in
  let s9 := ingest_all stopped_clock db_always_up (repeat slow_event 9) s0 in
  dict_get (baseline_metrics (self s0)) "avg_processing_time" (1 # 2) = 0%Q /\
  length (recent_events (self s9)) = 9 /\
  outcome (log_scoring_event stopped_clock db_always_up slow_event) s9
  = Raise ZeroDivisionError /\
  outcome (log_scoring_event stopped_clock db_always_down slow_event) s9
  = Raise ZeroDivisionError.
Proof.
  vm_compute. repeat split; reflexivity.
Qed.

(** C3, at an input where it fails: in the state reached by ten ingestions
    on the monitor above, the latency window has ten samples and its mean 0.1
    exceeds the threshold 0 + 3 * 0, yet the response-time detector raises
    [ZeroDivisionError] and no alert is raised, by the detector called on that
    state as well as by the tenth ingestion. *)
Theorem spike_lost_on_zero_baseline :
  let s0 := boot stopped_clock db_always_up 1000 10 zero_latency_world in
  let s9 := ingest_all stopped_clock db_always_up (repeat slow_event 9) s0 in
  let s10 := after (log_scoring_event stopped_clock db_always_up slow_event) s9 in
  let detect :=
    _detect_response_time_anomalies stopped_clock db_always_up slow_event 1000 in
  let b_avg := dict_get (baseline_metrics (self s10)) "avg_processing_time" (1 # 2) in
  let b_std := dict_get (baseline_metrics (self s10)) "std_processing_time" (1 # 5) in
  length (recent_response_times (self s10)) = 10 /\
  (b_avg + 3 * b_std < statistics.mean_val (recent_response_times (self s10)))%Q /\
  outcome detect s10 = Raise ZeroDivisionError /\
  ~ fires detect s10 response_time_spike high /\
  ~ fires (log_scoring_event stopped_clock db_always_up slow_event) s9
          response_time_spike high.
Proof.
  intros s0 s9 s10 detect b_avg b_std.
  split; [reflexivity |]. split; [reflexivity |].
  split; [vm_compute; reflexivity |].
  split; apply fires_nil; vm_compute; reflexivity.
Qed.

(** * Further properties of the monitor *)

(** ** Persistence of events and alerts *)

Section PersistenceFacts.

Variable time_source : nat -> Q.
Variable db_up : nat -> bool.

(** X1: persisting an event never raises and never touches the monitor.
    When the database block goes through, the event becomes the last row of
    [scoring_events] and nothing is logged; when it fails, the store is left
    as it was and one error record is logged. *)
Theorem persist_event_effect (e : ScoringEvent) (s : State) :
  let m := _persist_event db_up e in
  outcome m s = Ok tt /\
  self (after m s) = self s /\
  anomaly_alerts (store (world (after m s))) = anomaly_alerts (store (world s)) /\
  scoring_events (store (world (after m s)))
  = (if db_up (db_ops (world s))
     then scoring_events (store (world s)) ++ [e]
     else scoring_events (store (world s))) /\
  log (world (after m s))
  = (if db_up (db_ops (world s))
     then log (world s)
     else log (world s) ++ [ErrorPersistingEvent OperationalError]).
Proof.
  unfold outcome, after, _persist_event, try_except, with_connect.
  destruct (db_up _); simpl; repeat split; reflexivity.
Qed.

(** X2: raising an alert never raises an exception.  The alert is logged as
    a warning in every case, after the error record of a failed write; it
    becomes the last row of [anomaly_alerts] exactly when the database block
    goes through; and the list kept in memory is the old list with the alert
    appended, cut down to the alerts stamped within the 24 hours before the
    clock reading, whether the write failed or not. *)
Theorem trigger_alert_effect (a : AnomalyAlert) (s : State) :
  let m := _trigger_alert time_source db_up a in
  let cutoff_time := (time_source (clock_reads (world s)) - 24 * 3600)%Q in
  outcome m s = Ok tt /\
  alerts (self (after m s))
  = List.filter (fun x => Num.gtb (alert_timestamp x) cutoff_time)
                (alerts (self s) ++ [a]) /\
  (forall x, x ∈ alerts (self (after m s)) -> (cutoff_time < alert_timestamp x)%Q) /\
  frame (self (after m s)) = frame (self s) /\
  scoring_events (store (world (after m s))) = scoring_events (store (world s)) /\
  anomaly_alerts (store (world (after m s)))
  = (if db_up (db_ops (world s))
     then anomaly_alerts (store (world s)) ++ [a]
     else anomaly_alerts (store (world s))) /\
  log (world (after m s))
  = log (world s)
    ++ (if db_up (db_ops (world s)) then [] else [ErrorPersistingAlert OperationalError])
    ++ [AnomalyAlertWarning a].
Proof.
  intros m cutoff_time.
  assert (Ha : alerts (self (after m s))
               = List.filter (fun x => Num.gtb (alert_timestamp x) cutoff_time)
                             (alerts (self s) ++ [a])).
  { unfold m, after, _trigger_alert, bind, try_except, with_connect, modify.
    simpl. destruct (db_up _); reflexivity. }
  split; [apply trigger_alert_ok |].
  split; [exact Ha |].
  split.
  { intros x Hx. rewrite Ha in Hx. apply elem_of_list_filter in Hx.
    apply gtb_lt. apply Hx. }
  unfold m, after, _trigger_alert, bind, try_except, with_connect, modify.
  simpl. destruct (db_up _); simpl; repeat split; try reflexivity;
    rewrite <- app_assoc; reflexivity.
Qed.

End PersistenceFacts.

(** ** Detection: the gate, traffic and repeat requests *)

Section MoreDetectorFacts.

Variable time_source : nat -> Q.
Variable db_up : nat -> bool.

Lemma detect_anomalies_gate (e : ScoringEvent) (s : State) :
  (Z.of_nat (length (recent_events (self s))) < alert_threshold (self s))%Z ->
  _detect_anomalies time_source db_up e s = (Ok tt, s).
Proof.
  intros H. unfold _detect_anomalies, bind, gets. simpl.
  apply Z.ltb_lt in H. rewrite H. reflexivity.
Qed.

(** X3: an ingestion that leaves fewer events in the window than
    [alert_threshold] returns normally without running any detector: no alert
    is raised, the alerts in memory and in the store are as before and the
    clock is not read. *)
Theorem cold_start_silent (e : ScoringEvent) (s : State) :
  let m := log_scoring_event time_source db_up e in
  (Z.of_nat (length (deque_append (window_size (self s)) (recent_events (self s)) e))
   < alert_threshold (self s))%Z ->
  outcome m s = Ok tt /\
  fired m s = [] /\
  alerts (self (after m s)) = alerts (self s) /\
  anomaly_alerts (store (world (after m s))) = anomaly_alerts (store (world s)) /\
  clock_reads (world (after m s)) = clock_reads (world s).
Proof.
  intros m Hlt.
  assert (Hrun : forall s', recent_events (self s')
                            = deque_append (window_size (self s)) (recent_events (self s)) e ->
                            alert_threshold (self s') = alert_threshold (self s) ->
            (_persist_event db_up e ;; _detect_anomalies time_source db_up e) s'
            = (Ok tt, after (_persist_event db_up e) s')).
  { intros s' Hev Hth. unfold bind at 1.
    pose proof (persist_event_ok db_up e s') as [Hok _].
    pose proof (keeps_persist_event db_up e s') as Hk.
    unfold outcome in Hok. unfold after in *.
    destruct (_persist_event db_up e s') as [[[] | x] s1]; simpl in *; [| discriminate].
    apply detect_anomalies_gate.
    unfold frame, windows in Hk.
    assert (H1 : recent_events (self s1) = recent_events (self s')) by congruence.
    assert (H2 : alert_threshold (self s1) = alert_threshold (self s')) by congruence.
    rewrite H1, H2, Hev, Hth. exact Hlt. }
  assert (Hp : forall s', fst (_persist_event db_up e s') = Ok tt /\
                 alerts (self (snd (_persist_event db_up e s'))) = alerts (self s') /\
                 anomaly_alerts (store (world (snd (_persist_event db_up e s'))))
                 = anomaly_alerts (store (world s')) /\
                 clock_reads (world (snd (_persist_event db_up e s')))
                 = clock_reads (world s') /\
                 warnings (log (world (snd (_persist_event db_up e s'))))
                 = warnings (log (world s'))).
  { intros s'. unfold _persist_event, try_except, with_connect.
    destruct (db_up _); simpl; repeat split; try reflexivity.
    rewrite warnings_app. simpl. apply app_nil_r. }
  assert (Heq : exists s', m s = (Ok tt, snd (_persist_event db_up e s')) /\
                           alerts (self s') = alerts (self s) /\ world s' = world s).
  { unfold m, log_scoring_event.
    destruct (response_data e !! "credit_score") as [score |];
      (unfold bind at 1 2 3 4 5, modify; simpl;
       match goal with |- context [bind _ _ ?s1] => exists s1 end;
       split; [rewrite Hrun by reflexivity; reflexivity | split; reflexivity]). }
  destruct Heq as (s' & Heq & Hal & Hwd).
  destruct (Hp s') as (_ & Ha & Hs & Hc & Hw).
  unfold outcome, fired, after. rewrite Heq. cbn [fst snd].
  rewrite Ha, Hs, Hc, Hw, Hal, Hwd.
  repeat split; try reflexivity. apply drop_all.
Qed.

(** X4: the traffic detector has no sample-size guard.  With a baseline
    rate other than zero it returns normally and raises a traffic-spike alert,
    of severity medium and with the ratio of the two rates as spike factor,
    exactly when the number of window events stamped within the last hour
    exceeds five times the baseline rate; with a baseline rate of zero and an
    event in the last hour it raises [ZeroDivisionError] instead. *)
Theorem traffic_spike_iff (event : ScoringEvent) (current_time : Q) (s : State) :
  let m := _detect_request_pattern_anomalies time_source db_up event current_time in
  let current_rate := length (last_hour current_time (recent_events (self s))) in
  let baseline_rate := dict_get (baseline_metrics (self s)) "requests_per_hour" 10 in
  (~ (baseline_rate == 0)%Q ->
   outcome m s = Ok tt /\
   (fires m s traffic_spike medium <-> (baseline_rate * 5 < Num.of_nat current_rate)%Q) /\
   ((baseline_rate * 5 < Num.of_nat current_rate)%Q ->
    fired m s = [traffic_alert current_time current_rate baseline_rate
                   (Num.of_nat current_rate / baseline_rate)]) /\
   ((Num.of_nat current_rate <= baseline_rate * 5)%Q -> fired m s = [])) /\
  ((baseline_rate == 0)%Q -> 0 < current_rate ->
   outcome m s = Raise ZeroDivisionError /\ fired m s = []).
Proof.
  intros m current_rate baseline_rate.
  assert (Hrun : m s
            = if Num.gtb (Num.of_nat current_rate) (baseline_rate * 5)
              then if Qeq_bool baseline_rate 0
                   then (Raise ZeroDivisionError, s)
                   else _trigger_alert time_source db_up
                          (traffic_alert current_time current_rate baseline_rate
                             (Num.of_nat current_rate / baseline_rate)) s
              else (Ok tt, s)).
  { unfold m, _detect_request_pattern_anomalies, bind, gets, lift, py_div. simpl.
    fold current_rate baseline_rate.
    destruct (Num.gtb _ _); [| reflexivity].
    destruct (Qeq_bool baseline_rate 0); reflexivity. }
  split.
  - intros Hnz.
    assert (Hz : Qeq_bool baseline_rate 0 = false).
    { apply not_true_iff_false. rewrite Qeq_bool_iff. exact Hnz. }
    rewrite Hz in Hrun.
    destruct (Num.gtb (Num.of_nat current_rate) (baseline_rate * 5)) eqn:H5;
      [apply gtb_lt in H5 | apply gtb_le in H5].
    + assert (Hf : fired m s = [traffic_alert current_time current_rate baseline_rate
                                  (Num.of_nat current_rate / baseline_rate)]).
      { unfold fired, after. rewrite Hrun. apply trigger_alert_fired. }
      split; [unfold outcome; rewrite Hrun; apply trigger_alert_ok |].
      split; [| split].
      * rewrite (fires_singleton m s _ _ _ Hf). simpl. tauto.
      * intros _. exact Hf.
      * intros Hle. lra.
    + assert (Hf : fired m s = []).
      { unfold fired, after. rewrite Hrun. simpl. apply drop_all. }
      split; [unfold outcome; rewrite Hrun; reflexivity |].
      split; [| split].
      * split; [intros Hs; exfalso; exact (fires_nil m s _ _ Hf Hs) | intros Hlt; lra].
      * intros Hlt. lra.
      * intros _. exact Hf.
  - intros Hz Hpos.
    assert (H5 : Num.gtb (Num.of_nat current_rate) (baseline_rate * 5) = true).
    { apply gtb_lt. rewrite Hz. apply of_nat_pos in Hpos. lra. }
    rewrite H5 in Hrun. apply Qeq_bool_iff in Hz. rewrite Hz in Hrun.
    unfold outcome, fired, after. rewrite Hrun. simpl.
    split; [reflexivity | apply drop_all].
Qed.

(** X5: the repeat-request detector never raises.  It raises the user alert
    (medium) exactly when the lifetime counter of the event's user exceeds 50
    and the address alert (high) exactly when the counter of the event's
    address exceeds 100, the two independently and in this order. *)
Theorem repeat_request_alerts (event : ScoringEvent) (current_time : Q) (s : State) :
  let m := _detect_repeat_request_anomalies time_source db_up event current_time in
  let user_count := counter (user_request_counts (self s)) (user_id event) in
  let ip_count := counter (ip_request_counts (self s)) (ip_address event) in
  outcome m s = Ok tt /\
  fired m s
  = (if 50 <? user_count then [repeat_user_alert current_time event user_count] else [])
    ++ (if 100 <? ip_count then [repeat_ip_alert current_time event ip_count] else []) /\
  (fires m s repeat_user_requests medium <-> 50 < user_count) /\
  (fires m s repeat_ip_requests high <-> 100 < ip_count).
Proof.
  intros m user_count ip_count.
  assert (Hg : forall k d, fst (defaultdict_get k d) = counter d k).
  { intros k d. unfold defaultdict_get, counter. destruct (d !! k); reflexivity. }
  assert (Hf : outcome m s = Ok tt /\
               warnings (log (world (after m s)))
               = warnings (log (world s))
                 ++ (if 50 <? user_count
                     then [repeat_user_alert current_time event user_count] else [])
                 ++ (if 100 <? ip_count
                     then [repeat_ip_alert current_time event ip_count] else [])).
  { pose (ip_part :=
            (counts <- gets ip_request_counts ;;
             (let '(ip_recent_requests, counts') :=
                defaultdict_get (ip_address event) counts in
              modify (set_ip_request_counts counts') ;;
              (if 100 <? ip_recent_requests
               then _trigger_alert time_source db_up
                      (repeat_ip_alert current_time event ip_recent_requests)
               else ret tt)))).
    assert (Hstep : forall s2 pre,
              counter (ip_request_counts (self s2)) (ip_address event) = ip_count ->
              warnings (log (world s2)) = warnings (log (world s)) ++ pre ->
              fst (ip_part s2) = Ok tt /\
              warnings (log (world (snd (ip_part s2))))
              = warnings (log (world s)) ++ pre
                ++ (if 100 <? ip_count
                    then [repeat_ip_alert current_time event ip_count] else [])).
    { intros s2 pre Hc Hw.
      pose proof (Hg (ip_address event) (ip_request_counts (self s2))) as Hi.
      rewrite Hc in Hi.
      set (c2 := snd (defaultdict_get (ip_address event) (ip_request_counts (self s2)))).
      assert (Hr : ip_part s2
                   = if 100 <? ip_count
                     then _trigger_alert time_source db_up
                            (repeat_ip_alert current_time event ip_count)
                            (on_self (set_ip_request_counts c2) s2)
                     else (Ok tt, on_self (set_ip_request_counts c2) s2)).
      { subst ip_part c2. unfold bind at 1, gets. simpl.
        destruct (defaultdict_get (ip_address event) (ip_request_counts (self s2)))
          as [n2 c2]. simpl in Hi. subst n2.
        unfold bind at 1, modify. simpl.
        destruct (100 <? ip_count); reflexivity. }
      rewrite Hr. clear Hr. clearbody c2.
      destruct (100 <? ip_count).
      - split; [apply trigger_alert_ok |].
        pose proof (trigger_alert_warnings time_source db_up
                      (repeat_ip_alert current_time event ip_count)
                      (on_self (set_ip_request_counts c2) s2)) as Hx.
        unfold after in Hx. rewrite Hx. simpl. rewrite Hw, <- app_assoc. reflexivity.
      - simpl. split; [reflexivity |]. rewrite Hw, app_nil_r. reflexivity. }
    assert (Hm : exists s2,
              m s = ip_part s2 /\
              counter (ip_request_counts (self s2)) (ip_address event) = ip_count /\
              warnings (log (world s2))
              = warnings (log (world s))
                ++ (if 50 <? user_count
                    then [repeat_user_alert current_time event user_count] else [])).
    { unfold m, _detect_repeat_request_anomalies. unfold bind at 1, gets. simpl.
      pose proof (Hg (user_id event) (user_request_counts (self s))) as Hu.
      fold user_count in Hu.
      destruct (defaultdict_get (user_id event) (user_request_counts (self s)))
        as [n1 c1]. simpl in Hu. subst n1.
      unfold bind at 1, modify. simpl.
      set (s1 := on_self (set_user_request_counts c1) s).
      destruct (50 <? user_count).
      - unfold bind at 1.
        pose proof (trigger_alert_ok time_source db_up
                      (repeat_user_alert current_time event user_count) s1) as Hok.
        pose proof (trigger_alert_warnings time_source db_up
                      (repeat_user_alert current_time event user_count) s1) as Hw.
        pose proof (keeps_trigger_alert time_source db_up
                      (fun m0 => ip_request_counts m0)
                      (repeat_user_alert current_time event user_count)
                      (fun _ _ => eq_refl) s1) as Hk.
        unfold outcome, after in Hok, Hw, Hk.
        destruct (_trigger_alert time_source db_up _ s1) as [[[] | x] s2];
          simpl in Hok, Hw, Hk; [| discriminate].
        exists s2. split; [reflexivity |]. split; [rewrite Hk; reflexivity |].
        rewrite Hw. reflexivity.
      - unfold bind at 1, ret. simpl. exists s1.
        split; [reflexivity |]. split; [reflexivity |].
        rewrite app_nil_r. reflexivity. }
    destruct Hm as (s2 & Hms & Hc2 & Hw2).
    unfold outcome, after. rewrite Hms. apply (Hstep s2 _ Hc2 Hw2). }
  destruct Hf as [Hok Hw].
  assert (Hfired : fired m s
            = (if 50 <? user_count
               then [repeat_user_alert current_time event user_count] else [])
              ++ (if 100 <? ip_count
                  then [repeat_ip_alert current_time event ip_count] else [])).
  { unfold fired. rewrite Hw. apply drop_app_length. }
  split; [exact Hok |]. split; [exact Hfired |].
  unfold fires. rewrite Hfired. split.
  - split.
    + intros (a & Hin & Ht & _). apply Nat.ltb_lt.
      destruct (50 <? user_count); [reflexivity |].
      destruct (100 <? ip_count); simpl in Hin.
      * apply list_elem_of_singleton in Hin. subst a. discriminate Ht.
      * apply not_elem_of_nil in Hin. contradiction.
    + intros Hlt. apply Nat.ltb_lt in Hlt. rewrite Hlt. eexists.
      split; [apply list_elem_of_here | split; reflexivity].
  - split.
    + intros (a & Hin & Ht & _). apply Nat.ltb_lt.
      destruct (100 <? ip_count); [reflexivity |].
      destruct (50 <? user_count); simpl in Hin.
      * apply list_elem_of_singleton in Hin. subst a. discriminate Ht.
      * apply not_elem_of_nil in Hin. contradiction.
    + intros Hlt. apply Nat.ltb_lt in Hlt. rewrite Hlt.
      exists (repeat_ip_alert current_time event ip_count).
      split; [| split; reflexivity].
      apply elem_of_app. right. apply list_elem_of_here.
Qed.

End MoreDetectorFacts.

Lemma cold_start_silent_witness :
  let s := monitor_with ∅ [] [] [] in
  let m := log_scoring_event stopped_clock db_always_up slow_event in
  (Z.of_nat (length (deque_append (window_size (self s)) (recent_events (self s))
                                  slow_event))
   < alert_threshold (self s))%Z /\
  outcome m s = Ok tt /\ fired m s = [].
Proof.
  intros s m.
  assert (H : (Z.of_nat (length (deque_append (window_size (self s))
                                   (recent_events (self s)) slow_event))
               < alert_threshold (self s))%Z) by reflexivity.
  split; [exact H |].
  destruct (cold_start_silent stopped_clock db_always_up slow_event s H)
    as (Hok & Hf & _).
  split; assumption.
Defined.

Lemma traffic_spike_iff_witness :
  let quiet := monitor_with {[ "requests_per_hour" := (1 # 168)%Q ]} [slow_event] [] [] in
  let idle := monitor_with {[ "requests_per_hour" := 0%Q ]} [slow_event] [] [] in
  let m := _detect_request_pattern_anomalies stopped_clock db_always_up slow_event 1000 in
  fires m quiet traffic_spike medium /\
  outcome m idle = Raise ZeroDivisionError.
Proof.
  intros quiet idle m. split.
  - destruct (traffic_spike_iff stopped_clock db_always_up slow_event 1000%Q quiet)
      as [H _].
    destruct H as (_ & Hiff & _); [discriminate |].
    apply Hiff. reflexivity.
  - destruct (traffic_spike_iff stopped_clock db_always_up slow_event 1000%Q idle)
      as [_ H].
    apply H; [reflexivity | simpl; lia].
Defined.

(** ** The windows hold the latest entries *)

Lemma deque_append_lastn {A} (n : nat) (l : list A) (x : A) :
  deque_append n (lastn n l) x = lastn n (l ++ [x]).
Proof.
  unfold deque_append, lastn. rewrite !length_app, length_drop. simpl.
  destruct (Nat.le_gt_cases n (length l)) as [Hge | Hlt].
  - destruct (Nat.ltb_spec n (length l - (length l - n) + 1)) as [_ | H]; [| lia].
    replace (length l + 1 - n) with ((length l - n) + 1) by lia.
    rewrite <- drop_drop.
    destruct (Nat.eq_dec n 0) as [-> | Hn].
    + rewrite Nat.sub_0_r, drop_all, drop_app_length. reflexivity.
    + rewrite (drop_app_le l [x]) by lia.
      destruct (drop (length l - n) l ++ [x]); reflexivity.
  - replace (length l - n) with 0 by lia.
    replace (length l + 1 - n) with 0 by lia.
    destruct (Nat.ltb_spec n (length l - 0 + 1)) as [H | _]; [lia |].
    reflexivity.
Qed.

Lemma scores_of_snoc (events : list ScoringEvent) (e : ScoringEvent) :
  scores_of (events ++ [e])
  = scores_of events
    ++ match response_data e !! "credit_score" with Some sc => [sc] | None => [] end.
Proof.
  unfold scores_of. rewrite omap_app. simpl.
  destruct (response_data e !! "credit_score"); reflexivity.
Qed.

Section LatestFacts.

Variable time_source : nat -> Q.
Variable db_up : nat -> bool.

Lemma ingest_all_latest (events history : list ScoringEvent) (s : State) :
  let n := window_size (self s) in
  windows (self s)
  = (n, lastn n history, lastn n (scores_of history),
     lastn n (map processing_time history)) ->
  windows (self (ingest_all time_source db_up events s))
  = (n, lastn n (history ++ events), lastn n (scores_of (history ++ events)),
     lastn n (map processing_time (history ++ events))).
Proof.
  revert history s. induction events as [| e events IH]; intros history s n Hw.
  - simpl. rewrite app_nil_r. exact Hw.
  - simpl.
    pose proof (log_scoring_event_windows time_source db_up e s) as Hs.
    cbv zeta in Hs. fold n in Hs.
    unfold windows in Hw. injection Hw as He Hsc Hti.
    rewrite He, Hsc, Hti in Hs.
    rewrite !deque_append_lastn in Hs.
    assert (Hs' : windows (self (after (log_scoring_event time_source db_up e) s))
                  = (n, lastn n (history ++ [e]), lastn n (scores_of (history ++ [e])),
                     lastn n (map processing_time (history ++ [e])))).
    { rewrite Hs, scores_of_snoc, map_app. simpl.
      destruct (response_data e !! "credit_score") as [sc |].
      - rewrite deque_append_lastn. reflexivity.
      - rewrite app_nil_r. reflexivity. }
    assert (Hn : window_size (self (after (log_scoring_event time_source db_up e) s)) = n).
    { unfold windows in Hs'. congruence. }
    specialize (IH (history ++ [e]) (after (log_scoring_event time_source db_up e) s)).
    cbv zeta in IH. rewrite Hn in IH. specialize (IH Hs').
    rewrite <- !app_assoc in IH. exact IH.
Qed.

(** X6: on a monitor built with capacity [n], after any sequence of
    ingestions (returning or raising) the event window holds exactly the last
    [n] ingested events in their order, the latency window their processing
    times, and the score window the last [n] scores carried by the ingested
    events; so the latency window is always the latencies of the event
    window. *)
Theorem windows_hold_latest (sqrt : Q -> Q) (n : nat) (threshold : Z) (s0 : State)
    (events : list ScoringEvent) :
  let s := ingest_all time_source db_up events
             (after (__init__ time_source db_up sqrt n threshold) s0) in
  recent_events (self s) = lastn n events /\
  recent_response_times (self s) = lastn n (map processing_time events) /\
  recent_scores (self s) = lastn n (scores_of events) /\
  recent_response_times (self s) = map processing_time (recent_events (self s)).
Proof.
  intros s.
  pose proof (init_windows time_source db_up sqrt n threshold s0) as Hi.
  pose proof (ingest_all_latest events []
                (after (__init__ time_source db_up sqrt n threshold) s0)) as H.
  cbv zeta in H.
  assert (Hn : window_size (self (after (__init__ time_source db_up sqrt n threshold) s0)) = n).
  { unfold windows in Hi. congruence. }
  rewrite Hn in H. specialize (H Hi). simpl in H. fold s in H.
  unfold windows in H. injection H as _ He Hs Ht.
  split; [exact He |]. split; [exact Ht |]. split; [exact Hs |].
  rewrite Ht, He. unfold lastn. rewrite length_map. apply skipn_map.
Qed.

End LatestFacts.

(** ** Lifetime counters *)

Lemma counter_insert (k k' : string) (n : nat) (d : gmap string nat) :
  counter (<[k := n]> d) k' = if String.eqb k k' then n else counter d k'.
Proof.
  unfold counter. destruct (String.eqb_spec k k') as [-> | Hne].
  - rewrite lookup_insert_eq. reflexivity.
  - rewrite lookup_insert_ne by exact Hne. reflexivity.
Qed.

Lemma defaultdict_get_counter (k k' : string) (d : gmap string nat) :
  fst (defaultdict_get k d) = counter d k /\
  counter (snd (defaultdict_get k d)) k' = counter d k'.
Proof.
  unfold defaultdict_get. destruct (d !! k) as [n |] eqn:Hk; simpl.
  - unfold counter. rewrite Hk. auto.
  - split; [unfold counter; rewrite Hk; reflexivity |].
    rewrite counter_insert. destruct (String.eqb_spec k k') as [<- | _]; [| reflexivity].
    unfold counter. rewrite Hk. reflexivity.
Qed.

Lemma defaultdict_incr_counter (k k' : string) (d : gmap string nat) :
  counter (defaultdict_incr k d) k'
  = counter d k' + (if String.eqb k k' then 1 else 0).
Proof.
  unfold defaultdict_incr.
  pose proof (defaultdict_get_counter k k' d) as [H1 H2].
  destruct (defaultdict_get k d) as [n d']. simpl in *.
  rewrite counter_insert. destruct (String.eqb_spec k k') as [<- | _]; lia.
Qed.

Lemma same_counts_refl (m : ScoringMonitor) : same_counts m m.
Proof. intros k. auto. Qed.

Lemma same_counts_trans (m1 m2 m3 : ScoringMonitor) :
  same_counts m1 m2 -> same_counts m2 m3 -> same_counts m1 m3.
Proof.
  intros H12 H23 k. destruct (H12 k) as [A B]. destruct (H23 k) as [C D].
  split; congruence.
Qed.

Lemma preserves_bind {A B} (m : M A) (k : A -> M B) :
  preserves same_counts m -> (forall a, preserves same_counts (k a)) ->
  preserves same_counts (bind m k).
Proof.
  intros Hm Hk s. specialize (Hm s). unfold after, bind in *.
  destruct (m s) as [[a | e] s1]; simpl in *; [| exact Hm].
  eapply same_counts_trans; [exact Hm | apply Hk].
Qed.

Lemma preserves_keeps {A} (m : M A) :
  keeps (fun x => (user_request_counts x, ip_request_counts x)) m ->
  preserves same_counts m.
Proof.
  intros H s. specialize (H s). injection H as Hu Hi.
  intros k. rewrite Hu, Hi. auto.
Qed.

Section CounterFacts.

Variable time_source : nat -> Q.
Variable db_up : nat -> bool.

Lemma preserves_detect_repeat_request (event : ScoringEvent) (t : Q) :
  preserves same_counts (_detect_repeat_request_anomalies time_source db_up event t).
Proof.
  intros s. unfold _detect_repeat_request_anomalies.
  unfold after, bind at 1, gets. simpl.
  pose proof (fun k' => proj2 (defaultdict_get_counter (user_id event) k'
                                 (user_request_counts (self s)))) as Hu.
  destruct (defaultdict_get (user_id event) (user_request_counts (self s))) as [n1 c1].
  simpl in Hu. unfold bind at 1, modify. simpl.
  set (s1 := on_self (set_user_request_counts c1) s).
  assert (H1 : same_counts (self s) (self s1)).
  { intros k. split; [apply Hu | reflexivity]. }
  assert (Hrest : preserves same_counts
            (counts <- gets ip_request_counts ;;
             (let '(ip_recent_requests, counts') :=
                defaultdict_get (ip_address event) counts in
              modify (set_ip_request_counts counts') ;;
              (if 100 <? ip_recent_requests
               then _trigger_alert time_source db_up
                      (repeat_ip_alert t event ip_recent_requests)
               else ret tt)))).
  { intros s2. unfold after, bind at 1, gets. simpl.
    pose proof (fun k' => proj2 (defaultdict_get_counter (ip_address event) k'
                                   (ip_request_counts (self s2)))) as Hi.
    destruct (defaultdict_get (ip_address event) (ip_request_counts (self s2)))
      as [n2 c2]. simpl in Hi. unfold bind at 1, modify. simpl.
    set (s3 := on_self (set_ip_request_counts c2) s2).
    assert (H3 : same_counts (self s2) (self s3)).
    { intros k. split; [reflexivity | apply Hi]. }
    eapply same_counts_trans; [exact H3 |].
    destruct (100 <? n2); [| apply same_counts_refl].
    apply (preserves_keeps (_trigger_alert time_source db_up _)).
    apply keeps_trigger_alert. reflexivity. }
  eapply same_counts_trans; [exact H1 |].
  assert (Huser : preserves same_counts
            (if 50 <? n1
             then _trigger_alert time_source db_up (repeat_user_alert t event n1)
             else ret tt)).
  { destruct (50 <? n1).
    - apply preserves_keeps, keeps_trigger_alert. reflexivity.
    - intros s'. apply same_counts_refl. }
  apply (preserves_bind _ _ Huser (fun _ => Hrest) s1).
Qed.

Lemma preserves_detect_anomalies (event : ScoringEvent) :
  preserves same_counts (_detect_anomalies time_source db_up event).
Proof.
  unfold _detect_anomalies.
  apply preserves_bind; [apply preserves_keeps; keeps_steps | intros events].
  apply preserves_bind; [apply preserves_keeps; keeps_steps | intros threshold].
  destruct (_ <? _)%Z; [intros s; apply same_counts_refl |].
  apply preserves_bind; [apply preserves_keeps; keeps_steps | intros t].
  apply preserves_bind;
    [apply preserves_keeps; unfold _detect_response_time_anomalies; keeps_steps
    | intros _].
  apply preserves_bind;
    [apply preserves_keeps; unfold _detect_score_anomalies; keeps_steps | intros _].
  apply preserves_bind;
    [apply preserves_keeps; unfold _detect_request_pattern_anomalies; keeps_steps
    | intros _].
  apply preserves_bind;
    [apply preserves_keeps; unfold _detect_error_rate_anomalies; keeps_steps
    | intros _].
  apply preserves_detect_repeat_request.
Qed.

Lemma log_scoring_event_counters (e : ScoringEvent) (s : State) (k : string) :
  counter (user_request_counts (self (after (log_scoring_event time_source db_up e) s))) k
  = counter (user_request_counts (self s)) k
    + (if String.eqb (user_id e) k then 1 else 0) /\
  counter (ip_request_counts (self (after (log_scoring_event time_source db_up e) s))) k
  = counter (ip_request_counts (self s)) k
    + (if String.eqb (ip_address e) k then 1 else 0).
Proof.
  assert (Htail : preserves same_counts
            (_persist_event db_up e ;; _detect_anomalies time_source db_up e)).
  { apply preserves_bind.
    - apply preserves_keeps. unfold _persist_event. keeps_steps.
    - intros _. apply preserves_detect_anomalies. }
  assert (Heq : exists s1,
            log_scoring_event time_source db_up e s
            = (_persist_event db_up e ;; _detect_anomalies time_source db_up e) s1 /\
            user_request_counts (self s1)
            = defaultdict_incr (user_id e) (user_request_counts (self s)) /\
            ip_request_counts (self s1)
            = defaultdict_incr (ip_address e) (ip_request_counts (self s))).
  { unfold log_scoring_event.
    destruct (response_data e !! "credit_score") as [score |];
      (unfold bind at 1 2 3 4 5, modify; simpl;
       match goal with |- context [bind _ _ ?s1] => exists s1 end;
       repeat split; reflexivity). }
  destruct Heq as (s1 & Heq & Hu1 & Hi1).
  destruct (Htail s1 k) as [Hu Hi]. unfold after in *.
  rewrite Heq, Hu, Hi, Hu1, Hi1.
  split; apply defaultdict_incr_counter.
Qed.

(** X7: the per-user and per-address counters are lifetime counts.  After
    any sequence of ingestions (returning or raising), the counter of every
    user is its value before plus the number of ingested events of that user,
    and likewise for every address, whatever the capacity of the windows. *)
Theorem counters_are_lifetime (events : list ScoringEvent) (s : State) (k : string) :
  let s' := ingest_all time_source db_up events s in
  counter (user_request_counts (self s')) k
  = counter (user_request_counts (self s)) k + requests_of_user k events /\
  counter (ip_request_counts (self s')) k
  = counter (ip_request_counts (self s)) k + requests_of_ip k events.
Proof.
  revert s. induction events as [| e events IH]; intros s.
  - simpl. unfold requests_of_user, requests_of_ip. simpl. lia.
  - simpl. destruct (IH (after (log_scoring_event time_source db_up e) s)) as [Hu Hi].
    destruct (log_scoring_event_counters e s k) as [Hu1 Hi1].
    rewrite Hu, Hi, Hu1, Hi1. unfold requests_of_user, requests_of_ip. simpl.
    destruct (String.eqb (user_id e) k); destruct (String.eqb (ip_address e) k);
      simpl; lia.
Qed.

End CounterFacts.

(** ** Baseline and constructor *)

Section ConstructorFacts.

Variable time_source : nat -> Q.
Variable db_up : nat -> bool.
Variable sqrt : Q -> Q.

(** what loading the baseline does in each of its three cases *)
Lemma load_baseline_result (s : State) :
  let now := time_source (clock_reads (world s)) in
  let events := recent_history (now - 7 * 24 * 3600) (scoring_events (store (world s))) in
  exists (b : gmap string Q) (lg : list LogRecord) (reads : nat),
    _load_baseline_metrics time_source db_up sqrt s
    = (Ok tt,
       {| self := set_baseline_metrics b (self s);
          world := {| store := store (world s); log := lg; clock_reads := reads;
                      db_ops := S (db_ops (world s)) |} |}) /\
    (db_up (db_ops (world s)) = false ->
     b = default_baseline now /\
     lg = log (world s) ++ [ErrorLoadingBaseline OperationalError]) /\
    (db_up (db_ops (world s)) = true ->
     lg = log (world s) /\
     (events = [] -> b = default_baseline (time_source (S (clock_reads (world s))))) /\
     (events <> [] ->
      dict_get b "requests_per_hour" 10 = (Num.of_nat (length events) / (7 * 24))%Q)).
Proof.
  destruct s as [m0 [st lg cr ops]]. simpl.
  unfold _load_baseline_metrics, try_except, with_connect. simpl.
  destruct (db_up ops) eqn:Hup.
  - unfold bind at 1. simpl. unfold bind at 1. simpl.
    set (events := recent_history _ _).
    destruct events as [| e0 events'] eqn:He.
    + unfold bind, modify. simpl. do 3 eexists.
      split; [reflexivity |]. split; [discriminate |].
      intros _. split; [reflexivity |]. split; [reflexivity | congruence].
    + rewrite <- He.
      set (times := map processing_time events).
      set (scores := scores_of events).
      assert (Ht : times <> []) by (unfold times; rewrite He; discriminate).
      unfold bind, lift, ret, modify. rewrite mean_nonempty by exact Ht.
      destruct times as [| t0 [| t1 times']] eqn:Et; [congruence | |];
        destruct scores as [| c0 [| c1 scores']] eqn:Es; simpl;
        (do 3 eexists; split; [reflexivity |]; split; [discriminate |];
         intros _; split; [reflexivity |]; split; [congruence | reflexivity]).
  - unfold bind, logger, modify, time_time. simpl. do 3 eexists.
    split; [reflexivity |]. split; [| discriminate].
    intros _. split; reflexivity.
Qed.

(** X8: loading the baseline never raises and never touches the store.
    When the database block fails the error is logged and the documented
    defaults (0.5 s, 0.2 s, 500, 150, 10 per hour) are installed; the same
    defaults are installed, silently, when no event of the last seven days is
    stored. *)
Theorem baseline_defaults (s : State) :
  let m := _load_baseline_metrics time_source db_up sqrt in
  let now := time_source (clock_reads (world s)) in
  let events := recent_history (now - 7 * 24 * 3600) (scoring_events (store (world s))) in
  outcome m s = Ok tt /\
  store (world (after m s)) = store (world s) /\
  (db_up (db_ops (world s)) = false ->
   baseline_metrics (self (after m s)) = default_baseline now /\
   log (world (after m s)) = log (world s) ++ [ErrorLoadingBaseline OperationalError]) /\
  (db_up (db_ops (world s)) = true -> events = [] ->
   baseline_metrics (self (after m s))
   = default_baseline (time_source (S (clock_reads (world s)))) /\
   log (world (after m s)) = log (world s)) /\
  (forall now', let b := default_baseline now' in
     dict_get b "avg_processing_time" 0 = (1 # 2)%Q /\
     dict_get b "std_processing_time" 0 = (1 # 5)%Q /\
     dict_get b "avg_score" 0 = 500%Q /\
     dict_get b "std_score" 0 = 150%Q /\
     dict_get b "requests_per_hour" 0 = 10%Q /\
     dict_get b "last_updated" 0 = now').
Proof.
  intros m now events.
  destruct (load_baseline_result s) as (b & lg & reads & Hrun & Hdown & Hupc).
  unfold m, outcome, after. rewrite Hrun. simpl.
  split; [reflexivity |]. split; [reflexivity |].
  split; [exact Hdown |].
  split.
  - intros Hup He. destruct (Hupc Hup) as (Hl & Hempty & _).
    split; [apply Hempty; exact He | exact Hl].
  - intros now'. repeat split; reflexivity.
Qed.

(** the constructor, step by step *)
Lemma init_result (n : nat) (threshold : Z) (s : State) :
  let fresh :=
    {| window_size := n; alert_threshold := threshold;
       recent_events := []; recent_scores := []; recent_response_times := [];
       baseline_metrics := ∅; alerts := [];
       user_request_counts := ∅; ip_request_counts := ∅ |} in
  let s1 := {| self := fresh; world := set_db_ops (S (db_ops (world s))) (world s) |} in
  __init__ time_source db_up sqrt n threshold s
  = if db_up (db_ops (world s))
    then _load_baseline_metrics time_source db_up sqrt s1
    else (Raise OperationalError, s1).
Proof.
  intros fresh s1. unfold __init__, _init_database.
  unfold bind at 1, modify. simpl. unfold bind at 1, with_connect. simpl.
  destruct (db_up _); reflexivity.
Qed.

(** X9: with the directory of the database file in place, so that
    [os.makedirs] goes through, the constructor raises exactly when the
    database block that creates the tables fails, with [OperationalError]; a
    failure while the baseline is loaded is absorbed.  When it returns, the
    windows, the alert list and the counters are empty, the store is
    untouched and the baseline has its six entries, so that the detectors
    never fall back on the defaults of [dict.get]. *)
Theorem constructor_outcome (n : nat) (threshold : Z) (s : State) :
  let m := __init__ time_source db_up sqrt n threshold in
  outcome m s
  = (if db_up (db_ops (world s)) then Ok tt else Raise OperationalError) /\
  store (world (after m s)) = store (world s) /\
  windows (self (after m s)) = (n, [], [], []) /\
  alert_threshold (self (after m s)) = threshold /\
  alerts (self (after m s)) = [] /\
  user_request_counts (self (after m s)) = ∅ /\
  ip_request_counts (self (after m s)) = ∅ /\
  (db_up (db_ops (world s)) = true ->
   forall k, k ∈ ["avg_processing_time"; "std_processing_time"; "avg_score";
                  "std_score"; "requests_per_hour"; "last_updated"] ->
             is_Some (baseline_metrics (self (after m s)) !! k)).
Proof.
  intros m. unfold m, outcome, after. rewrite init_result.
  destruct (db_up (db_ops (world s))) eqn:Hup; [| repeat split; discriminate].
  match goal with |- context [_load_baseline_metrics _ _ _ ?s1] =>
    destruct (load_baseline_result s1) as (b & lg & reads & Hrun & Hdown & Hupc);
    rewrite Hrun
  end.
  simpl. repeat split; try reflexivity.
  intros _ k Hk. simpl in Hdown, Hupc.
  assert (Hdef : forall t k', k' ∈ ["avg_processing_time"; "std_processing_time";
                   "avg_score"; "std_score"; "requests_per_hour"; "last_updated"] ->
                 is_Some (default_baseline t !! k')).
  { intros t k' Hk'. repeat (apply elem_of_cons in Hk'; destruct Hk' as [-> | Hk']);
      [eexists; reflexivity .. | apply not_elem_of_nil in Hk'; contradiction]. }
  destruct (db_up (S (db_ops (world s)))) eqn:Hup2.
  - destruct (Hupc eq_refl) as (_ & Hempty & Hfull).
    pose proof (load_baseline_run time_source db_up sqrt
                  {| self := {| window_size := n; alert_threshold := threshold;
                                recent_events := []; recent_scores := [];
                                recent_response_times := [];
                                baseline_metrics := ∅; alerts := [];
                                user_request_counts := ∅; ip_request_counts := ∅ |};
                     world := set_db_ops (S (db_ops (world s))) (world s) |}) as Hlr.
    cbv zeta in Hlr. simpl in Hlr. specialize (Hlr Hup2).
    unfold after in Hlr. rewrite Hrun in Hlr. simpl in Hlr.
    match type of Hempty with ?ev = [] -> _ => destruct ev eqn:Hev end.
    + rewrite (Hempty eq_refl). apply Hdef. exact Hk.
    + rewrite Hlr by discriminate.
      repeat (apply elem_of_cons in Hk; destruct Hk as [-> | Hk]);
        [eexists; reflexivity .. | apply not_elem_of_nil in Hk; contradiction].
  - destruct (Hdown eq_refl) as [-> _]. apply Hdef. exact Hk.
Qed.

Lemma keeps_baseline_log_scoring_event (e : ScoringEvent) :
  keeps baseline_metrics (log_scoring_event time_source db_up e).
Proof.
  assert (Hd : keeps baseline_metrics (_detect_anomalies time_source db_up e)).
  { intros s. pose proof (keeps_detect_anomalies time_source db_up e s) as H.
    unfold frame in H. congruence. }
  unfold log_scoring_event.
  repeat (first [ apply keeps_bind; [| intros ?] | exact Hd ]);
    try (unfold _persist_event); keeps_steps.
Qed.

Lemma ingest_all_baseline (events : list ScoringEvent) (s : State) :
  baseline_metrics (self (ingest_all time_source db_up events s))
  = baseline_metrics (self s).
Proof.
  revert s. induction events as [| e events IH]; intros s; [reflexivity |].
  simpl. rewrite IH. apply keeps_baseline_log_scoring_event.
Qed.

(** X10: on a monitor produced by the constructor the baseline request rate
    is positive and stays so through any sequence of ingestions, so that the
    traffic detector never divides by zero; if moreover the baseline mean
    latency is not zero, no ingestion of events whose credit score, where
    there is one, is a number ever raises, with the database up or down. *)
Theorem built_monitor_ingestion (n : nat) (threshold : Z) (s0 : State)
    (events : list ScoringEvent) :
  let built := after (__init__ time_source db_up sqrt n threshold) s0 in
  let s := ingest_all time_source db_up events built in
  baseline_metrics (self s) = baseline_metrics (self built) /\
  (0 < dict_get (baseline_metrics (self s)) "requests_per_hour" 10)%Q /\
  (~ (dict_get (baseline_metrics (self built)) "avg_processing_time" (1 # 2) == 0)%Q ->
   forall e, outcome (log_scoring_event time_source db_up e) s = Ok tt).
Proof.
  intros built s.
  assert (Hb : baseline_metrics (self s) = baseline_metrics (self built))
    by apply ingest_all_baseline.
  assert (Hrate : (0 < dict_get (baseline_metrics (self built)) "requests_per_hour" 10)%Q).
  { unfold built, after. rewrite init_result.
    destruct (db_up (db_ops (world s0))) eqn:Hup; [| reflexivity].
    match goal with |- context [_load_baseline_metrics _ _ _ ?s1] =>
      destruct (load_baseline_result s1) as (b & lg & reads & Hrun & Hdown & Hupc);
      rewrite Hrun
    end.
    simpl. simpl in Hdown, Hupc.
    destruct (db_up (S (db_ops (world s0)))) eqn:Hup2.
    - destruct (Hupc eq_refl) as (_ & Hempty & Hfull).
      match type of Hempty with ?ev = [] -> _ => destruct ev eqn:Hev end.
      + rewrite (Hempty eq_refl). reflexivity.
      + rewrite Hfull by discriminate.
        apply Qlt_shift_div_l; [reflexivity |].
        rewrite Qmult_0_l. apply of_nat_pos. simpl. lia.
    - destruct (Hdown eq_refl) as [-> _]. reflexivity. }
  split; [exact Hb |]. split; [rewrite Hb; exact Hrate |].
  intros Havg e. apply log_scoring_event_returns.
  unfold divisors_nonzero. rewrite Hb. split; [exact Havg |].
  intros Hz. rewrite Hz in Hrate. discriminate.
Qed.

End ConstructorFacts.

Lemma baseline_defaults_witness :
  let s := monitor_with ∅ [] [] [] in
  (db_always_down (db_ops (world s)) = false /\
   db_always_up (db_ops (world s)) = true /\
   recent_history (1000 - 7 * 24 * 3600) (scoring_events (store (world s))) = []) /\
  baseline_metrics
    (self (after (_load_baseline_metrics stopped_clock db_always_down sqrt_floor) s))
  = default_baseline 1000 /\
  baseline_metrics
    (self (after (_load_baseline_metrics stopped_clock db_always_up sqrt_floor) s))
  = default_baseline 1000.
Proof.
  intros s. split; [repeat split |].
  split.
  - destruct (baseline_defaults stopped_clock db_always_down sqrt_floor s)
      as (_ & _ & Hdown & _).
    destruct Hdown as [Hb _]; [reflexivity | exact Hb].
  - destruct (baseline_defaults stopped_clock db_always_up sqrt_floor s)
      as (_ & _ & _ & Hempty & _).
    destruct Hempty as [Hb _]; [reflexivity | reflexivity | exact Hb].
Defined.

Lemma constructor_outcome_witness :
  let m := __init__ stopped_clock db_always_up sqrt_floor 1000 10 in
  let s := {| self := self (monitor_with ∅ [] [] []); world := zero_latency_world |} in
  db_always_up (db_ops (world s)) = true /\
  outcome m s = Ok tt /\
  is_Some (baseline_metrics (self (after m s)) !! "std_score").
Proof.
  intros m s. split; [reflexivity |].
  destruct (constructor_outcome stopped_clock db_always_up sqrt_floor 1000 10 s)
    as (Hok & _ & _ & _ & _ & _ & _ & Hkeys).
  split; [exact Hok |].
  apply Hkeys; [reflexivity |].
  repeat (first [apply list_elem_of_here | apply list_elem_of_further]).
Defined.

Lemma built_monitor_ingestion_witness :
  let built := boot stopped_clock db_always_up 20 10 latency_world in
  let s := ingest_all stopped_clock db_always_up (repeat slow_event 12) built in
  ~ (dict_get (baseline_metrics (self built)) "avg_processing_time" (1 # 2) == 0)%Q /\
  outcome (log_scoring_event stopped_clock db_always_up slow_event) s = Ok tt.
Proof.
  intros built s.
  assert (H : ~ (dict_get (baseline_metrics (self built)) "avg_processing_time" (1 # 2)
                 == 0)%Q) by discriminate.
  split; [exact H |].
  destruct (built_monitor_ingestion stopped_clock db_always_up sqrt_floor 20 10
              {| self := self (monitor_with ∅ [] [] []); world := latency_world |}
              (repeat slow_event 12)) as (_ & _ & Hsafe).
  apply Hsafe. exact H.
Defined.

(** ** Weekly summary *)

Lemma count_alert_types_fold (alerts : list AnomalyAlert) (acc : gmap string nat)
    (k : string) :
  counter (fold_left (fun alert_types alert =>
                        defaultdict_incr (alert_type_name (alert_type alert)) alert_types)
                     alerts acc) k
  = counter acc k
    + length (List.filter (fun a => String.eqb (alert_type_name (alert_type a)) k) alerts).
Proof.
  revert acc. induction alerts as [| a alerts IH]; intros acc; simpl; [lia |].
  rewrite IH, defaultdict_incr_counter.
  destruct (String.eqb (alert_type_name (alert_type a)) k); simpl; lia.
Qed.

Lemma count_alert_types_keys (alerts : list AnomalyAlert) (acc : gmap string nat)
    (k : string) :
  is_Some (fold_left (fun alert_types alert =>
                        defaultdict_incr (alert_type_name (alert_type alert)) alert_types)
                     alerts acc !! k)
  <-> is_Some (acc !! k) \/ exists a, a ∈ alerts /\ alert_type_name (alert_type a) = k.
Proof.
  revert acc. induction alerts as [| a alerts IH]; intros acc; simpl.
  - split; [auto |]. intros [H | (a & Hin & _)]; [exact H |].
    apply not_elem_of_nil in Hin. contradiction.
  - rewrite IH. clear IH.
    assert (Hincr : is_Some (defaultdict_incr (alert_type_name (alert_type a)) acc !! k)
                    <-> is_Some (acc !! k) \/ alert_type_name (alert_type a) = k).
    { unfold defaultdict_incr, defaultdict_get.
      destruct (acc !! alert_type_name (alert_type a)) as [n |] eqn:Ha;
        destruct (String.eqb_spec (alert_type_name (alert_type a)) k) as [<- | Hne].
      - rewrite lookup_insert_eq, Ha. split; eauto.
      - rewrite lookup_insert_ne by exact Hne. split; [auto | intros [H | H]; [exact H | contradiction]].
      - rewrite lookup_insert_eq. split; eauto.
      - rewrite !lookup_insert_ne by exact Hne.
        split; [auto | intros [H | H]; [exact H | contradiction]]. }
    rewrite Hincr. split.
    + intros [[H | H] | (x & Hin & Hx)]; [left; exact H | right | right].
      * exists a. split; [apply list_elem_of_here | exact H].
      * exists x. split; [apply list_elem_of_further; exact Hin | exact Hx].
    + intros [H | (x & Hin & Hx)]; [left; left; exact H |].
      apply elem_of_cons in Hin. destruct Hin as [-> | Hin].
      * left. right. exact Hx.
      * right. exists x. auto.
Qed.

(** X11: the alert-type table of the weekly summary has a key exactly for
    the types that occur among the alerts, and the entry of a type is the
    number of alerts of that type. *)
Theorem count_alert_types_counts (alerts : list AnomalyAlert) (t : AlertType) :
  let n := length (List.filter
                     (fun a => String.eqb (alert_type_name (alert_type a))
                                          (alert_type_name t)) alerts) in
  (_count_alert_types alerts !! alert_type_name t = if n =? 0 then None else Some n) /\
  (forall k, is_Some (_count_alert_types alerts !! k)
             <-> exists a, a ∈ alerts /\ alert_type_name (alert_type a) = k).
Proof.
  intros n.
  assert (Hkeys : forall k, is_Some (_count_alert_types alerts !! k)
                            <-> exists a, a ∈ alerts /\ alert_type_name (alert_type a) = k).
  { intros k. unfold _count_alert_types. rewrite count_alert_types_keys.
    split; [intros [[x H] | H]; [rewrite lookup_empty in H; discriminate | exact H] | auto]. }
  split; [| exact Hkeys].
  pose proof (count_alert_types_fold alerts ∅ (alert_type_name t)) as Hc.
  fold (_count_alert_types alerts) in Hc. fold n in Hc.
  unfold counter in Hc. rewrite lookup_empty in Hc. simpl in Hc.
  destruct (_count_alert_types alerts !! alert_type_name t) as [c |] eqn:Hl.
  - simpl in Hc. subst c.
    destruct (Nat.eqb_spec n 0) as [Hz | _]; [| reflexivity].
    exfalso. assert (Hs : is_Some (_count_alert_types alerts !! alert_type_name t))
      by (rewrite Hl; eauto).
    apply Hkeys in Hs. destruct Hs as (a & Hin & Ha).
    assert (Hin' : a ∈ List.filter
                     (fun a => String.eqb (alert_type_name (alert_type a))
                                          (alert_type_name t)) alerts).
    { apply elem_of_list_filter. split; [exact Hin |]. apply String.eqb_eq. exact Ha. }
    fold n in Hz. unfold n in Hz. apply length_zero_iff_nil in Hz.
    rewrite Hz in Hin'. apply not_elem_of_nil in Hin'. exact Hin'.
  - simpl in Hc. rewrite <- Hc. reflexivity.
Qed.

(** X12: the list of weekly recommendations is never empty and has at most
    five entries; it consists of the message that the system performs well
    exactly when none of the five rules applies (mean latency above 1 s, more
    than 10000 events, error share above 5 %, more than 20 alerts, mean score
    below 400 or above 800), and that message never stands beside another. *)
Theorem weekly_recommendations_default (events : list ScoringEvent)
    (alerts : list AnomalyAlert) (scores processing_times : list Q) :
  let r := _generate_weekly_recommendations events alerts scores processing_times in
  let all_well := "System performing well - continue monitoring" in
  let any_rule := rule_slow processing_times || rule_busy events || rule_failing events
                  || rule_noisy alerts || rule_skewed scores in
  r <> [] /\
  length r <= 5 /\
  (r = [all_well] <-> any_rule = false) /\
  (all_well ∈ r -> r = [all_well]).
Proof.
  intros r all_well any_rule.
  unfold r, any_rule, _generate_weekly_recommendations,
    rule_slow, rule_busy, rule_failing, rule_noisy, rule_skewed.
  destruct processing_times as [| p ps]; destruct events as [| e es];
    destruct scores as [| c cs]; cbv zeta;
    repeat match goal with
           | |- context [if ?b then _ else _] =>
               lazymatch type of b with
               | bool => lazymatch b with
                         | context [if _ then _ else _] => fail
                         | _ => destruct b eqn:?
                         end
               end
           end;
    simpl;
    (split; [discriminate |]);
    (split; [lia |]);
    (split; [split; [intros H; first [reflexivity | discriminate H]
                    | intros H; first [reflexivity | discriminate H]] |]);
    intros Hin;
    repeat (apply elem_of_cons in Hin; destruct Hin as [Hin | Hin];
            [try discriminate Hin |]);
    try reflexivity;
    try (apply not_elem_of_nil in Hin; contradiction).
Qed.

Lemma count_distinct_le (l : list string) : count_distinct l <= length l.
Proof.
  unfold count_distinct. induction l as [| x l IH].
  - rewrite list_to_set_nil, size_empty. reflexivity.
  - rewrite list_to_set_cons, size_union_alt, size_singleton.
    assert (Hs : size (list_to_set l ∖ {[x]} : gset string)
                 <= size (list_to_set l : gset string)).
    { apply subseteq_size. apply subseteq_difference_l. reflexivity. }
    cbn [length]. lia.
Qed.

Lemma length_filter_le {A} (p : A -> bool) (l : list A) :
  length (List.filter p l) <= length l.
Proof. induction l as [| x l IH]; simpl; [lia |]. destruct (p x); simpl; lia. Qed.

Lemma of_nat_sub (a b : nat) :
  b <= a -> (Num.of_nat (a - b) == Num.of_nat a - Num.of_nat b)%Q.
Proof.
  intros H. unfold Num.of_nat. rewrite Nat2Z.inj_sub by exact H.
  unfold Qeq. simpl. lia.
Qed.

Section SummaryMoreFacts.

Variable time_source : nat -> Q.
Variable db_up : nat -> bool.

(** X13: generating the weekly summary never raises and changes neither the
    monitor nor the store.  When the database block fails the method returns
    the error dict and logs the failure; when it goes through, the report
    counts the events stamped within the seven days before the clock reading
    (both ends included), its error rate lies between 0 and 1, its uptime
    percentage is 100 (1 - error rate), the distinct users and partners and
    the scores are at most as many as the events, and on an empty week the
    report has rate 0, uptime 100, 95th percentile 0 and an empty score
    distribution. *)
Theorem weekly_summary_report (s : State) :
  let m := generate_weekly_summary time_source db_up in
  let end_time := time_source (clock_reads (world s)) in
  let week := events_between (end_time - 7 * 24 * 3600) end_time
                (scoring_events (store (world s))) in
  self (after m s) = self s /\
  store (world (after m s)) = store (world s) /\
  (db_up (db_ops (world s)) = false ->
   outcome m s = Ok (ErrorReport OperationalError) /\
   log (world (after m s))
   = log (world s) ++ [ErrorGeneratingWeeklySummary OperationalError]) /\
  (db_up (db_ops (world s)) = true ->
   log (world (after m s)) = log (world s) /\
   exists r : SummaryReport,
     outcome m s = Ok (Report r) /\
     total_requests (volume_metrics r) = length week /\
     unique_users (volume_metrics r) <= length week /\
     unique_partners (volume_metrics r) <= length week /\
     total_scores_generated (scoring_metrics r) = length (scores_of week) /\
     (0 <= error_rate (performance_metrics r) <= 1)%Q /\
     (uptime_percentage (performance_metrics r)
      == 100 * (1 - error_rate (performance_metrics r)))%Q /\
     (week = [] ->
      error_rate (performance_metrics r) = 0%Q /\
      uptime_percentage (performance_metrics r) = 100%Q /\
      p95_response_time (performance_metrics r) = 0%Q /\
      avg_response_time (performance_metrics r) = 0%Q /\
      score_distribution (scoring_metrics r) = ∅)).
Proof.
  intros m end_time week.
  destruct (db_up (db_ops (world s))) eqn:Hup.
  - assert (Hrun : exists r : SummaryReport,
              m s = (Ok (Report r),
                     {| self := self s;
                        world := {| store := store (world s); log := log (world s);
                                    clock_reads := S (clock_reads (world s));
                                    db_ops := S (db_ops (world s)) |} |}) /\
              total_requests (volume_metrics r) = length week /\
              unique_users (volume_metrics r) <= length week /\
              unique_partners (volume_metrics r) <= length week /\
              total_scores_generated (scoring_metrics r) = length (scores_of week) /\
              (0 <= error_rate (performance_metrics r) <= 1)%Q /\
              (uptime_percentage (performance_metrics r)
               == 100 * (1 - error_rate (performance_metrics r)))%Q /\
              (week = [] ->
               error_rate (performance_metrics r) = 0%Q /\
               uptime_percentage (performance_metrics r) = 100%Q /\
               p95_response_time (performance_metrics r) = 0%Q /\
               avg_response_time (performance_metrics r) = 0%Q /\
               score_distribution (scoring_metrics r) = ∅)).
    { subst m week end_time. destruct s as [m0 [st lg cr ops]]. simpl in *.
      set (week := events_between _ _ _).
      assert (Hp : exists p95,
                (match map processing_time week with
                 | [] => ret 0%Q
                 | _ => lift (_percentile (map processing_time week) 95)
                 end : M Q) = ret p95 /\
                (week = [] -> p95 = 0%Q)).
      { destruct (map processing_time week) as [| l ls] eqn:Hl.
        - exists 0%Q. split; reflexivity.
        - rewrite <- Hl.
          assert (Hne : map processing_time week <> []) by (rewrite Hl; discriminate).
          pose proof (percentile_rank _ 95 Hne ltac:(lia)) as Hp. cbv zeta in Hp.
          rewrite Hp. eexists. split; [reflexivity |].
          intros ->. discriminate Hl. }
      destruct Hp as (p95 & Hp & Hp0).
      eexists. split.
      { unfold generate_weekly_summary. unfold bind at 1. simpl.
        unfold try_except, with_connect. simpl. rewrite Hup.
        unfold bind at 1, fetch_events. simpl. fold week.
        unfold bind at 1, fetch_alerts. simpl.
        unfold bind at 1. rewrite Hp. unfold ret. simpl. reflexivity. }
      simpl.
      pose proof (length_filter_le (fun e => (400 <=? status_code e)%Z) week) as Herr.
      fold (errors_of week) in Herr.
      split; [reflexivity |].
      split; [etransitivity; [apply count_distinct_le | rewrite length_map; lia] |].
      split; [etransitivity; [apply count_distinct_le | rewrite length_map; lia] |].
      split; [reflexivity |].
      destruct (Nat.ltb_spec 0 (length week)) as [Hpos | Hzero].
      - pose proof (of_nat_pos _ Hpos) as Hq.
        assert (He : (0 <= Num.of_nat (length (errors_of week)))%Q).
        { unfold Num.of_nat, Qle. simpl. lia. }
        assert (Hle : (Num.of_nat (length (errors_of week))
                       <= Num.of_nat (length week))%Q).
        { unfold Num.of_nat, Qle. simpl. lia. }
        split; [split |]; [| | split].
        + apply Qle_shift_div_l; [exact Hq | lra].
        + apply Qle_shift_div_r; [exact Hq | lra].
        + rewrite of_nat_sub by exact Herr. field. lra.
        + intros Hw. rewrite Hw in Hpos. simpl in Hpos. lia.
      - split; [split; discriminate |]. split; [reflexivity |].
        intros Hw. rewrite (Hp0 Hw), Hw. simpl. repeat split; reflexivity. }
    destruct Hrun as (r & Hrun & Hprops).
    unfold outcome, after. rewrite Hrun. simpl.
    split; [reflexivity |]. split; [reflexivity |]. split; [discriminate |].
    intros _. split; [reflexivity |]. exists r. split; [reflexivity | exact Hprops].
  - assert (Hrun : m s = (Ok (ErrorReport OperationalError),
                          {| self := self s;
                             world := {| store := store (world s);
                                         log := log (world s)
                                                ++ [ErrorGeneratingWeeklySummary
                                                      OperationalError];
                                         clock_reads := S (clock_reads (world s));
                                         db_ops := S (db_ops (world s)) |} |})).
    { subst m. destruct s as [m0 [st lg cr ops]]. simpl in *.
      unfold generate_weekly_summary. unfold bind at 1. simpl.
      unfold try_except, with_connect. simpl. rewrite Hup. reflexivity. }
    unfold outcome, after. rewrite Hrun. simpl.
    split; [reflexivity |]. split; [reflexivity |].
    split; [intros _; split; reflexivity | discriminate].
Qed.

End SummaryMoreFacts.

(** ** Percentile out of its range *)

(** X14: [_percentile] on an empty sample is 0 for every percentile.  On a
    non-empty sample and a negative percentile nothing clamps the index
    [int(N * p / 100)] from below: when it is 0 the minimum is returned, when
    it lies in [-N, -1] the element that far from the end of the sorted sample
    (the maximum for -1), and when it is below [-N] the call raises
    [IndexError]; the latter never happens for [p >= -100] and always for
    [p <= -200]. *)
Theorem percentile_negative (data : list Q) (p : Z) :
  let N := Z.of_nat (length data) in
  let index := int_div (N * p) 100 in
  _percentile [] p = Ok 0%Q /\
  (data <> [] -> (p < 0)%Z ->
   (index = 0%Z -> _percentile data p = Ok (nth 0 (sorted data) 0%Q)) /\
   ((- N <= index < 0)%Z ->
    _percentile data p = Ok (nth (Z.to_nat (N + index)) (sorted data) 0%Q)) /\
   ((index < - N)%Z -> _percentile data p = Raise IndexError) /\
   ((-100 <= p)%Z -> (- N <= index)%Z) /\
   ((p <= -200)%Z -> (index < - N)%Z)).
Proof.
  intros N index. split; [reflexivity |].
  intros Hne Hp.
  assert (HN : (1 <= N)%Z).
  { unfold N. destruct data; [congruence | simpl; lia]. }
  assert (Hrun : _percentile data p
                 = py_index (sorted data) (Z.min index (N - 1))).
  { unfold index, N. destruct data; [congruence |].
    unfold _percentile, sorted. rewrite !sort_by_length. reflexivity. }
  assert (Hlen : Z.of_nat (length (sorted data)) = N).
  { unfold sorted. rewrite sort_by_length. reflexivity. }
  assert (Hidx : index = (- ((N * - p) / 100))%Z).
  { unfold index, int_div.
    replace (N * p)%Z with (- (N * - p))%Z by lia.
    rewrite Z.quot_opp_l by lia. rewrite Z.quot_div_nonneg by lia. reflexivity. }
  assert (Hq : (0 <= (N * - p) / 100)%Z) by (apply Z.div_pos; lia).
  assert (Hmin : Z.min index (N - 1) = index) by lia.
  rewrite Hrun, Hmin.
  split; [| split; [| split; [| split]]].
  - intros H0. rewrite H0.
    apply (py_index_in_range (sorted data) 0 0%Q). lia.
  - intros [Hlo Hhi]. unfold py_index. rewrite Hlen.
    destruct (Z.ltb_spec index 0) as [_ | H]; [| lia].
    destruct (Z.ltb_spec (N + index) 0) as [H | _]; [lia |].
    destruct (nth_error (sorted data) (Z.to_nat (N + index))) as [x |] eqn:Hn.
    + f_equal. symmetry. apply nth_error_nth. exact Hn.
    + apply nth_error_None in Hn. lia.
  - intros Hlo. unfold py_index. rewrite Hlen.
    destruct (Z.ltb_spec index 0) as [_ | H]; [| lia].
    destruct (Z.ltb_spec (N + index) 0) as [_ | H]; [reflexivity | lia].
  - intros Hge. rewrite Hidx.
    assert ((N * - p) / 100 <= N)%Z; [| lia].
    apply Z.div_le_upper_bound; nia.
  - intros Hle. rewrite Hidx.
    assert (2 * N <= (N * - p) / 100)%Z; [| lia].
    apply Z.div_le_lower_bound; nia.
Qed.

Lemma percentile_negative_witness :
  (latency_sample <> [] /\ (-1 < 0)%Z /\ (-250 < 0)%Z) /\
  _percentile latency_sample (-1) = Ok 0.1%Q /\
  _percentile latency_sample (-10) = Ok 1.0%Q /\
  _percentile latency_sample (-250) = Raise IndexError.
Proof.
  split; [split; [discriminate | split; lia] |].
  split; [| split].
  - destruct (percentile_negative latency_sample (-1)) as (_ & H).
    destruct H as (H0 & _); [discriminate | lia |].
    apply H0. reflexivity.
  - destruct (percentile_negative latency_sample (-10)) as (_ & H).
    destruct H as (_ & H1 & _); [discriminate | lia |].
    apply H1. split; [discriminate | reflexivity].
  - destruct (percentile_negative latency_sample (-250)) as (_ & H).
    destruct H as (_ & _ & H2 & _); [discriminate | lia |].
    apply H2. reflexivity.
Defined.

(** ** Reading the alerts and the statistics *)

Lemma is_severity_eq (sev : Severity) (a : AnomalyAlert) :
  is_severity sev a = true <-> severity a = sev.
Proof.
  unfold is_severity. destruct sev, (severity a); split; congruence.
Qed.

Lemma tick_add (j k : nat) (s : State) : tick k (tick j s) = tick (j + k) s.
Proof.
  destruct s as [m [st lg cr ops]]. unfold tick, on_world, set_clock_reads. simpl.
  rewrite Nat.add_assoc. reflexivity.
Qed.

Section QueryFacts.

Variable time_source : nat -> Q.
Variable sqrt : Q -> Q.

Lemma get_recent_alerts_run (hours : Z) (s : State) :
  get_recent_alerts time_source hours s
  = (Ok (alerts_since (time_source (clock_reads (world s))) hours (alerts (self s))),
     tick 1 s).
Proof.
  destruct s as [m [st lg cr ops]].
  unfold get_recent_alerts, bind, time_time, gets, ret, tick, on_world, set_clock_reads.
  simpl. rewrite Nat.add_1_r. reflexivity.
Qed.

(** X15: [get_recent_alerts] never raises and changes nothing but the clock
    counter.  It returns, in their order, exactly the alerts kept in memory
    that are stamped after [now - hours * 3600]; a longer horizon at the same
    clock reading returns a list that contains the shorter one's. *)
Theorem recent_alerts_horizon (hours : Z) (s : State) :
  let m := get_recent_alerts time_source hours in
  let now := time_source (clock_reads (world s)) in
  exists l : list AnomalyAlert,
    outcome m s = Ok l /\
    after m s = tick 1 s /\
    l = alerts_since now hours (alerts (self s)) /\
    sublist l (alerts (self s)) /\
    (forall a, a ∈ l <-> a ∈ alerts (self s)
                         /\ (now - inject_Z hours * 3600 < alert_timestamp a)%Q) /\
    (forall hours' l', (hours <= hours')%Z ->
       outcome (get_recent_alerts time_source hours') s = Ok l' -> sublist l l').
Proof.
  intros m now. exists (alerts_since now hours (alerts (self s))).
  unfold m, outcome, after. rewrite get_recent_alerts_run. cbn [fst snd].
  split; [reflexivity |]. split; [reflexivity |]. split; [reflexivity |].
  assert (Hsub : forall (p : AnomalyAlert -> bool) l, sublist (List.filter p l) l).
  { intros p l. induction l as [| x l IH]; simpl; [constructor |].
    destruct (p x); [apply sublist_skip | apply sublist_cons]; exact IH. }
  split; [apply Hsub |].
  split.
  - intros a. unfold alerts_since. rewrite elem_of_list_filter, gtb_lt. reflexivity.
  - intros hours' l' Hle Hl'.
    rewrite get_recent_alerts_run in Hl'. cbn [fst] in Hl'.
    injection Hl' as <-. fold now. unfold alerts_since.
    induction (alerts (self s)) as [| x l IH]; simpl; [constructor |].
    destruct (Num.gtb (alert_timestamp x) (now - inject_Z hours * 3600)) eqn:H1.
    + assert (H2 : Num.gtb (alert_timestamp x) (now - inject_Z hours' * 3600) = true).
      { apply gtb_lt. apply gtb_lt in H1.
        assert (inject_Z hours <= inject_Z hours')%Q
          by (rewrite <- Zle_Qle; exact Hle).
        lra. }
      rewrite H2. apply sublist_skip. exact IH.
    + destruct (Num.gtb (alert_timestamp x) (now - inject_Z hours' * 3600));
        [apply sublist_cons |]; exact IH.
Qed.

(** X16: whatever horizon is asked for, the alerts returned after an alert
    has been raised are stamped within the 24 hours before the clock reading
    of that raise: the list in memory does not reach further back. *)
Theorem memory_keeps_one_day (db_up : nat -> bool) (a : AnomalyAlert) (s : State)
    (hours : Z) (l : list AnomalyAlert) (x : AnomalyAlert) :
  let raised := after (_trigger_alert time_source db_up a) s in
  outcome (get_recent_alerts time_source hours) raised = Ok l ->
  x ∈ l ->
  x ∈ alerts (self s) ++ [a] /\
  (time_source (clock_reads (world s)) - 24 * 3600 < alert_timestamp x)%Q.
Proof.
  intros raised Hl Hx. unfold outcome in Hl.
  rewrite get_recent_alerts_run in Hl. cbn [fst] in Hl. injection Hl as <-.
  unfold alerts_since in Hx. apply elem_of_list_filter in Hx. destruct Hx as [Hx _].
  assert (Ha : alerts (self raised)
               = List.filter (fun y => Num.gtb (alert_timestamp y)
                                (time_source (clock_reads (world s)) - 24 * 3600))
                             (alerts (self s) ++ [a])).
  { unfold raised, after, _trigger_alert, bind, try_except, with_connect, modify.
    simpl. destruct (db_up _); reflexivity. }
  rewrite Ha in Hx. apply elem_of_list_filter in Hx. destruct Hx as [Hin Hnew].
  split; [exact Hin | apply gtb_lt; exact Hnew].
Qed.

Lemma run_bind {A B} (m : M A) (k : A -> M B) (s s' : State) (a : A) :
  m s = (Ok a, s') -> bind m k s = k a s'.
Proof. intros H. unfold bind. rewrite H. reflexivity. Qed.

(** the statistics, with the three readings of the alert list of the last
    hour taken apart *)
Lemma get_monitoring_stats_run (s : State) :
  let cr := clock_reads (world s) in
  let now := time_source cr in
  let events := recent_events (self s) in
  let times := recent_response_times (self s) in
  let scores := recent_scores (self s) in
  let recent := last_hour now events in
  let kept := alerts (self s) in
  let criticals := List.filter (is_severity critical) (alerts_since (time_source (cr + 2)) 1 kept) in
  let highs := List.filter (is_severity high) (alerts_since (time_source (cr + 3)) 1 kept) in
  let third := alerts_since (time_source (cr + 4)) 1 kept in
  let cm := metrics_dict sqrt times scores recent in
    get_monitoring_stats time_source sqrt s
    = (Ok {| stats_timestamp := now;
             total_events_tracked := length events;
             events_last_hour := length recent;
             stats_baseline_metrics := baseline_metrics (self s);
             current_metrics := cm;
             alerts_last_24h := length (alerts_since (time_source (cr + 1)) 24 kept);
             system_health :=
               match criticals with
               | _ :: _ => "critical"
               | [] => match highs with
                       | _ :: _ => "degraded"
                       | [] => if 5 <? length third then "warning" else "healthy"
                       end
               end |},
       tick (match criticals, highs with [], [] => 5 | _, _ => 4 end) s) /\
    cm !! "avg_response_time"
    = match times with [] => None | _ => Some (statistics.mean_val times) end /\
    cm !! "max_response_time"
    = match times with [] => None | x :: xs => Some (max_val x xs) end /\
    cm !! "avg_score"
    = match scores with [] => None | _ => Some (statistics.mean_val scores) end /\
    cm !! "score_std"
    = match scores with
      | [] => None
      | [_] => Some 0%Q
      | _ => Some (sqrt (statistics.variance_val scores))
      end /\
    cm !! "error_rate"
    = match recent with
      | [] => None
      | _ => Some (Num.of_nat (length (errors_of recent)) / Num.of_nat (length recent))%Q
      end.
Proof.
  intros cr now events times scores recent kept criticals highs third cm.
  assert (Hg : forall hours j,
            get_recent_alerts time_source hours (tick j s)
            = (Ok (alerts_since (time_source (cr + j)) hours kept), tick (j + 1) s)).
  { intros hours j. rewrite get_recent_alerts_run, tick_add.
    destruct s as [m [st lg c ops]]. reflexivity. }
  assert (H0 : time_time time_source s = (Ok now, tick 1 s)).
  { destruct s as [m [st lg c ops]]. unfold time_time, tick, on_world, set_clock_reads.
    simpl. rewrite Nat.add_1_r. reflexivity. }
  assert (Hgets : forall {A} (f : ScoringMonitor -> A) j,
            gets f (tick j s) = (Ok (f (self s)), tick j s)).
  { intros A f j. destruct s as [m [st lg c ops]]. reflexivity. }
  unfold get_monitoring_stats.
  rewrite (run_bind _ _ _ _ _ H0).
  rewrite (run_bind _ _ _ _ _ (Hgets _ recent_events 1)).
  rewrite (run_bind _ _ _ _ _ (Hgets _ baseline_metrics 1)).
  rewrite (run_bind _ _ _ _ _ (Hg 24%Z 1)).
  rewrite (run_bind _ _ _ _ _ (Hgets _ recent_response_times 2)).
  fold times events. fold recent.
  set (cm1 := match times with
              | [] => (∅ : gmap string Q)
              | x :: xs => <["max_response_time" := max_val x xs]>
                           (<["avg_response_time" := statistics.mean_val times]> ∅)
              end).
  assert (H1 : (match times with
                | [] => ret (∅ : gmap string Q)
                | x :: xs =>
                    avg <- lift (statistics.mean times) ;;
                    ret (<["max_response_time" := max_val x xs]>
                         (<["avg_response_time" := avg]> (∅ : gmap string Q)))
                end) (tick 2 s) = (Ok cm1, tick 2 s)).
  { subst cm1. destruct times; reflexivity. }
  rewrite (run_bind _ _ _ _ _ H1).
  rewrite (run_bind _ _ _ _ _ (Hgets _ recent_scores 2)). fold scores.
  set (cm2 := match scores with
              | [] => cm1
              | [_] => <["score_std" := 0%Q]>
                       (<["avg_score" := statistics.mean_val scores]> cm1)
              | _ => <["score_std" := sqrt (statistics.variance_val scores)]>
                     (<["avg_score" := statistics.mean_val scores]> cm1)
              end).
  assert (H2 : (match scores with
                | [] => ret cm1
                | _ =>
                    avg <- lift (statistics.mean scores) ;;
                    std <- (if 1 <? length scores
                            then lift (statistics.stdev sqrt scores)
                            else ret 0%Q) ;;
                    ret (<["score_std" := std]> (<["avg_score" := avg]> cm1))
                end) (tick 2 s) = (Ok cm2, tick 2 s)).
  { subst cm2. destruct scores as [| c0 [| c1 cs]]; reflexivity. }
  rewrite (run_bind _ _ _ _ _ H2).
  set (cm3 := match recent with
              | [] => cm2
              | _ => <["error_rate" := (Num.of_nat (length (errors_of recent))
                                        / Num.of_nat (length recent))%Q]> cm2
              end).
  assert (H3 : (match recent with
                | [] => ret cm2
                | _ =>
                    rate <- lift (py_div (Num.of_nat (length (errors_of recent)))
                                         (Num.of_nat (length recent))) ;;
                    ret (<["error_rate" := rate]> cm2)
                end) (tick 2 s) = (Ok cm3, tick 2 s)).
  { subst cm3. destruct recent as [| e es] eqn:Hr; [reflexivity |].
    unfold bind, lift, py_div. rewrite of_nat_nonzero by (simpl; lia). reflexivity. }
  rewrite (run_bind _ _ _ _ _ H3).
  rewrite (run_bind _ _ _ _ _ (Hg 1%Z 2)).
  rewrite (run_bind _ _ _ _ _ (Hg 1%Z 3)).
  cbn [Nat.add]. fold criticals highs.
  assert (Hcm : cm3 = cm) by reflexivity.
  rewrite Hcm. clear Hcm. split.
  - destruct criticals as [| c cs]; [destruct highs as [| h hs] |].
    + unfold bind at 1. unfold bind at 1. rewrite (Hg 1%Z 4). fold third.
      destruct (5 <? length third); reflexivity.
    + reflexivity.
    + reflexivity.
  - subst cm. unfold metrics_dict.
    destruct times as [| t0 ts]; destruct scores as [| c0 [| c1 cs]];
      destruct recent as [| e es]; repeat split; reflexivity.
Qed.


(** X18: the health of the system in the statistics.  It is "critical"
    exactly when an alert of severity critical is in memory and stamped
    within the hour before the third reading of the clock; otherwise
    "degraded" exactly when one of severity high is within the hour before the
    fourth reading; otherwise "warning" exactly when more than five alerts
    are within the hour before the fifth reading; and "healthy" in the
    remaining case. *)
Theorem system_health_decision (s : State) :
  let m := get_monitoring_stats time_source sqrt in
  let cr := clock_reads (world s) in
  let last_hour_at (k : nat) := alerts_since (time_source (cr + k)) 1 (alerts (self s)) in
  let some_critical := exists a, a ∈ last_hour_at 2 /\ severity a = critical in
  let some_high := exists a, a ∈ last_hour_at 3 /\ severity a = high in
  exists st : MonitoringStats,
    outcome m s = Ok st /\
    (system_health st = "critical" <-> some_critical) /\
    (system_health st = "degraded" <-> ~ some_critical /\ some_high) /\
    (system_health st = "warning"
     <-> ~ some_critical /\ ~ some_high /\ 5 < length (last_hour_at 4)) /\
    (system_health st = "healthy"
     <-> ~ some_critical /\ ~ some_high /\ length (last_hour_at 4) <= 5).
Proof.
  intros m cr last_hour_at some_critical some_high.
  destruct (get_monitoring_stats_run s) as (Hrun & _).
  eexists. unfold m, outcome. rewrite Hrun. cbn [fst system_health].
  split; [reflexivity |].
  fold cr. fold (last_hour_at 2) (last_hour_at 3) (last_hour_at 4).
  assert (Hex : forall sev l,
            (exists a, a ∈ l /\ severity a = sev)
            <-> List.filter (is_severity sev) l <> []).
  { intros sev l. split.
    - intros (a & Hin & Hsev) Hnil.
      assert (Ha : a ∈ List.filter (is_severity sev) l).
      { apply elem_of_list_filter. split; [exact Hin | apply is_severity_eq; exact Hsev]. }
      rewrite Hnil in Ha. apply not_elem_of_nil in Ha. exact Ha.
    - intros Hne. destruct (List.filter (is_severity sev) l) as [| a l'] eqn:Hf;
        [congruence |].
      assert (Ha : a ∈ List.filter (is_severity sev) l)
        by (rewrite Hf; apply list_elem_of_here).
      apply elem_of_list_filter in Ha. destruct Ha as [Hin Hsev].
      exists a. split; [exact Hin | apply is_severity_eq; exact Hsev]. }
  unfold some_critical, some_high. rewrite !Hex.
  destruct (List.filter (is_severity critical) (last_hour_at 2)) as [| c cs].
  - destruct (List.filter (is_severity high) (last_hour_at 3)) as [| h hs].
    + destruct (Nat.ltb_spec 5 (length (last_hour_at 4))) as [Hlt | Hge].
      * repeat split; try discriminate; try congruence; intuition (try congruence; try lia).
      * repeat split; try discriminate; try congruence; intuition (try congruence; try lia).
    + repeat split; try discriminate; try congruence; intuition congruence.
  - repeat split; try discriminate; try congruence; intuition congruence.
Qed.

(** X19: with a clock that always gives the same reading, asking for the
    statistics twice with no ingestion in between gives the same answer. *)
Theorem monitoring_stats_idempotent (t : Q) (s : State) :
  (forall n, time_source n = t) ->
  let m := get_monitoring_stats time_source sqrt in
  outcome m (after m s) = outcome m s.
Proof.
  intros Hclock m.
  destruct (get_monitoring_stats_run s) as (Hrun & _).
  unfold m, outcome, after at 1. rewrite Hrun. cbn [fst snd].
  set (k := match _, _ with [], [] => 5 | _, _ => 4 end).
  destruct (get_monitoring_stats_run (tick k s)) as (Hrun' & _).
  rewrite Hrun'. cbn [fst].
  assert (Hself : self (tick k s) = self s)
    by (destruct s as [m0 [st lg c ops]]; reflexivity).
  rewrite Hself, !Hclock. reflexivity.
Qed.

End QueryFacts.

Lemma weekly_summary_report_witness :
  let s := {| self := self (monitor_with ∅ [] [] []); world := latency_world |} in
  outcome (generate_weekly_summary stopped_clock db_always_down) s
  = Ok (ErrorReport OperationalError) /\
  exists r : SummaryReport,
    outcome (generate_weekly_summary stopped_clock db_always_up) s = Ok (Report r) /\
    total_requests (volume_metrics r) = 10.
Proof.
  intros s. split.
  - destruct (weekly_summary_report stopped_clock db_always_down s) as (_ & _ & H & _).
    destruct H as (H & _); [reflexivity | exact H].
  - destruct (weekly_summary_report stopped_clock db_always_up s) as (_ & _ & _ & H).
    destruct H as (_ & r & Hr & Hn & _); [reflexivity |].
    exists r. split; [exact Hr |]. rewrite Hn. reflexivity.
Defined.

Lemma recent_alerts_horizon_witness :
  let old := sample_alert (-9000) high in
  let new := sample_alert 990 critical in
  let s := alerted [old; new] in
  (1 <= 24)%Z /\
  outcome (get_recent_alerts stopped_clock 1) s = Ok [new] /\
  outcome (get_recent_alerts stopped_clock 24) s = Ok [old; new] /\
  sublist [new] [old; new].
Proof.
  intros old new s.
  destruct (recent_alerts_horizon stopped_clock 1 s) as (l & Hl & _ & Heq & _ & _ & Hmono).
  assert (H1 : l = [new]) by (rewrite Heq; reflexivity).
  rewrite H1 in Hl, Hmono.
  assert (H24 : outcome (get_recent_alerts stopped_clock 24) s = Ok [old; new])
    by reflexivity.
  split; [lia |]. split; [exact Hl |]. split; [exact H24 |].
  apply (Hmono 24%Z [old; new]); [lia | exact H24].
Defined.

Lemma memory_keeps_one_day_witness :
  let a := sample_alert 990 high in
  let s := alerted [sample_alert (-90000) low] in
  let raised := after (_trigger_alert stopped_clock db_always_up a) s in
  outcome (get_recent_alerts stopped_clock 168) raised = Ok [a] /\
  a ∈ alerts (self s) ++ [a] /\
  (stopped_clock (clock_reads (world s)) - 24 * 3600 < alert_timestamp a)%Q.
Proof.
  intros a s raised.
  assert (Hl : outcome (get_recent_alerts stopped_clock 168) raised = Ok [a])
    by reflexivity.
  split; [exact Hl |].
  apply (memory_keeps_one_day stopped_clock db_always_up a s 168%Z [a] a Hl).
  apply list_elem_of_here.
Defined.

Lemma monitoring_stats_idempotent_witness :
  let s := alerted [sample_alert 990 high] in
  let m := get_monitoring_stats stopped_clock sqrt_floor in
  (forall n, stopped_clock n = 1000%Q) /\
  outcome m (after m s) = outcome m s.
Proof.
  intros s m.
  assert (H : forall n, stopped_clock n = 1000%Q) by reflexivity.
  split; [exact H |].
  exact (monitoring_stats_idempotent stopped_clock sqrt_floor 1000%Q s H).
Defined.

(** * The process and the endpoints *)

Section ProcessFacts.

Variable time_source : nat -> Q.
Variable db_up : nat -> bool.
Variable sqrt : Q -> Q.

Lemma init_run (n : nat) (threshold : Z) (s : State) :
  db_up (db_ops (world s)) = true ->
  exists (b : gmap string Q) (lg : list LogRecord) (reads : nat),
    __init__ time_source db_up sqrt n threshold s
    = (Ok tt,
       {| self := {| window_size := n; alert_threshold := threshold;
                     recent_events := []; recent_scores := [];
                     recent_response_times := [];
                     baseline_metrics := b; alerts := [];
                     user_request_counts := ∅; ip_request_counts := ∅ |};
          world := {| store := store (world s); log := lg; clock_reads := reads;
                      db_ops := S (S (db_ops (world s))) |} |}).
Proof.
  intros Hup. pose proof (init_result time_source db_up sqrt n threshold s) as Hi.
  cbv zeta in Hi. rewrite Hup in Hi. rewrite Hi.
  match goal with |- context [_load_baseline_metrics _ _ _ ?s1] =>
    destruct (load_baseline_result time_source db_up sqrt s1)
      as (b & lg & reads & Hrun & _)
  end.
  exists b, lg, reads. rewrite Hrun. reflexivity.
Qed.

Lemma init_fails (n : nat) (threshold : Z) (s : State) :
  db_up (db_ops (world s)) = false ->
  exists m : ScoringMonitor,
    __init__ time_source db_up sqrt n threshold s
    = (Raise OperationalError,
       {| self := m; world := set_db_ops (S (db_ops (world s))) (world s) |}).
Proof.
  intros Hup. pose proof (init_result time_source db_up sqrt n threshold s) as Hi.
  cbv zeta in Hi. rewrite Hup in Hi. rewrite Hi. eexists. reflexivity.
Qed.

Lemma get_monitor_built (p : Process) (monitor : ScoringMonitor) :
  _monitor_instance p = Some monitor ->
  get_monitor time_source db_up sqrt p = (Returns monitor, p).
Proof. intros H. unfold get_monitor. rewrite H. reflexivity. Qed.

(** X20: [get_monitor] builds the monitor once.  An instance that exists is
    returned as it is and nothing else happens.  When there is none, the
    constructor runs with capacity 1000 and threshold 10: if the database
    block that creates the tables goes through, the new monitor, with empty
    windows and no alerts, becomes the instance and a second call returns it
    without building another; if the block fails, [OperationalError] leaves
    the function and there is still no instance, so that the next call tries
    again.  The rows of the store and the root log are untouched. *)
Theorem get_monitor_singleton (p : Process) :
  let m := get_monitor time_source db_up sqrt in
  (forall monitor, _monitor_instance p = Some monitor -> m p = (Returns monitor, p)) /\
  (_monitor_instance p = None ->
   root_errors (then_ m p) = root_errors p /\
   store (process_world (then_ m p)) = store (process_world p) /\
   if db_up (db_ops (process_world p))
   then exists monitor,
          answer m p = Returns monitor /\
          _monitor_instance (then_ m p) = Some monitor /\
          windows monitor = (1000, [], [], []) /\
          alert_threshold monitor = 10%Z /\
          alerts monitor = [] /\
          m (then_ m p) = (Returns monitor, then_ m p)
   else answer m p = Fails (Uncaught OperationalError) /\
        _monitor_instance (then_ m p) = None).
Proof.
  intros m. split; [intros monitor H; apply get_monitor_built; exact H |].
  intros Hnone. unfold m, answer, then_, get_monitor. rewrite Hnone.
  destruct (db_up (db_ops (process_world p))) eqn:Hup.
  - destruct (init_run 1000 10 {| self := unbuilt; world := process_world p |} Hup)
      as (b & lg & reads & Hrun).
    rewrite Hrun. cbn [fst snd self world store root_errors process_world].
    split; [reflexivity |]. split; [reflexivity |].
    eexists. split; [reflexivity |]. cbn [_monitor_instance].
    split; [reflexivity |]. split; [reflexivity |]. split; [reflexivity |].
    split; reflexivity.
  - destruct (init_fails 1000 10 {| self := unbuilt; world := process_world p |} Hup)
      as (m0 & Hrun).
    rewrite Hrun. cbn. destruct (process_world p). repeat split; reflexivity.
Qed.

Lemma log_scoring_request_run (user_id api_key : string)
    (request_data response_data : gmap string Q) (processing_time : Q)
    (ip_address user_agent : string) (status_code : Z)
    (error_message : option string) (p : Process) :
  let event := {| timestamp := time_source (clock_reads (process_world p));
                  user_id := user_id; api_key := api_key;
                  request_data := request_data; response_data := response_data;
                  processing_time := processing_time; ip_address := ip_address;
                  user_agent := user_agent; status_code := status_code;
                  error_message := error_message |} in
  let p1 := {| _monitor_instance := _monitor_instance p;
               process_world := set_clock_reads (S (clock_reads (process_world p)))
                                  (process_world p);
               root_errors := root_errors p |} in
  log_scoring_request time_source db_up sqrt user_id api_key request_data
    response_data processing_time ip_address user_agent status_code error_message p
  = match get_monitor time_source db_up sqrt p1 with
    | (Returns monitor, p2) =>
        call monitor (log_scoring_event time_source db_up event) p2
    | (Fails f, p2) => (Fails f, p2)
    end.
Proof. reflexivity. Qed.

Lemma call_run {A} (monitor m0 : ScoringMonitor) (body : M A) (p : Process) :
  _monitor_instance p = Some m0 ->
  call monitor body p
  = (match outcome body {| self := m0; world := process_world p |} with
     | Ok a => Returns a
     | Raise e => Fails (Uncaught e)
     end,
     {| _monitor_instance :=
          Some (self (after body {| self := m0; world := process_world p |}));
        process_world := world (after body {| self := m0; world := process_world p |});
        root_errors := root_errors p |}).
Proof.
  intros H. unfold call, outcome, after. rewrite H. cbn [default from_option id].
  destruct (body _) as [r s]. reflexivity.
Qed.

Lemma log_scoring_request_bounded (e : ScoringEvent) (p : Process) :
  let m := log_scoring_request time_source db_up sqrt (user_id e) (api_key e)
             (request_data e) (response_data e) (processing_time e) (ip_address e)
             (user_agent e) (status_code e) (error_message e) in
  instance_bounded p ->
  instance_bounded (then_ m p) /\
  (_monitor_instance p <> None -> _monitor_instance (then_ m p) <> None).
Proof.
  intros m Hb. unfold m, then_. rewrite log_scoring_request_run. cbv zeta.
  set (ev := {| timestamp := _ |}).
  set (w1 := set_clock_reads _ _).
  assert (Hstep : forall (m0 : ScoringMonitor) (w : World),
            window_size m0 = 1000 ->
            length (recent_events m0) <= 1000 ->
            length (recent_scores m0) <= 1000 ->
            length (recent_response_times m0) <= 1000 ->
            instance_bounded
              {| _monitor_instance :=
                   Some (self (after (log_scoring_event time_source db_up ev)
                                 {| self := m0; world := w |}));
                 process_world :=
                   world (after (log_scoring_event time_source db_up ev)
                            {| self := m0; world := w |});
                 root_errors := root_errors p |}).
  { intros m0 w Hn He Hs Ht monitor Hmon. cbn in Hmon. injection Hmon as <-.
    destruct (log_scoring_event_bounded time_source db_up ev
                {| self := m0; world := w |}) as [(He' & Hs' & Ht') Hn'].
    { unfold windows_bounded. cbn [self]. rewrite Hn. auto. }
    rewrite Hn' in He', Hs', Ht' |- *. cbn [self] in He', Hs', Ht' |- *.
    rewrite Hn in He', Hs', Ht' |- *. auto. }
  destruct (_monitor_instance p) as [m0 |] eqn:Hm.
  - rewrite (get_monitor_built _ m0) by reflexivity.
    rewrite (call_run m0 m0) by reflexivity.
    cbn [snd process_world root_errors _monitor_instance].
    split; [| intros _; discriminate].
    destruct (Hb m0 Hm) as (Hn & He & Hs & Ht).
    apply Hstep; assumption.
  - split; [| congruence].
    unfold get_monitor. cbn [_monitor_instance process_world].
    destruct (db_up (db_ops w1)) eqn:Hup.
    + destruct (init_run 1000 10 {| self := unbuilt; world := w1 |} Hup)
        as (b & lg & reads & Hrun).
      rewrite Hrun. erewrite call_run by reflexivity.
      cbn [snd process_world root_errors].
      apply Hstep; cbn; lia.
    + destruct (init_fails 1000 10 {| self := unbuilt; world := w1 |} Hup)
        as (m0 & Hrun).
      rewrite Hrun. cbn [snd]. intros monitor Hmon. discriminate Hmon.
Qed.

(** X21: however many scoring requests a process logs through
    [log_scoring_request], and whether or not some of the calls fail, the
    global monitor never holds more than 1000 entries in any of its windows
    and keeps the capacity 1000; and an instance that exists is never lost. *)
Theorem process_windows_bounded (events : list ScoringEvent) (p : Process) :
  instance_bounded p ->
  instance_bounded (serve_all time_source db_up sqrt events p) /\
  (_monitor_instance p <> None ->
   _monitor_instance (serve_all time_source db_up sqrt events p) <> None).
Proof.
  revert p. induction events as [| e events IH]; intros p Hb; [split; auto |].
  simpl. destruct (log_scoring_request_bounded e p Hb) as [Hb' Hkeep].
  destruct (IH _ Hb') as [Hb'' Hkeep']. split; [exact Hb'' |].
  intros H. apply Hkeep', Hkeep, H.
Qed.

End ProcessFacts.

Section MiddlewareFacts.

Variable time_source : nat -> Q.
Variable db_up : nat -> bool.
Variable sqrt : Q -> Q.
Variable Response : Type.
Variable response_status_code : Response -> Z.

(** X22: the middleware never lets the monitoring break a request.  When the
    application fails, the middleware fails in the same way and logs nothing.
    When the application returns a response, the middleware returns this
    response in every case: for a request other than [POST /score-user] the
    monitor is not touched (not even built), only the clock is read a second
    time; for a scoring request one event of user [unknown] is logged through
    [log_scoring_request], with the elapsed time between the two clock
    readings and the status code of the response, and a failure of that call
    is written to the root log instead of leaving the middleware. *)
Theorem middleware_shields_request (request : Request)
    (call_next : Request -> P Response) (p : Process) :
  let mw := monitor_endpoints.monitoring_middleware time_source db_up sqrt
              Response response_status_code request call_next in
  let start_time := time_source (clock_reads (process_world p)) in
  match call_next request (then_ (p_time time_source) p) with
  | (Fails f, p2) => mw p = (Fails f, p2)
  | (Returns response, p2) =>
      let now := time_source (clock_reads (process_world p2)) in
      let auth_header := default "" (headers request !! "authorization") in
      let logged :=
        log_scoring_request time_source db_up sqrt "unknown"
          (if String.prefix "Bearer " auth_header
           then str_replace "Bearer " "" auth_header else "unknown")
          ∅ ∅ (now - start_time)
          (match client request with Some host => host | None => "unknown" end)
          (default "" (headers request !! "user-agent"))
          (response_status_code response) None in
      let p3 := then_ (p_time time_source) p2 in
      answer mw p = Returns response /\
      then_ mw p
      = (if is_scoring_request request
         then match answer logged p3 with
              | Returns _ => then_ logged p3
              | Fails f => then_ (logging_error f) (then_ logged p3)
              end
         else p3)
  end.
Proof.
  intros mw start_time.
  unfold then_ at 1, p_time at 1. cbn [snd].
  destruct (call_next request _) as [[response | f] p2] eqn:Hnext.
  - cbv zeta.
    set (logged := log_scoring_request _ _ _ _ _ _ _ _ _ _ _ _).
    set (p3 := then_ (p_time time_source) p2).
    assert (Hrun : mw p
                   = (Returns response,
                      if is_scoring_request request
                      then match answer logged p3 with
                           | Returns _ => then_ logged p3
                           | Fails f => then_ (logging_error f) (then_ logged p3)
                           end
                      else p3)).
    { unfold mw, monitor_endpoints.monitoring_middleware.
      fold (is_scoring_request request).
      unfold p_bind at 1. unfold p_time at 1. cbv beta iota zeta.
      unfold p_bind at 1. rewrite Hnext.
      unfold p_bind at 1. unfold p_time at 1. cbv beta iota zeta.
      fold start_time. unfold p3, then_, p_time, answer. cbn [snd].
      destruct (is_scoring_request request).
      - unfold p_bind, p_try, p_ret. fold logged.
        destruct (logged _) as [[[] | f0] p4]; reflexivity.
      - reflexivity. }
    unfold answer, then_ at 1. rewrite Hrun. split; reflexivity.
  - unfold mw, monitor_endpoints.monitoring_middleware.
    unfold p_bind at 1. unfold p_time at 1. cbv beta iota zeta.
    unfold p_bind at 1. rewrite Hnext. reflexivity.
Qed.

End MiddlewareFacts.

Lemma process_windows_bounded_witness :
  let p := fresh_process empty_world in
  instance_bounded p /\
  instance_bounded
    (serve_all stopped_clock db_always_up sqrt_floor [slow_event; slow_event] p) /\
  (exists monitor,
     _monitor_instance
       (serve_all stopped_clock db_always_up sqrt_floor [slow_event; slow_event] p)
     = Some monitor /\ length (recent_events monitor) = 2).
Proof.
  intros p.
  assert (H : instance_bounded p) by (intros m Hm; discriminate Hm).
  split; [exact H |].
  split; [exact (proj1 (process_windows_bounded stopped_clock db_always_up sqrt_floor
                          [slow_event; slow_event] p H)) |].
  eexists. split; [vm_compute; reflexivity | reflexivity].
Defined.

Lemma middleware_shields_request_witness :
  let request := {| url_path := "/score-user"; method := "POST";
                    headers := {[ "authorization" := "Bearer abc" ]};
                    client := None |} in
  let call_next := fun _ : Request => p_ret 200%Z in
  let p := fresh_process empty_world in
  let broken := monitor_endpoints.monitoring_middleware stopped_clock db_always_down
                  sqrt_floor Z id request call_next in
  let working := monitor_endpoints.monitoring_middleware stopped_clock db_always_up
                   sqrt_floor Z id request call_next in
  (answer broken p = Returns 200%Z /\
   root_errors (then_ broken p) = [Uncaught OperationalError]) /\
  (answer working p = Returns 200%Z /\
   root_errors (then_ working p) = [] /\
   map (fun e => (user_id e, api_key e, ip_address e, status_code e))
       (scoring_events (store (process_world (then_ working p))))
   = [("unknown", "abc", "unknown", 200%Z)]).
Proof.
  intros request call_next p broken working. split.
  - pose proof (middleware_shields_request stopped_clock db_always_down sqrt_floor
                  Z id request call_next p) as H.
    cbv zeta in H. unfold call_next at 1, p_ret at 1 in H.
    destruct H as [Ha Ht]. split; [exact Ha |].
    unfold broken. rewrite Ht. vm_compute. reflexivity.
  - pose proof (middleware_shields_request stopped_clock db_always_up sqrt_floor
                  Z id request call_next p) as H.
    cbv zeta in H. unfold call_next at 1, p_ret at 1 in H.
    destruct H as [Ha Ht]. split; [exact Ha |].
    unfold working. rewrite Ht. split; vm_compute; reflexivity.
Defined.

(** ** The endpoints *)

Lemma answer_bind {A B} (m : P A) (k : A -> P B) (p : Process) :
  answer (p_bind m k) p
  = match answer m p with
    | Returns a => answer (k a) (then_ m p)
    | Fails f => Fails f
    end.
Proof. unfold answer, then_, p_bind. destruct (m p) as [[a | f] p']; reflexivity. Qed.

Lemma answer_try {A} (m : P A) (h : failure -> P A) (p : Process) :
  answer (p_try m h) p
  = match answer m p with
    | Returns a => Returns a
    | Fails f => answer (h f) (then_ m p)
    end.
Proof. unfold answer, then_, p_try. destruct (m p) as [[a | f] p']; reflexivity. Qed.

Lemma then_bind {A B} (m : P A) (k : A -> P B) (p : Process) :
  then_ (p_bind m k) p
  = match answer m p with
    | Returns a => then_ (k a) (then_ m p)
    | Fails f => then_ m p
    end.
Proof. unfold answer, then_, p_bind. destruct (m p) as [[a | f] p']; reflexivity. Qed.

Section EndpointFacts.

Variable time_source : nat -> Q.
Variable db_up : nat -> bool.
Variable sqrt : Q -> Q.

Lemma answer_get_monitor (p : Process) :
  (exists monitor, answer (get_monitor time_source db_up sqrt) p = Returns monitor) \/
  (exists e, answer (get_monitor time_source db_up sqrt) p = Fails (Uncaught e)).
Proof.
  unfold answer, get_monitor.
  destruct (_monitor_instance p) as [m0 |]; [left; eexists; reflexivity |].
  destruct (__init__ _ _ _ _ _ _) as [[[] | e] s]; [left | right]; eexists; reflexivity.
Qed.

Lemma answer_call {A} (monitor : ScoringMonitor) (body : M A) (p : Process) :
  (exists a, answer (call monitor body) p = Returns a) \/
  (exists e, answer (call monitor body) p = Fails (Uncaught e)).
Proof.
  unfold answer, call. destruct (body _) as [[a | e] s]; [left | right];
    eexists; reflexivity.
Qed.

(** an endpoint of the form [monitor = get_monitor(); body] answers with an
    HTTP error only when [body] does *)
Lemma never_with_monitor {A} (pred : reply A -> bool) (k : ScoringMonitor -> P A) :
  (forall e, pred (Fails (Uncaught e)) = false) ->
  (forall monitor, never pred (k monitor)) ->
  never pred (p_bind (get_monitor time_source db_up sqrt) k).
Proof.
  intros Hun Hk p. rewrite answer_bind.
  destruct (answer_get_monitor p) as [[monitor ->] | [e ->]]; [apply Hk | apply Hun].
Qed.

Lemma never_call {A} (pred : reply A -> bool) (monitor : ScoringMonitor) (body : M A) :
  (forall a, pred (Returns a) = false) ->
  (forall e, pred (Fails (Uncaught e)) = false) ->
  never pred (call monitor body).
Proof.
  intros Hr Hun p.
  destruct (answer_call monitor body p) as [[a ->] | [e ->]]; [apply Hr | apply Hun].
Qed.

(** X23: each guarded endpoint answers 403 exactly when the caller lacks the
    permission it asks for, [monitor] for the statistics, the alerts and the
    events, [admin] for the weekly summary and the cleanup; and a refused
    call leaves the process as it was: no monitor is built, the clock is not
    read and the database is not opened. *)
Theorem endpoints_check_permission (current_user : gmap string (list string))
    (p : Process) (hours : Z) (severity : option Severity) (limit : nat)
    (user_id api_key : option string) (start_time end_time : option Q)
    (days_to_keep : Z) :
  let stats := monitor_endpoints.get_monitoring_stats time_source db_up sqrt current_user in
  let recent := monitor_endpoints.get_recent_alerts time_source db_up sqrt hours severity
                  current_user in
  let events := monitor_endpoints.get_scoring_events time_source db_up sqrt limit user_id
                  api_key start_time end_time current_user in
  let weekly := monitor_endpoints.get_weekly_summary time_source db_up sqrt current_user in
  let cleanup := monitor_endpoints.cleanup_old_data time_source db_up sqrt days_to_keep
                   current_user in
  let may_monitor := has_permission "monitor" current_user in
  let may_admin := has_permission "admin" current_user in
  (forbidden (answer stats p) = negb may_monitor /\
   forbidden (answer recent p) = negb may_monitor /\
   forbidden (answer events p) = negb may_monitor /\
   forbidden (answer weekly p) = negb may_admin /\
   forbidden (answer cleanup p) = negb may_admin) /\
  (forbidden (answer stats p) = true -> then_ stats p = p) /\
  (forbidden (answer recent p) = true -> then_ recent p = p) /\
  (forbidden (answer events p) = true -> then_ events p = p) /\
  (forbidden (answer weekly p) = true -> then_ weekly p = p) /\
  (forbidden (answer cleanup p) = true -> then_ cleanup p = p).
Proof.
  intros stats recent events weekly cleanup may_monitor may_admin.
  assert (Hstats : never forbidden
            (p_bind (get_monitor time_source db_up sqrt)
               (fun monitor => call monitor (get_monitoring_stats time_source sqrt)))).
  { apply never_with_monitor; [reflexivity |]. intros monitor.
    apply never_call; reflexivity. }
  assert (Hrecent : never forbidden
            (p_bind (get_monitor time_source db_up sqrt)
               (fun monitor =>
                  p_bind (call monitor (get_recent_alerts time_source hours))
                    (fun alerts =>
                       p_ret (match severity with
                              | Some sev => List.filter (is_severity sev) alerts
                              | None => alerts
                              end))))).
  { apply never_with_monitor; [reflexivity |]. intros monitor q.
    rewrite answer_bind.
    destruct (answer_call monitor (get_recent_alerts time_source hours) q)
      as [[a ->] | [e ->]]; reflexivity. }
  assert (Hevents : never forbidden
            (p_bind (get_monitor time_source db_up sqrt)
               (fun monitor =>
                  p_try
                    (call monitor
                       (with_connect db_up
                          (fetch_events
                             (events_query limit user_id api_key start_time end_time))))
                    (fun e => raise (HTTPException 500 "Error retrieving events"))))).
  { apply never_with_monitor; [reflexivity |]. intros monitor q.
    rewrite answer_try.
    match goal with |- context [answer (call monitor ?b) q] =>
      destruct (answer_call monitor b q) as [[a ->] | [e ->]]; reflexivity
    end. }
  assert (Hweekly : never forbidden
            (p_bind (get_monitor time_source db_up sqrt)
               (fun monitor => call monitor (generate_weekly_summary time_source db_up)))).
  { apply never_with_monitor; [reflexivity |]. intros monitor.
    apply never_call; reflexivity. }
  assert (Hcleanup : never forbidden
            (p_bind (get_monitor time_source db_up sqrt)
               (fun monitor =>
                  p_try
                    (p_bind (call monitor
                               (cleanup_old_data time_source db_up days_to_keep))
                       (fun _ =>
                          p_bind (p_time time_source)
                            (fun t =>
                               p_ret {| cleanup_status := "success";
                                        cleanup_days := days_to_keep;
                                        cleanup_timestamp := t |})))
                    (fun e => raise (HTTPException 500 "Cleanup failed"))))).
  { apply never_with_monitor; [reflexivity |]. intros monitor q.
    rewrite answer_try, answer_bind.
    match goal with |- context [answer (call monitor ?b) q] =>
      destruct (answer_call monitor b q) as [[a ->] | [e ->]]; reflexivity
    end. }
  unfold stats, recent, events, weekly, cleanup,
    monitor_endpoints.get_monitoring_stats, monitor_endpoints.get_recent_alerts,
    monitor_endpoints.get_scoring_events, monitor_endpoints.get_weekly_summary,
    monitor_endpoints.cleanup_old_data.
  fold may_monitor. fold may_admin.
  specialize (Hstats p). specialize (Hrecent p). specialize (Hevents p).
  specialize (Hweekly p). specialize (Hcleanup p).
  destruct may_monitor, may_admin; cbn [negb];
    rewrite ?Hstats, ?Hrecent, ?Hevents, ?Hweekly, ?Hcleanup;
    repeat split; try reflexivity; try discriminate.
Qed.

End EndpointFacts.

Section CleanupEndpointFacts.

Variable time_source : nat -> Q.
Variable db_up : nat -> bool.
Variable sqrt : Q -> Q.

Lemma cleanup_never_raises (days_to_keep : Z) (s : State) :
  outcome (cleanup_old_data time_source db_up days_to_keep) s = Ok None.
Proof.
  destruct (db_up (db_ops (world s))) eqn:Hup.
  - unfold outcome. pose proof (cleanup_run time_source db_up days_to_keep s) as H.
    cbv zeta in H. rewrite (H Hup). reflexivity.
  - apply cleanup_db_down. exact Hup.
Qed.

Lemma cleanup_endpoint_answer (days_to_keep : Z)
    (current_user : gmap string (list string)) (p : Process) :
  has_permission "admin" current_user = true ->
  answer (monitor_endpoints.cleanup_old_data time_source db_up sqrt days_to_keep
            current_user) p
  = match answer (get_monitor time_source db_up sqrt) p with
    | Returns _ =>
        Returns {| cleanup_status := "success"; cleanup_days := days_to_keep;
                   cleanup_timestamp :=
                     time_source
                       (S (clock_reads
                             (process_world
                                (then_ (get_monitor time_source db_up sqrt) p)))) |}
    | Fails f => Fails f
    end.
Proof.
  intros Hperm. unfold monitor_endpoints.cleanup_old_data. rewrite Hperm. cbn [negb].
  rewrite answer_bind.
  destruct (answer (get_monitor time_source db_up sqrt) p) as [monitor | f];
    [| reflexivity].
  set (q := then_ (get_monitor time_source db_up sqrt) p).
  unfold answer, p_try, p_bind, call.
  pose proof (cleanup_never_raises days_to_keep
                {| self := default monitor (_monitor_instance q);
                   world := process_world q |}) as Hok.
  pose proof (cleanup_db_down time_source db_up days_to_keep
                {| self := default monitor (_monitor_instance q);
                   world := process_world q |}) as Hdown.
  pose proof (cleanup_run time_source db_up days_to_keep
                {| self := default monitor (_monitor_instance q);
                   world := process_world q |}) as Hup.
  cbv zeta in Hup. unfold outcome in Hok.
  assert (Hreads : clock_reads
                     (world (after (cleanup_old_data time_source db_up days_to_keep)
                               {| self := default monitor (_monitor_instance q);
                                  world := process_world q |}))
                   = S (clock_reads (process_world q))).
  { unfold after, cleanup_old_data, bind, try_except, with_connect, time_time, ret.
    cbn. destruct (db_up (db_ops (process_world q))); reflexivity. }
  unfold after in Hreads.
  destruct (cleanup_old_data _ _ _ _) as [r s']. cbn [fst snd] in Hok, Hreads |- *.
  rewrite Hok. unfold p_time, p_ret. cbn [fst snd process_world]. rewrite Hreads.
  reflexivity.
Qed.

(** X24: the handler [Cleanup failed] of the cleanup endpoint is never
    reached, since the method swallows its own errors.  The endpoint answers
    500 exactly when an administrator calls it and the monitor cannot be
    built: [get_monitor()] stands before the [try], so its exception leaves
    the endpoint.  For an administrator, once the monitor exists, it answers
    [success] in every case, with the number of days asked for and the clock
    reading that follows the one of the method; when the database block
    fails nothing is deleted, the failure only goes to the monitor's log,
    and the answer is [success] all the same. *)
Theorem cleanup_endpoint_always_success (days_to_keep : Z)
    (current_user : gmap string (list string)) (p : Process) :
  let ep := monitor_endpoints.cleanup_old_data time_source db_up sqrt days_to_keep
              current_user in
  (forall detail, answer ep p <> Fails (HTTPException 500 detail)) /\
  (server_error (answer ep p) = true <->
   has_permission "admin" current_user = true /\
   exists e, answer (get_monitor time_source db_up sqrt) p = Fails (Uncaught e)) /\
  forall monitor,
    has_permission "admin" current_user = true ->
    _monitor_instance p = Some monitor ->
    answer ep p
    = Returns {| cleanup_status := "success"; cleanup_days := days_to_keep;
                 cleanup_timestamp := time_source (S (clock_reads (process_world p))) |} /\
    _monitor_instance (then_ ep p) = Some monitor /\
    root_errors (then_ ep p) = root_errors p /\
    (db_up (db_ops (process_world p)) = false ->
     store (process_world (then_ ep p)) = store (process_world p) /\
     log (process_world (then_ ep p))
     = log (process_world p) ++ [ErrorDuringCleanup OperationalError]).
Proof.
  intros ep.
  assert (Hcases :
            (has_permission "admin" current_user = false /\
             answer ep p = Fails (HTTPException 403 "Admin permissions required")) \/
            (has_permission "admin" current_user = true /\
             ((exists r, answer (get_monitor time_source db_up sqrt) p = Returns r /\
                         exists reply, answer ep p = Returns reply) \/
              (exists e, answer (get_monitor time_source db_up sqrt) p
                         = Fails (Uncaught e) /\
                         answer ep p = Fails (Uncaught e))))).
  { destruct (has_permission "admin" current_user) eqn:Hperm.
    - right. split; [reflexivity |].
      pose proof (cleanup_endpoint_answer days_to_keep current_user p Hperm) as Ha.
      fold ep in Ha.
      destruct (answer_get_monitor time_source db_up sqrt p) as [[r Hr] | [e He]].
      + left. exists r. split; [exact Hr |]. rewrite Hr in Ha. eexists. exact Ha.
      + right. exists e. split; [exact He |]. rewrite He in Ha. exact Ha.
    - left. split; [reflexivity |].
      unfold ep, monitor_endpoints.cleanup_old_data. rewrite Hperm. reflexivity. }
  split; [| split].
  - intros detail.
    destruct Hcases as [[_ Ha] | [_ [(r & _ & reply & Ha) | (e & _ & Ha)]]];
      rewrite Ha; discriminate.
  - destruct Hcases as [[Hperm Ha] | [Hperm [(r & Hr & reply & Ha) | (e & He & Ha)]]];
      rewrite Ha; cbn.
    + split; [discriminate |]. intros [H _]. congruence.
    + split; [discriminate |]. intros [_ [e He]]. congruence.
    + split; [| reflexivity]. intros _. split; [exact Hperm |]. exists e. exact He.
  - intros monitor Hperm Hinst.
    unfold ep, monitor_endpoints.cleanup_old_data. rewrite Hperm. cbn [negb].
    destruct p as [inst [st lg cr ops] errs]. cbn in Hinst. subst inst.
    unfold answer, then_, p_bind, p_try, get_monitor, call, p_time, p_ret,
      cleanup_old_data, bind, try_except, with_connect, time_time, ret.
    cbn. destruct (db_up ops); cbn; repeat split; try reflexivity; discriminate.
Qed.

End CleanupEndpointFacts.

Section HealthCheckFacts.

Variable time_source : nat -> Q.
Variable db_up : nat -> bool.
Variable sqrt : Q -> Q.

Lemma get_monitor_fails (p : Process) :
  _monitor_instance p = None ->
  db_up (db_ops (process_world p)) = false ->
  get_monitor time_source db_up sqrt p
  = (Fails (Uncaught OperationalError),
     {| _monitor_instance := None;
        process_world := set_db_ops (S (db_ops (process_world p))) (process_world p);
        root_errors := root_errors p |}).
Proof.
  intros Hnone Hdown. unfold get_monitor. rewrite Hnone.
  destruct (init_fails time_source db_up sqrt 1000 10
              {| self := unbuilt; world := process_world p |} Hdown) as (m0 & Hrun).
  rewrite Hrun. reflexivity.
Qed.

(** X25: once the monitor exists the health check never fails and changes
    neither the monitor nor the store nor the logs.  It reports [healthy],
    with the number of stored events, exactly when its database block goes
    through, and [unhealthy] with the error otherwise.  When no monitor
    exists yet and the database is down, the check itself fails with
    [OperationalError] instead of reporting [unhealthy]: the monitor is
    built before the [try]. *)
Theorem health_check_reports (p : Process) :
  let hc := monitor_endpoints.monitor_health_check time_source db_up sqrt in
  (forall monitor, _monitor_instance p = Some monitor ->
     exists r : HealthReport,
       answer hc p = Returns r /\
       _monitor_instance (then_ hc p) = Some monitor /\
       store (process_world (then_ hc p)) = store (process_world p) /\
       log (process_world (then_ hc p)) = log (process_world p) /\
       root_errors (then_ hc p) = root_errors p /\
       health_timestamp r = time_source (clock_reads (process_world p)) /\
       if db_up (db_ops (process_world p))
       then health_status r = "healthy" /\ database_accessible r = true /\
            monitoring_active r = true /\ health_error r = None /\
            total_events r = Some (length (scoring_events (store (process_world p))))
       else health_status r = "unhealthy" /\ database_accessible r = false /\
            monitoring_active r = false /\
            health_error r = Some (Uncaught OperationalError) /\
            total_events r = None) /\
  (_monitor_instance p = None ->
   db_up (db_ops (process_world p)) = false ->
   answer hc p = Fails (Uncaught OperationalError) /\
   _monitor_instance (then_ hc p) = None).
Proof.
  intros hc. split.
  - intros monitor Hinst.
    destruct p as [inst [st lg cr ops] errs]. cbn in Hinst. subst inst.
    unfold hc, monitor_endpoints.monitor_health_check, answer, then_, p_bind, p_try,
      get_monitor, call, p_time, p_ret, with_connect, count_events.
    cbn. destruct (db_up ops); cbn; eexists; repeat split; reflexivity.
  - intros Hnone Hdown.
    unfold hc, monitor_endpoints.monitor_health_check.
    rewrite answer_bind, then_bind. unfold answer, then_.
    rewrite (get_monitor_fails p Hnone Hdown). split; reflexivity.
Qed.

End HealthCheckFacts.

(** ** The events query *)

Lemma insert_sorted_by {A} (le : A -> A -> bool) (x : A) (l : list A) :
  (forall a b, le a b = false -> le b a = true) ->
  (forall a b c, le a b = true -> le b c = true -> le a c = true) ->
  StronglySorted (fun a b => le a b = true) l ->
  StronglySorted (fun a b => le a b = true) (insert_sorted le x l).
Proof.
  intros Htot Htrans. induction 1 as [| y l Hs IH Hall]; simpl.
  - repeat constructor.
  - destruct (le x y) eqn:Hxy.
    + constructor; [constructor; assumption |].
      constructor; [exact Hxy |].
      eapply List.Forall_impl; [| exact Hall]. intros z Hz. simpl in Hz.
      eapply Htrans; eassumption.
    + constructor; [exact IH |].
      rewrite <- insert_sorted_perm. constructor; [apply Htot; exact Hxy | exact Hall].
Qed.

Lemma sort_by_sorted {A} (le : A -> A -> bool) (l : list A) :
  (forall a b, le a b = false -> le b a = true) ->
  (forall a b c, le a b = true -> le b c = true -> le a c = true) ->
  StronglySorted (fun a b => le a b = true) (sort_by le l).
Proof.
  intros Htot Htrans. induction l as [| x l IH]; simpl; [constructor |].
  apply insert_sorted_by; assumption.
Qed.

Lemma sorted_app_inv {A} (R : A -> A -> Prop) (l1 l2 : list A) :
  StronglySorted R (l1 ++ l2) ->
  StronglySorted R l1 /\ forall x y, x ∈ l1 -> y ∈ l2 -> R x y.
Proof.
  induction l1 as [| a l1 IH]; simpl; intros Hs.
  - split; [constructor |]. intros x y Hx. apply not_elem_of_nil in Hx. contradiction.
  - inversion Hs as [| ? ? Hs' Hall]; subst.
    destruct (IH Hs') as [Hs1 Hcross]. split.
    + constructor; [exact Hs1 |].
      rewrite List.Forall_forall in Hall |- *. intros z Hz. apply Hall.
      apply in_or_app. left. exact Hz.
    + intros x y Hx Hy. apply elem_of_cons in Hx. destruct Hx as [-> | Hx].
      * rewrite List.Forall_forall in Hall. apply Hall.
        apply in_or_app. right. apply list_elem_of_In. exact Hy.
      * apply Hcross; assumption.
Qed.

Lemma events_query_facts (limit : nat) (user_id' api_key' : option string)
    (start_time end_time : option Q) (rows : list ScoringEvent) :
  let l := events_query limit user_id' api_key' start_time end_time rows in
  let matching := List.filter (events_where user_id' api_key' start_time end_time) rows in
  length l = Nat.min limit (length matching) /\
  (forall e, e ∈ l -> e ∈ matching) /\
  StronglySorted (fun a b => (timestamp b <= timestamp a)%Q) l /\
  (forall e e', e ∈ l -> e' ∈ matching -> e' ∉ l -> (timestamp e' <= timestamp e)%Q).
Proof.
  intros l matching. unfold l, events_query. fold matching.
  set (le := fun a b : ScoringEvent => Qle_bool (timestamp b) (timestamp a)).
  set (sorted_rows := sort_by le (rev matching)).
  assert (Hperm : Permutation matching sorted_rows).
  { etransitivity; [apply Permutation_rev | apply sort_by_perm]. }
  assert (Hsorted : StronglySorted (fun a b => le a b = true) sorted_rows).
  { apply sort_by_sorted.
    - intros a b Hab. unfold le in *. apply Qle_bool_iff.
      apply Qlt_le_weak, Qnot_le_lt. intros H. apply Qle_bool_iff in H. congruence.
    - intros a b c Hab Hbc. unfold le in *.
      apply Qle_bool_iff in Hab. apply Qle_bool_iff in Hbc. apply Qle_bool_iff.
      eapply Qle_trans; eassumption. }
  rewrite <- (take_drop limit sorted_rows) in Hsorted.
  apply sorted_app_inv in Hsorted. destruct Hsorted as [Htake Hcross].
  assert (Hin : forall e, e ∈ take limit sorted_rows -> e ∈ matching).
  { intros e He. rewrite Hperm. rewrite <- (take_drop limit sorted_rows).
    apply elem_of_app. left. exact He. }
  split; [| split; [exact Hin | split]].
  - rewrite length_take. unfold sorted_rows.
    rewrite sort_by_length, List.length_rev. reflexivity.
  - clear Hcross Hin. induction Htake as [| a l' Hs IH Hall]; constructor; [exact IH |].
    eapply List.Forall_impl; [| exact Hall]. intros b Hb. simpl in Hb.
    unfold le in Hb. apply Qle_bool_iff. exact Hb.
  - intros e e' He He' Hout.
    rewrite Hperm in He'. rewrite <- (take_drop limit sorted_rows) in He'.
    apply elem_of_app in He'. destruct He' as [He' | He']; [contradiction |].
    specialize (Hcross e e' He He'). unfold le in Hcross.
    apply Qle_bool_iff. exact Hcross.
Qed.

Section EventsEndpointFacts.

Variable time_source : nat -> Q.
Variable db_up : nat -> bool.
Variable sqrt : Q -> Q.

(** X26: for a caller with the [monitor] permission, once the monitor
    exists, the events endpoint changes neither the monitor nor the store.
    When its database block fails it answers 500.  Otherwise it returns
    stored events that pass all the given filters, newest first, as many as
    the limit allows, and every matching event left out is no newer than
    each returned one.  A user id or an API key given as the empty string,
    and a start or end time given as 0, count as not given: they filter
    nothing. *)
Theorem scoring_events_endpoint (limit : nat) (user_id' api_key' : option string)
    (start_time end_time : option Q) (current_user : gmap string (list string))
    (p : Process) (monitor : ScoringMonitor) :
  let ep := monitor_endpoints.get_scoring_events time_source db_up sqrt limit user_id'
              api_key' start_time end_time current_user in
  let rows := scoring_events (store (process_world p)) in
  let matching := List.filter (events_where user_id' api_key' start_time end_time) rows in
  has_permission "monitor" current_user = true ->
  _monitor_instance p = Some monitor ->
  _monitor_instance (then_ ep p) = Some monitor /\
  store (process_world (then_ ep p)) = store (process_world p) /\
  (if db_up (db_ops (process_world p))
   then exists l : list ScoringEvent,
          answer ep p = Returns l /\
          length l = Nat.min limit (length matching) /\
          (forall e, e ∈ l -> e ∈ rows /\
                              events_where user_id' api_key' start_time end_time e = true) /\
          StronglySorted (fun a b => (timestamp b <= timestamp a)%Q) l /\
          (forall e e', e ∈ l -> e' ∈ matching -> e' ∉ l ->
                        (timestamp e' <= timestamp e)%Q)
   else answer ep p = Fails (HTTPException 500 "Error retrieving events")) /\
  (forall e, events_where (Some "") (Some "") (Some 0%Q) (Some 0%Q) e = true).
Proof.
  intros ep rows matching Hperm Hinst.
  assert (Hrun : ep p
                 = if db_up (db_ops (process_world p))
                   then (Returns (events_query limit user_id' api_key' start_time
                                    end_time rows),
                         {| _monitor_instance := Some monitor;
                            process_world := set_db_ops (S (db_ops (process_world p)))
                                               (process_world p);
                            root_errors := root_errors p |})
                   else (Fails (HTTPException 500 "Error retrieving events"),
                         {| _monitor_instance := Some monitor;
                            process_world := set_db_ops (S (db_ops (process_world p)))
                                               (process_world p);
                            root_errors := root_errors p |})).
  { unfold ep, monitor_endpoints.get_scoring_events, rows. rewrite Hperm. cbn [negb].
    destruct p as [inst [st lg cr ops] errs]. cbn in Hinst. subst inst.
    unfold p_bind, p_try, get_monitor, call, raise, with_connect, fetch_events.
    cbn. destruct (db_up ops); reflexivity. }
  unfold answer, then_. rewrite Hrun.
  destruct (db_up (db_ops (process_world p))); cbn [fst snd _monitor_instance process_world].
  - split; [reflexivity |]. split; [destruct (process_world p); reflexivity |].
    split; [| reflexivity].
    destruct (events_query_facts limit user_id' api_key' start_time end_time rows)
      as (Hlen & Hin & Hsorted & Hnewest).
    eexists. split; [reflexivity |]. split; [exact Hlen |].
    split; [| split; [exact Hsorted | exact Hnewest]].
    intros e He. apply Hin in He. apply elem_of_list_filter in He. exact He.
  - split; [reflexivity |]. split; [destruct (process_world p); reflexivity |].
    split; reflexivity.
Qed.

End EventsEndpointFacts.

Section AlertsEndpointFacts.

Variable time_source : nat -> Q.
Variable db_up : nat -> bool.
Variable sqrt : Q -> Q.

(** X27: for a caller with the [monitor] permission, once the monitor
    exists, the alerts endpoint never fails and changes nothing but the
    clock counter.  It returns, in their order, exactly the alerts kept in
    memory that are stamped after [now - hours * 3600] and, when a severity
    is asked for, have that severity. *)
Theorem recent_alerts_endpoint (hours : Z) (wanted : option Severity)
    (current_user : gmap string (list string)) (p : Process)
    (monitor : ScoringMonitor) :
  let ep := monitor_endpoints.get_recent_alerts time_source db_up sqrt hours wanted
              current_user in
  let now := time_source (clock_reads (process_world p)) in
  has_permission "monitor" current_user = true ->
  _monitor_instance p = Some monitor ->
  exists l : list AnomalyAlert,
    answer ep p = Returns l /\
    then_ ep p
    = {| _monitor_instance := Some monitor;
         process_world := set_clock_reads (S (clock_reads (process_world p)))
                            (process_world p);
         root_errors := root_errors p |} /\
    sublist l (alerts monitor) /\
    (forall a, a ∈ l <->
               a ∈ alerts monitor /\
               (now - inject_Z hours * 3600 < alert_timestamp a)%Q /\
               match wanted with
               | Some sev => severity a = sev
               | None => True
               end).
Proof.
  intros ep now Hperm Hinst.
  set (recent := alerts_since now hours (alerts monitor)).
  set (l := match wanted with
            | Some sev => List.filter (is_severity sev) recent
            | None => recent
            end).
  assert (Hrun : ep p
                 = (Returns l,
                    {| _monitor_instance := Some monitor;
                       process_world := set_clock_reads (S (clock_reads (process_world p)))
                                          (process_world p);
                       root_errors := root_errors p |})).
  { unfold ep, monitor_endpoints.get_recent_alerts. rewrite Hperm. cbn [negb].
    unfold p_bind at 1. rewrite (get_monitor_built _ _ _ p monitor Hinst).
    unfold p_bind at 1. rewrite (call_run monitor monitor) by exact Hinst.
    unfold outcome, after. rewrite get_recent_alerts_run. cbn [fst snd self world].
    unfold p_ret, tick, on_world. cbn [self world].
    fold now. fold recent. fold l. rewrite Nat.add_1_r. reflexivity. }
  assert (Hsub : forall (q : AnomalyAlert -> bool) xs, sublist (List.filter q xs) xs).
  { intros q xs. induction xs as [| x xs IH]; simpl; [constructor |].
    destruct (q x); [apply sublist_skip | apply sublist_cons]; exact IH. }
  exists l. unfold answer, then_. rewrite Hrun. cbn [fst snd].
  split; [reflexivity |]. split; [reflexivity |]. split.
  - unfold l, recent, alerts_since. destruct wanted as [sev |]; [| apply Hsub].
    etransitivity; apply Hsub.
  - intros a. unfold l, recent, alerts_since. destruct wanted as [sev |].
    + rewrite !elem_of_list_filter, gtb_lt, is_severity_eq. tauto.
    + rewrite elem_of_list_filter, gtb_lt. tauto.
Qed.

End AlertsEndpointFacts.

Lemma cleanup_endpoint_always_success_witness :
  let p := running {| self := self (monitor_with ∅ [] [] []); world := latency_world |} in
  let ep := monitor_endpoints.cleanup_old_data stopped_clock db_always_down sqrt_floor 90
              (user_with ["admin"]) in
  has_permission "admin" (user_with ["admin"]) = true /\
  cleanup_status <$> (match answer ep p with Returns r => Some r | Fails _ => None end)
  = Some "success" /\
  store (process_world (then_ ep p)) = store latency_world /\
  server_error (answer ep (fresh_process latency_world)) = true.
Proof.
  intros p ep.
  assert (Hperm : has_permission "admin" (user_with ["admin"]) = true) by reflexivity.
  split; [exact Hperm |].
  destruct (cleanup_endpoint_always_success stopped_clock db_always_down sqrt_floor 90
              (user_with ["admin"]) p) as (_ & _ & H).
  destruct (H (self (monitor_with ∅ [] [] [])) Hperm eq_refl) as (Ha & _ & _ & Hdown).
  fold ep in Ha, Hdown. rewrite Ha. split; [reflexivity |].
  destruct (Hdown eq_refl) as [Hstore _]. split; [exact Hstore |].
  destruct (cleanup_endpoint_always_success stopped_clock db_always_down sqrt_floor 90
              (user_with ["admin"]) (fresh_process latency_world)) as (_ & Hiff & _).
  apply Hiff. split; [exact Hperm |]. exists OperationalError. reflexivity.
Defined.

Lemma health_check_reports_witness :
  let p := running {| self := self (monitor_with ∅ [] [] []); world := latency_world |} in
  (exists r, answer (monitor_endpoints.monitor_health_check stopped_clock db_always_up
                       sqrt_floor) p = Returns r /\
             health_status r = "healthy" /\ total_events r = Some 10) /\
  (exists r, answer (monitor_endpoints.monitor_health_check stopped_clock db_always_down
                       sqrt_floor) p = Returns r /\
             health_status r = "unhealthy") /\
  answer (monitor_endpoints.monitor_health_check stopped_clock db_always_down sqrt_floor)
         (fresh_process latency_world)
  = Fails (Uncaught OperationalError).
Proof.
  intros p. split; [| split].
  - destruct (health_check_reports stopped_clock db_always_up sqrt_floor p) as [H _].
    destruct (H _ eq_refl) as (r & Hr & _ & _ & _ & _ & _ & Hup).
    cbn in Hup. destruct Hup as (Hs & _ & _ & _ & Hn).
    exists r. split; [exact Hr |]. split; [exact Hs | exact Hn].
  - destruct (health_check_reports stopped_clock db_always_down sqrt_floor p) as [H _].
    destruct (H _ eq_refl) as (r & Hr & _ & _ & _ & _ & _ & Hdown).
    cbn in Hdown. destruct Hdown as (Hs & _).
    exists r. split; [exact Hr | exact Hs].
  - destruct (health_check_reports stopped_clock db_always_down sqrt_floor
                (fresh_process latency_world)) as [_ H].
    destruct (H eq_refl eq_refl) as [Ha _]. exact Ha.
Defined.

Lemma scoring_events_endpoint_witness :
  let p := running {| self := self (monitor_with ∅ [] [] []);
                      world := three_events_world |} in
  let ep := monitor_endpoints.get_scoring_events stopped_clock db_always_up sqrt_floor 2
              None (Some "key-1") None (Some 0%Q) (user_with ["monitor"]) in
  has_permission "monitor" (user_with ["monitor"]) = true /\
  exists l, answer ep p = Returns l /\ length l = 2 /\
            map timestamp l = [300%Q; 200%Q].
Proof.
  intros p ep.
  assert (Hperm : has_permission "monitor" (user_with ["monitor"]) = true) by reflexivity.
  split; [exact Hperm |].
  destruct (scoring_events_endpoint stopped_clock db_always_up sqrt_floor 2
              None (Some "key-1") None (Some 0%Q) (user_with ["monitor"]) p
              (self (monitor_with ∅ [] [] [])) Hperm eq_refl) as (_ & _ & Hup & _).
  cbn [db_always_up] in Hup. destruct Hup as (l & Hl & Hlen & _).
  exists l. fold ep in Hl. split; [exact Hl |]. split; [rewrite Hlen; reflexivity |].
  assert (Hl' : answer ep p
                = Returns [sample_event 300 (1 # 10) None 200;
                           sample_event 200 (1 # 10) None 500]) by reflexivity.
  rewrite Hl' in Hl. injection Hl as <-. reflexivity.
Defined.

Lemma recent_alerts_endpoint_witness :
  let old := sample_alert (-9000) critical in
  let mild := sample_alert 980 low in
  let new := sample_alert 990 critical in
  let p := running (alerted [old; mild; new]) in
  let ep := monitor_endpoints.get_recent_alerts stopped_clock db_always_up sqrt_floor 1
              (Some critical) (user_with ["monitor"]) in
  has_permission "monitor" (user_with ["monitor"]) = true /\
  exists l, answer ep p = Returns l /\ new ∈ l /\ (mild ∉ l) /\ (old ∉ l).
Proof.
  intros old mild new p ep.
  assert (Hperm : has_permission "monitor" (user_with ["monitor"]) = true) by reflexivity.
  split; [exact Hperm |].
  destruct (recent_alerts_endpoint stopped_clock db_always_up sqrt_floor 1
              (Some critical) (user_with ["monitor"]) p
              (self (alerted [old; mild; new])) Hperm eq_refl)
    as (l & Hl & _ & _ & Hiff).
  exists l. split; [exact Hl |]. split; [| split].
  - apply Hiff. split; [| split; [reflexivity | reflexivity]].
    cbn. apply list_elem_of_In. simpl. auto.
  - intros H. apply Hiff in H. destruct H as (_ & _ & H). discriminate H.
  - intros H. apply Hiff in H. destruct H as (_ & H & _).
    revert H. cbn. unfold Qlt. cbn. lia.
Defined.

Section RequestLoggingFacts.

Variable time_source : nat -> Q.
Variable db_up : nat -> bool.
Variable sqrt : Q -> Q.

(** X28: once the monitor exists, [log_scoring_request] stamps the event
    with the clock reading of the call and hands it to [log_scoring_event]
    of the global instance: it returns when the method returns and fails
    with the method's exception when the method raises, and the mutations of
    the method stay in the instance in both cases.  With a baseline whose
    two divisors are not zero, and numbers as the credit scores of the
    window and of the event, the call returns. *)
Theorem log_scoring_request_outcome (user_id api_key : string)
    (request_data response_data : gmap string Q) (processing_time : Q)
    (ip_address user_agent : string) (status_code : Z)
    (error_message : option string) (p : Process) (monitor : ScoringMonitor) :
  let logged := log_scoring_request time_source db_up sqrt user_id api_key request_data
                  response_data processing_time ip_address user_agent status_code
                  error_message in
  let event := {| timestamp := time_source (clock_reads (process_world p));
                  user_id := user_id; api_key := api_key;
                  request_data := request_data; response_data := response_data;
                  processing_time := processing_time; ip_address := ip_address;
                  user_agent := user_agent; status_code := status_code;
                  error_message := error_message |} in
  let method := log_scoring_event time_source db_up event in
  let s := {| self := monitor;
              world := set_clock_reads (S (clock_reads (process_world p)))
                         (process_world p) |} in
  _monitor_instance p = Some monitor ->
  answer logged p = match outcome method s with
                    | Ok _ => Returns tt
                    | Raise e => Fails (Uncaught e)
                    end /\
  then_ logged p = {| _monitor_instance := Some (self (after method s));
                      process_world := world (after method s);
                      root_errors := root_errors p |} /\
  (divisors_nonzero (baseline_metrics monitor) -> answer logged p = Returns tt).
Proof.
  intros logged event method s Hinst.
  assert (Hrun : logged p
                 = (match outcome method s with
                    | Ok a => Returns a
                    | Raise e => Fails (Uncaught e)
                    end,
                    {| _monitor_instance := Some (self (after method s));
                       process_world := world (after method s);
                       root_errors := root_errors p |})).
  { unfold logged. rewrite log_scoring_request_run. cbv zeta.
    rewrite (get_monitor_built _ _ _ _ monitor) by exact Hinst.
    rewrite (call_run monitor monitor) by exact Hinst. reflexivity. }
  unfold answer, then_. rewrite Hrun. cbn [fst snd].
  split; [destruct (outcome method s) as [[] |]; reflexivity |].
  split; [reflexivity |].
  intros Hnz.
  pose proof (log_scoring_event_returns time_source db_up event s Hnz) as Hok.
  fold method in Hok. rewrite Hok. reflexivity.
Qed.

End RequestLoggingFacts.

Lemma log_scoring_request_outcome_witness :
  let good := running (monitor_with (baseline_of (1 # 2) (1 # 5) 500 150) [] [] []) in
  let logged := log_scoring_request stopped_clock db_always_up sqrt_floor "user-1" "key-1"
                  ∅ ∅ (1 # 10) "10.0.0.1" "kifaa-client" 200 None in
  divisors_nonzero (baseline_of (1 # 2) (1 # 5) 500 150) /\
  answer logged good = Returns tt /\
  (exists monitor, _monitor_instance (then_ logged good) = Some monitor /\
                   map timestamp (recent_events monitor) = [1000%Q]).
Proof.
  intros good logged.
  assert (Hnz : divisors_nonzero (baseline_of (1 # 2) (1 # 5) 500 150)).
  { unfold divisors_nonzero. cbn. split; intros H; discriminate H. }
  split; [exact Hnz |].
  destruct (log_scoring_request_outcome stopped_clock db_always_up sqrt_floor "user-1"
              "key-1" ∅ ∅ (1 # 10) "10.0.0.1" "kifaa-client" 200 None good
              (self (monitor_with (baseline_of (1 # 2) (1 # 5) 500 150) [] [] []))
              eq_refl) as (_ & Hthen & Hret).
  split; [exact (Hret Hnz) |].
  unfold logged. rewrite Hthen. eexists. split; reflexivity.
Defined.

Lemma get_monitor_singleton_witness :
  let p := fresh_process empty_world in
  _monitor_instance p = None /\
  (exists monitor,
     answer (get_monitor stopped_clock db_always_up sqrt_floor) p = Returns monitor /\
     windows monitor = (1000, [], [], [])) /\
  answer (get_monitor stopped_clock db_always_down sqrt_floor) p
  = Fails (Uncaught OperationalError).
Proof.
  intros p. split; [reflexivity |]. split.
  - destruct (get_monitor_singleton stopped_clock db_always_up sqrt_floor p) as [_ H].
    destruct (H eq_refl) as (_ & _ & Hup). cbn [db_always_up] in Hup.
    destruct Hup as (monitor & Ha & _ & Hw & _).
    exists monitor. split; [exact Ha | exact Hw].
  - destruct (get_monitor_singleton stopped_clock db_always_down sqrt_floor p) as [_ H].
    destruct (H eq_refl) as (_ & _ & Hdown). cbn [db_always_down] in Hdown.
    destruct Hdown as [Ha _]. exact Ha.
Defined.
